(** * Compare_App: the comparison engine of [app.py]

    A shallow embedding of [normalize_dates] and [compare_files] and of the
    pandas operations they call.

    Modelling conventions.
    - A [DataFrame] is a list of column labels and a list of rows; every
      column has dtype [object], so a cell is the Python object itself
      (an [int], a [str], a [datetime.date], or one of the missing markers
      [nan] and [NaT]).  Text is ASCII.
    - DataFrames are heap objects: [compare_files] receives two references,
      [rename]/[sort_values]/[merge] allocate fresh frames and the
      assignments [df.columns = ...] and [df[col] = ...] update a frame in
      place.
    - Four pieces of pandas are left as parameters of the model: the
      permutation computed by the default ([kind='quicksort']) [argsort],
      the cell parser behind [pd.to_datetime(..., errors='coerce')], whether
      the column it returns is a datetime column (so that [.dt] exists), and
      the text that [str] gives for a [Series] (reached only when a looked-up
      label is duplicated in a merged row). *)

From Stdlib Require Import ZArith List String Ascii Bool Lia Permutation DecimalString.
From stdpp Require Import base option list strings gmap.
Import ListNotations.
Open Scope string_scope.
Open Scope list_scope.
Open Scope nat_scope.

(* ------------------------------------------------------------------ *)
(** ** Python strings *)

Module PyStr.

(** [str.isspace] on ASCII: TAB, LF, VT, FF, CR, FS, GS, RS, US and space. *)
Definition is_space (c : ascii) : bool :=
  let n := nat_of_ascii c in
  ((9 <=? n) && (n <=? 13)) || ((28 <=? n) && (n <=? 32)).

Fixpoint lstrip (s : string) : string :=
  match s with
  | EmptyString => EmptyString
  | String c r => if is_space c then lstrip r else s
  end.

Fixpoint rstrip (s : string) : string :=
  match s with
  | EmptyString => EmptyString
  | String c r =>
      match rstrip r with
      | EmptyString => if is_space c then EmptyString else String c EmptyString
      | r' => String c r'
      end
  end.

(** [s.strip()] *)
Definition strip (s : string) : string := rstrip (lstrip s).

Definition lower_ascii (c : ascii) : ascii :=
  let n := nat_of_ascii c in
  if (65 <=? n) && (n <=? 90) then ascii_of_nat (n + 32) else c.

(** [s.lower()] *)
Fixpoint lower (s : string) : string :=
  match s with
  | EmptyString => EmptyString
  | String c r => String (lower_ascii c) (lower r)
  end.

(** [str(n)] for a non-negative integer, left-padded with zeros to [width]
    (the [%04d] and [%02d] of [date.isoformat]). *)
Definition zero_pad (width n : nat) : string :=
  let digits := NilZero.string_of_uint (Nat.to_uint n) in
  String.concat "" (repeat "0" (width - String.length digits)) +:+ digits.

End PyStr.

(* ------------------------------------------------------------------ *)
(** ** Cells *)

Inductive cell : Type :=
  | NaN                                (* float('nan'): an empty cell *)
  | NaT                                (* pandas.NaT: a date that failed to parse *)
  | Int (z : Z)
  | Str (s : string)
  | Date (year month day : nat).       (* datetime.date *)

#[global] Instance cell_eq_dec : EqDecision cell.
Proof. solve_decision. Defined.

Definition cell_eqb (a b : cell) : bool := bool_decide (a = b).

(** [pd.isna] *)
Definition isna (c : cell) : bool :=
  match c with NaN | NaT => true | _ => false end.

(** [str(value)] *)
Definition py_str (c : cell) : string :=
  match c with
  | NaN => "nan"
  | NaT => "NaT"
  | Int z => NilZero.string_of_int (Z.to_int z)
  | Str s => s
  | Date y m d =>
      PyStr.zero_pad 4 y +:+ "-" +:+ PyStr.zero_pad 2 m +:+ "-" +:+ PyStr.zero_pad 2 d
  end.

(** The Python type of a non-missing cell; [<] is defined within one type
    only and raises [TypeError] across two. *)
Inductive kind : Type := KInt | KStr | KDate | KFloat.

#[global] Instance kind_eq_dec : EqDecision kind.
Proof. solve_decision. Defined.

Definition kind_of (c : cell) : kind :=
  match c with
  | Int _ => KInt
  | Str _ => KStr
  | Date _ _ _ => KDate
  | NaN | NaT => KFloat
  end.

Fixpoint string_ltb (a b : string) : bool :=
  match a, b with
  | _, EmptyString => false
  | EmptyString, String _ _ => true
  | String x a', String y b' =>
      (nat_of_ascii x <? nat_of_ascii y)
      || ((nat_of_ascii x =? nat_of_ascii y) && string_ltb a' b')
  end.

(** [a < b] on two cells of one type: the key's natural ordering. *)
Definition cell_ltb (a b : cell) : bool :=
  match a, b with
  | Int x, Int y => (x <? y)%Z
  | Str x, Str y => string_ltb x y
  | Date y1 m1 d1, Date y2 m2 d2 =>
      (y1 <? y2) || ((y1 =? y2) && ((m1 <? m2) || ((m1 =? m2) && (d1 <? d2))))
  | _, _ => false
  end.

(** All cells of the list have one Python type: sorting them raises nothing. *)
Definition homogeneous (ks : list cell) : bool :=
  match ks with
  | [] => true
  | k :: rest => forallb (fun x => bool_decide (kind_of x = kind_of k)) rest
  end.

(** [ks] is in ascending order: no element is smaller than its predecessor. *)
Fixpoint ascending (ks : list cell) : bool :=
  match ks with
  | a :: (b :: _) as rest => negb (cell_ltb b a) && ascending rest
  | _ => true
  end.

(* ------------------------------------------------------------------ *)
(** ** DataFrames, exceptions and the object heap *)

Record DataFrame : Type := mkFrame {
  columns : list string;          (* df.columns *)
  rows : list (list cell)         (* one list of cells per row, in column order *)
}.

Inductive exn : Type := KeyError | ValueError | TypeError | AttributeError.

Inductive result (A : Type) : Type :=
  | Ok (a : A)
  | Raise (e : exn).
Arguments Ok {A} a.
Arguments Raise {A} e.

(** Python computations over the heap of DataFrame objects. A raised
    exception keeps the heap reached so far. *)
Abbreviation heap := (gmap nat DataFrame).

Definition Py (A : Type) : Type := heap -> result A * heap.

#[global] Instance Py_ret : MRet Py := fun A a h => (Ok a, h).
#[global] Instance Py_bind : MBind Py := fun A B f m h =>
  match m h with
  | (Ok a, h') => f a h'
  | (Raise e, h') => (Raise e, h')
  end.

Definition raise {A : Type} (e : exn) : Py A := fun h => (Raise e, h).

Definition empty_frame : DataFrame := mkFrame [] [].

(** Dereference an object. *)
Definition load (l : nat) : Py DataFrame :=
  fun h => (Ok (default empty_frame (h !! l)), h).

(** Update an object in place. *)
Definition store (l : nat) (d : DataFrame) : Py unit :=
  fun h => (Ok tt, <[l := d]> h).

(** Create a new object. *)
Definition alloc (d : DataFrame) : Py nat :=
  fun h => let l := fresh (dom h) in (Ok l, <[l := d]> h).

(** Lift a pandas method that returns a new frame or raises. *)
Definition new_frame (r : result DataFrame) : Py nat :=
  match r with
  | Ok d => alloc d
  | Raise e => raise e
  end.

(* ------------------------------------------------------------------ *)
(** ** Label lookup *)

(** The positions at which [label] occurs in an index. *)
Fixpoint get_loc_from (i : nat) (label : string) (index : list string) : list nat :=
  match index with
  | [] => []
  | l :: rest =>
      (if String.eqb l label then [i] else []) ++ get_loc_from (S i) label rest
  end.

Definition get_loc (label : string) (index : list string) : list nat :=
  get_loc_from 0 label index.

(** [label in index] *)
Definition label_in (label : string) (index : list string) : bool :=
  existsb (String.eqb label) index.

(** [row[label]] where the label is known to occur once: the cell there. *)
Definition item (index : list string) (row : list cell) (label : string) : cell :=
  match get_loc label index with
  | p :: _ => nth p row NaN
  | [] => NaN
  end.

(* ------------------------------------------------------------------ *)
(** ** pandas operations on frame values *)

(** [df.rename(columns={old: new})]: unknown labels are ignored. *)
Definition rename (old new : string) (d : DataFrame) : DataFrame :=
  mkFrame (map (fun c => if String.eqb c old then new else c) (columns d)) (rows d).

(** [df.columns.str.lower()] *)
Definition str_lower (index : list string) : list string := map PyStr.lower index.

(** Replace the cells of column [p] by their image under [f]. *)
Definition set_column (p : nat) (f : cell -> cell) (d : DataFrame) : DataFrame :=
  mkFrame (columns d) (map (alter f p) (rows d)).

(** The values of column [p]. *)
Definition column_values (p : nat) (d : DataFrame) : list cell :=
  map (fun r => nth p r NaN) (rows d).

(** Join-key equality: equal objects match, and all missing keys form one
    group. *)
Definition key_match (a b : cell) : bool :=
  (isna a && isna b) || cell_eqb a b.

(** The distinct cells of a list in order of first appearance. *)
Fixpoint nub (ks : list cell) : list cell :=
  match ks with
  | [] => []
  | k :: rest => k :: List.filter (fun x => negb (cell_eqb k x)) (nub rest)
  end.

(** Factorisation of the join keys: one representative per group, non-missing
    keys in order of first appearance, then the group of missing keys. *)
Definition key_groups (ks : list cell) : list cell :=
  nub (List.filter (fun k => negb (isna k)) ks)
  ++ (if existsb isna ks then [NaN] else []).

(** Remove position [p] of a list. *)
Definition drop_nth {A : Type} (p : nat) (l : list A) : list A :=
  firstn p l ++ skipn (S p) l.

Definition suffix_file1 : string := "_file1".
Definition suffix_file2 : string := "_file2".
Definition key_label : string := "keycolumn".

(** Labels of a merged frame: a label carried by both sides (the key apart)
    gets the side's suffix. *)
Definition merged_labels (suffix : string) (mine other : list string) : list string :=
  map (fun x => if negb (String.eqb x key_label) && label_in x mine && label_in x other
                then x +:+ suffix else x) mine.

Definition row_both (kr : nat) (l r : list cell) : list cell :=
  l ++ drop_nth kr r ++ [Str "both"].

Definition row_left_only (wr : nat) (l : list cell) : list cell :=
  l ++ repeat NaN (wr - 1) ++ [Str "left_only"].

Definition row_right_only (kl kr wl : nat) (r : list cell) : list cell :=
  <[kl := nth kr r NaN]> (repeat NaN wl) ++ drop_nth kr r ++ [Str "right_only"].

(** The joined rows of the group of key [g]: within a matched group every
    left row is paired with every right row. *)
Definition group_rows (kl kr wl wr : nat) (L R : list (list cell)) (g : cell)
    : list (list cell) :=
  let ls := List.filter (fun r => key_match g (nth kl r NaN)) L in
  let rs := List.filter (fun r => key_match g (nth kr r NaN)) R in
  match ls, rs with
  | [], _ => map (row_right_only kl kr wl) rs
  | _, [] => map (row_left_only wr) ls
  | _, _ => flat_map (fun l => map (row_both kr l) rs) ls
  end.

(** The rows of the full outer join, group by group (the order in which
    pandas 1.x emits them; no statement below depends on it). *)
Definition merge_rows (kl kr wl wr : nat) (L R : list (list cell)) : list (list cell) :=
  flat_map (group_rows kl kr wl wr L R)
    (key_groups (map (fun r => nth kl r NaN) L ++ map (fun r => nth kr r NaN) R)).

(** [pd.merge(left, right, on='keycolumn', suffixes=('_file1', '_file2'),
    how='outer', indicator=True)]. The cells of a joined row are the objects
    of the two rows; that pandas rebuilds a column of integers as a column of
    floats when the join fills it with [NaN] is not modelled, and what is
    stated below of the text of such cells is stated for columns without
    integers. *)
Definition merge (left right : DataFrame) : result DataFrame :=
  match get_loc key_label (columns left), get_loc key_label (columns right) with
  | [kl], [kr] =>
      if existsb (fun c => label_in c (columns left) || label_in c (columns right))
           ["_merge"; "_left_indicator"; "_right_indicator"]
      then Raise ValueError
      else
        Ok (mkFrame
              (merged_labels suffix_file1 (columns left) (columns right)
               ++ drop_nth kr (merged_labels suffix_file2 (columns right) (columns left))
               ++ ["_merge"])
              (merge_rows kl kr (length (columns left)) (length (columns right))
                 (rows left) (rows right)))
  | [], _ | _, [] => Raise KeyError
  | _, _ => Raise ValueError
  end.

(* ------------------------------------------------------------------ *)
(** ** The program *)

Record Config : Type := mkConfig {
  file1_key_column : string;                   (* config['file1']['key_column'] *)
  file2_key_column : string;                   (* config['file2']['key_column'] *)
  columns_to_compare : list string;            (* config['columns_to_compare'] *)
  date_columns : option (list string);         (* config.get('date_columns') *)
  decimal_columns : option (list string)       (* config.get('decimal_columns') *)
}.

(** What [compare_files] returns. *)
Record Report : Type := mkReport {
  summary : DataFrame;
  comparison_df : DataFrame;
  missing_in_file1 : DataFrame;
  missing_in_file2 : DataFrame
}.

Section Program.

(** The permutation [values.argsort(kind='quicksort')] returns. *)
Variable argsort : list cell -> list nat.
(** The date [pd.to_datetime(..., errors='coerce')] reads in one cell, if
    any; each cell is read on its own (values without a time zone). *)
Variable parse_date : cell -> option (nat * nat * nat).
(** Whether [pd.to_datetime(column, errors='coerce')] is a datetime column, on
    which [.dt] is defined. It is not, for one, when the texts of the column
    carry different UTC offsets: the converted column then has dtype [object]
    and [.dt] raises [AttributeError]. *)
Variable datetimelike : list cell -> bool.
(** [str(s)] for the [Series] that [row[label]] is when [label] is duplicated:
    the name of the row, the label and the values under it. *)
Variable series_str : nat -> string -> list cell -> string.

(** [pd.to_datetime(x, errors='coerce')] followed by [.dt.date], on one cell. *)
Definition to_date (c : cell) : cell :=
  match parse_date c with
  | Some (y, m, d) => Date y m d
  | None => NaT
  end.

(** [nargsort]: the non-missing keys are sorted, the missing ones go last. *)
Definition nargsort (k : list cell) : result (list nat) :=
  let idx := seq 0 (length k) in
  let non_nan_idx := List.filter (fun j => negb (isna (nth j k NaN))) idx in
  let nan_idx := List.filter (fun j => isna (nth j k NaN)) idx in
  let non_nans := map (fun j => nth j k NaN) non_nan_idx in
  if homogeneous non_nans
  then Ok (map (fun p => nth p non_nan_idx 0) (argsort non_nans) ++ nan_idx)
  else Raise TypeError.

(** [df.sort_values(by=label).reset_index(drop=True)] *)
Definition sort_values (label : string) (d : DataFrame) : result DataFrame :=
  match get_loc label (columns d) with
  | [] => Raise KeyError
  | [p] =>
      match nargsort (column_values p d) with
      | Ok indexer => Ok (mkFrame (columns d) (map (fun j => nth j (rows d) []) indexer))
      | Raise e => Raise e
      end
  | _ => Raise ValueError
  end.

(** The body of the loop of [normalize_dates]. [df[col]] is a frame when the
    label is duplicated, and [pd.to_datetime] refuses it; on a column that
    does not convert to a datetime column, [.dt] raises. *)
Definition normalize_column (df : nat) (col : string) : Py unit :=
  d ← load df;
  if label_in col (columns d) then
    match get_loc col (columns d) with
    | [p] =>
        if datetimelike (column_values p d)
        then store df (set_column p to_date d)
        else raise AttributeError
    | _ => raise ValueError
    end
  else mret tt.

Fixpoint normalize_loop (df : nat) (date_columns : list string) : Py unit :=
  match date_columns with
  | [] => mret tt
  | col :: rest => normalize_column df col ;; normalize_loop df rest
  end.

(** [normalize_dates(df, date_columns)]: updates [df] in place and returns it. *)
Definition normalize_dates (df : nat) (date_columns : list string) : Py nat :=
  normalize_loop df date_columns ;; mret df.

(** [str(row[label])] *)
Definition str_item (name : nat) (index : list string) (row : list cell)
    (label : string) : string :=
  match get_loc label index with
  | [p] => py_str (nth p row NaN)
  | ps => series_str name label (map (fun p => nth p row NaN) ps)
  end.

(** The inner loop body of the detailed comparison: the entry appended to
    [record_comparison] for one compared column. *)
Definition compare_column (name : nat) (index : list string) (row : list cell)
    (column : string) : cell :=
  let col_file1 := column +:+ suffix_file1 in
  let col_file2 := column +:+ suffix_file2 in
  if label_in col_file1 index && label_in col_file2 index then
    let val1 := PyStr.strip (str_item name index row col_file1) in
    let val2 := PyStr.strip (str_item name index row col_file2) in
    if String.eqb val1 val2 then Str "Matched"
    else Str (val1 +:+ " | " +:+ val2)
  else Str "Not Available".

(** [row['_merge'] == tag] *)
Definition merge_is (tag : string) (index : list string) (row : list cell) : bool :=
  cell_eqb (item index row "_merge") (Str tag).

(** [comparison_results] *)
Definition comparison_results (columns_to_compare : list string) (merged_df : DataFrame)
    : list (list cell) :=
  flat_map
    (fun '(name, row) =>
       if merge_is "both" (columns merged_df) row then
         [item (columns merged_df) row key_label
          :: map (compare_column name (columns merged_df) row) columns_to_compare]
       else [])
    (zip (seq 0 (length (rows merged_df))) (rows merged_df)).

(** [merged_df[merged_df['_merge'] == tag]['keycolumn'].to_frame()] *)
Definition keys_tagged (tag : string) (merged_df : DataFrame) : DataFrame :=
  mkFrame [key_label]
    (map (fun row => [item (columns merged_df) row key_label])
       (List.filter (merge_is tag (columns merged_df)) (rows merged_df))).

(** Everything [compare_files] computes from [merged_df]. *)
Definition report_of (columns_to_compare : list string) (merged_df : DataFrame) : Report :=
  let matched_records :=
    length (List.filter (merge_is "both" (columns merged_df)) (rows merged_df)) in
  let not_matched_records :=
    length (List.filter (fun row => negb (merge_is "both" (columns merged_df) row))
              (rows merged_df)) in
  let summary :=
    mkFrame ["Description"; "Count"]
      [[Str "Matched Records"; Int (Z.of_nat matched_records)];
       [Str "Not Matched Records"; Int (Z.of_nat not_matched_records)]] in
  let comparison_df :=
    mkFrame ("KeyColumn" :: columns_to_compare)
      (comparison_results columns_to_compare merged_df) in
  let missing_in_file1 := keys_tagged "right_only" merged_df in
  let missing_in_file2 := keys_tagged "left_only" merged_df in
  mkReport summary comparison_df missing_in_file1 missing_in_file2.

(** [compare_files(df1, df2, config)] *)
Definition compare_files (df1 df2 : nat) (config : Config) : Py Report :=
  let columns_to_compare := columns_to_compare config in
  let date_columns := default [] (date_columns config) in
  let decimal_columns := default [] (decimal_columns config) in
  (* Rename key columns to a common name *)
  df1 ← (d ← load df1; alloc (rename (file1_key_column config) "KeyColumn" d));
  df2 ← (d ← load df2; alloc (rename (file2_key_column config) "KeyColumn" d));
  (* Standardize column names to lowercase *)
  (d ← load df1; store df1 (mkFrame (str_lower (columns d)) (rows d))) ;;
  (d ← load df2; store df2 (mkFrame (str_lower (columns d)) (rows d))) ;;
  let columns_to_compare := map PyStr.lower columns_to_compare in
  let date_columns := map PyStr.lower date_columns in
  (* Normalize date columns *)
  df1 ← normalize_dates df1 date_columns;
  df2 ← normalize_dates df2 date_columns;
  (* Sort dataframes by key column *)
  df1 ← (d ← load df1; new_frame (sort_values key_label d));
  df2 ← (d ← load df2; new_frame (sort_values key_label d));
  (* Merge dataframes on the key column *)
  merged_df ← (l ← load df1; r ← load df2; new_frame (merge l r));
  m ← load merged_df;
  mret (report_of columns_to_compare m).

(* ------------------------------------------------------------------ *)
(** ** The same pipeline on frame values

    What the heap computation does to the two frames it is given, written
    without the heap; [compare_files_run] below relates the two. *)

(** One round of the loop of [normalize_dates] on a frame value. *)
Definition normalize_step (d : DataFrame) (col : string) : result DataFrame :=
  if label_in col (columns d) then
    match get_loc col (columns d) with
    | [p] =>
        if datetimelike (column_values p d)
        then Ok (set_column p to_date d)
        else Raise AttributeError
    | _ => Raise ValueError
    end
  else Ok d.

Fixpoint normalize_frame (date_columns : list string) (d : DataFrame) : result DataFrame :=
  match date_columns with
  | [] => Ok d
  | col :: rest =>
      match normalize_step d col with
      | Ok d' => normalize_frame rest d'
      | Raise e => Raise e
      end
  end.

(** A table as it enters the sort: key renamed, labels lower-cased, dates
    normalised. *)
Definition prepare (key_column : string) (config : Config) (d : DataFrame)
    : result DataFrame :=
  let renamed := rename key_column "KeyColumn" d in
  normalize_frame (map PyStr.lower (default [] (date_columns config)))
    (mkFrame (str_lower (columns renamed)) (rows renamed)).

Definition bind_result {A B : Type} (r : result A) (f : A -> result B) : result B :=
  match r with
  | Ok a => f a
  | Raise e => Raise e
  end.

(** [merged_df] as a function of the two input tables. *)
Definition merged_frame (a b : DataFrame) (config : Config) : result DataFrame :=
  bind_result (prepare (file1_key_column config) config a) (fun a1 =>
  bind_result (prepare (file2_key_column config) config b) (fun b1 =>
  bind_result (sort_values key_label a1) (fun a2 =>
  bind_result (sort_values key_label b1) (fun b2 =>
  merge a2 b2)))).

Definition compare_frames (a b : DataFrame) (config : Config) : result Report :=
  bind_result (merged_frame a b config) (fun m =>
  Ok (report_of (map PyStr.lower (columns_to_compare config)) m)).

End Program.

(* ------------------------------------------------------------------ *)
(** ** Vocabulary of the statements *)

(** Every row has one cell per column. *)
Definition rectangular (d : DataFrame) : Prop :=
  Forall (fun row => length row = length (columns d)) (rows d).

(** [df['keycolumn']]: the join keys of a prepared table, row by row. *)
Definition join_keys (d : DataFrame) : list cell :=
  map (fun row => item (columns d) row key_label) (rows d).

(** The key occurs in the table, as the join matches keys. *)
Definition has_key (ks : list cell) (k : cell) : bool := existsb (key_match k) ks.

(** Every object of the heap [h0] is still there, unchanged, in [h]. *)
Definition preserves (h0 h : gmap nat DataFrame) : Prop :=
  forall l, is_Some (h0 !! l) -> h !! l = h0 !! l.

(** The layout of a joined row: the key of the left table at [kl], the
    indicator after the [wl] cells of the left table and the [wr - 1] cells
    of the right one, both tables being rectangular. *)
Record join_shape (kl kr wl wr : nat) (L R : list (list cell)) (index : list string)
    : Prop := {
  shape_kl : kl < wl;
  shape_kr : kr < wr;
  shape_L : forall l, In l L -> length l = wl;
  shape_R : forall r, In r R -> length r = wr;
  shape_tag : forall row, item index row "_merge" = nth (wl + (wr - 1)) row NaN;
  shape_key : forall row, item index row key_label = nth kl row NaN
}.

(** The indicator of a joined row, from the tables that hold its key: the
    keys [ka] of the left table and the keys [kb] of the right one. *)
Definition side_tag (ka kb : list cell) (k : cell) : string :=
  if has_key ka k then if has_key kb k then "both" else "left_only"
  else "right_only".

(** What pandas promises of [argsort]: a permutation of the positions ... *)
Definition argsort_permutes (argsort : list cell -> list nat) : Prop :=
  forall ks, homogeneous ks = true -> Permutation (argsort ks) (seq 0 (length ks)).

(** ... that lists the values in ascending order. *)
Definition argsort_ascends (argsort : list cell -> list nat) : Prop :=
  forall ks, homogeneous ks = true ->
    ascending (map (fun p => nth p ks NaN) (argsort ks)) = true.

(** Two lists of labels that differ in letter case only, position by
    position, and in which the designated key column sits at the same
    positions. *)
Definition same_labels_up_to_case (key_column : string) (xs ys : list string) : Prop :=
  Forall2 (fun x y => PyStr.lower x = PyStr.lower y /\ (x = key_column <-> y = key_column))
    xs ys.

(** What a cell of a date column is specified to become: its parsed date,
    or the missing marker [NaT] when the parse fails. *)
Definition parsed_date (parse_date : cell -> option (nat * nat * nat)) (v : cell) : cell :=
  match parse_date v with
  | Some (year, month, day) => Date year month day
  | None => NaT
  end.

(** The table [normalize_dates] is specified to produce: in every row, the
    cells under a label of [date_columns] are replaced by their date (or
    [NaT]), the others are kept. *)
Definition dates_normalized (parse_date : cell -> option (nat * nat * nat))
    (date_columns : list string) (d : DataFrame) : DataFrame :=
  mkFrame (columns d)
    (map (fun row =>
            imap (fun p v =>
                    match columns d !! p with
                    | Some c => if label_in c date_columns then parsed_date parse_date v else v
                    | None => v
                    end) row)
       (rows d)).

(** The named column converts to a datetime column, or is absent or
    duplicated (and raises or is skipped for that reason). *)
Definition convertible (datetimelike : list cell -> bool) (d : DataFrame) (col : string)
    : bool :=
  match get_loc col (columns d) with
  | [p] => datetimelike (column_values p d)
  | _ => true
  end.

(* ------------------------------------------------------------------ *)
(** ** Instances of the pandas parameters *)

(** [argsort(kind='stable')]: insertion of each position after the positions
    whose key is not larger. *)
Module StableSort.

Fixpoint insert_pos (v : list cell) (i : nat) (sorted : list nat) : list nat :=
  match sorted with
  | [] => [i]
  | j :: rest =>
      if cell_ltb (nth i v NaN) (nth j v NaN) then i :: sorted
      else j :: insert_pos v i rest
  end.

Definition argsort (v : list cell) : list nat :=
  fold_left (fun acc i => insert_pos v i acc) (seq 0 (length v)) [].

End StableSort.

(** numpy's default [argsort]: the introsort of [npysort/quicksort]
    ([aquicksort]), which partitions around the median of three while a range
    holds more than [SMALL_QUICKSORT] + 1 entries, finishes each range by
    insertion sort, and falls back to heap sort ([aheapsort]) once the depth
    limit is used up. [tosort] is the array of positions being permuted;
    pointers into it are integers. *)
Module NumpySort.

Section Arrays.

Variable v : list cell.

Definition get (t : list nat) (p : Z) : nat := nth (Z.to_nat p) t 0.
Definition set (t : list nat) (p : Z) (x : nat) : list nat := <[Z.to_nat p := x]> t.
Definition swap (t : list nat) (p q : Z) : list nat :=
  set (set t p (get t q)) q (get t p).

(** [LT(v[a], v[b])] *)
Definition lt (a b : nat) : bool := cell_ltb (nth a v NaN) (nth b v NaN).

Definition SMALL_QUICKSORT : Z := 16.

(** [do ++pi; while (LT(v[*pi], vp));] *)
Fixpoint scan_up (fuel : nat) (t : list nat) (vp : nat) (pi : Z) : Z :=
  let pi := (pi + 1)%Z in
  match fuel with
  | O => pi
  | S fuel => if lt (get t pi) vp then scan_up fuel t vp pi else pi
  end.

(** [do --pj; while (LT(vp, v[*pj]));] *)
Fixpoint scan_down (fuel : nat) (t : list nat) (vp : nat) (pj : Z) : Z :=
  let pj := (pj - 1)%Z in
  match fuel with
  | O => pj
  | S fuel => if lt vp (get t pj) then scan_down fuel t vp pj else pj
  end.

(** The [for (;;)] loop of the partition; returns the array and [pi]. *)
Fixpoint exchange (fuel : nat) (t : list nat) (vp : nat) (pi pj : Z) : list nat * Z :=
  let pi := scan_up (length t) t vp pi in
  let pj := scan_down (length t) t vp pj in
  match fuel with
  | O => (t, pi)
  | S fuel =>
      if (pi >=? pj)%Z then (t, pi)
      else exchange fuel (swap t pi pj) vp pi pj
  end.

(** One round of the [while ((pr - pl) > SMALL_QUICKSORT)] loop up to the
    final swap; returns the array and the pivot's place [pi]. *)
Definition partition (t : list nat) (pl pr : Z) : list nat * Z :=
  let pm := (pl + Z.shiftr (pr - pl) 1)%Z in
  let t := if lt (get t pm) (get t pl) then swap t pm pl else t in
  let t := if lt (get t pr) (get t pm) then swap t pr pm else t in
  let t := if lt (get t pm) (get t pl) then swap t pm pl else t in
  let vp := get t pm in
  let pi := pl in
  let pj := (pr - 1)%Z in
  let t := swap t pm pj in
  let '(t, pi) := exchange (length t) t vp pi pj in
  let pk := (pr - 1)%Z in
  (swap t pi pk, pi).

(** The inner [while] of insertion sort: shift larger entries up. *)
Fixpoint shift (fuel : nat) (t : list nat) (pl : Z) (vi : nat) (pj : Z) : list nat * Z :=
  match fuel with
  | O => (t, pj)
  | S fuel =>
      if (pj >? pl)%Z && lt vi (get t (pj - 1))
      then shift fuel (set t pj (get t (pj - 1))) pl vi (pj - 1)%Z
      else (t, pj)
  end.

(** [for (pi = pl + 1; pi <= pr; ++pi)] of insertion sort. *)
Fixpoint insertion (fuel : nat) (t : list nat) (pl pr pi : Z) : list nat :=
  match fuel with
  | O => t
  | S fuel =>
      if (pi <=? pr)%Z then
        let vi := get t pi in
        let '(t, pj) := shift (length t) t pl vi pi in
        insertion fuel (set t pj vi) pl pr (pi + 1)%Z
      else t
  end.

(** The sift-down loop of [aheapsort] on the 1-based array [a = tosort + pl - 1]
    of [n] entries; returns the array and the hole [i]. *)
Fixpoint sift (fuel : nat) (t : list nat) (pl n : Z) (tmp : nat) (i j : Z) : list nat * Z :=
  match fuel with
  | O => (t, i)
  | S fuel =>
      if (j <=? n)%Z then
        let a k := get t (pl - 1 + k)%Z in
        let j := if (j <? n)%Z && lt (a j) (a (j + 1)%Z) then (j + 1)%Z else j in
        if lt tmp (a j)
        then sift fuel (set t (pl - 1 + i) (a j)) pl n tmp j (j + j)%Z
        else (t, i)
      else (t, i)
  end.

(** [for (l = n >> 1; l > 0; --l)]: build the heap. *)
Fixpoint heapify (fuel : nat) (t : list nat) (pl n l : Z) : list nat :=
  match fuel with
  | O => t
  | S fuel =>
      if (l >? 0)%Z then
        let tmp := get t (pl - 1 + l) in
        let '(t, i) := sift (length t) t pl n tmp l (Z.shiftl l 1) in
        heapify fuel (set t (pl - 1 + i) tmp) pl n (l - 1)%Z
      else t
  end.

(** [for (; n > 1;)]: move the maximum to the end and restore the heap. *)
Fixpoint extract (fuel : nat) (t : list nat) (pl n : Z) : list nat :=
  match fuel with
  | O => t
  | S fuel =>
      if (n >? 1)%Z then
        let tmp := get t (pl - 1 + n) in
        let t := set t (pl - 1 + n) (get t pl) in
        let n := (n - 1)%Z in
        let '(t, i) := sift (length t) t pl n tmp 1 2 in
        extract fuel (set t (pl - 1 + i) tmp) pl n
      else t
  end.

Definition aheapsort (t : list nat) (pl n : Z) : list nat :=
  extract (length t) (heapify (length t) t pl n (Z.shiftr n 1)) pl n.

(** The [while ((pr - pl) > SMALL_QUICKSORT)] loop: partition, push the larger
    part with the decremented depth, go on with the smaller. *)
Fixpoint partition_loop (fuel : nat) (t : list nat) (pl pr : Z)
    (stack : list (Z * Z * Z)) (cdepth : Z)
    : list nat * Z * Z * list (Z * Z * Z) * Z :=
  match fuel with
  | O => (t, pl, pr, stack, cdepth)
  | S fuel =>
      if (pr - pl >? SMALL_QUICKSORT)%Z then
        let '(t, pi) := partition t pl pr in
        let cdepth := (cdepth - 1)%Z in
        if (pi - pl <? pr - pi)%Z
        then partition_loop fuel t pl (pi - 1)%Z ((pi + 1, pr, cdepth)%Z :: stack) cdepth
        else partition_loop fuel t (pi + 1)%Z pr ((pl, pi - 1, cdepth)%Z :: stack) cdepth
      else (t, pl, pr, stack, cdepth)
  end.

(** The outer [while (1)]. *)
Fixpoint sort_loop (fuel : nat) (t : list nat) (pl pr : Z)
    (stack : list (Z * Z * Z)) (cdepth : Z) : list nat :=
  match fuel with
  | O => t
  | S fuel =>
      let '(t, stack) :=
        if (cdepth <? 0)%Z then (aheapsort t pl (pr - pl + 1), stack)
        else
          let '(t, pl, pr, stack, _) := partition_loop (length t) t pl pr stack cdepth in
          (insertion (length t) t pl pr (pl + 1)%Z, stack)
      in
      match stack with
      | [] => t
      | (pl, pr, cdepth) :: stack => sort_loop fuel t pl pr stack cdepth
      end
  end.

End Arrays.

(** [v.argsort(kind='quicksort')] *)
Definition argsort (v : list cell) : list nat :=
  let num := length v in
  sort_loop v (S num) (seq 0 num) 0 (Z.of_nat num - 1)
    [] (2 * Z.of_nat (Nat.log2 num)).

End NumpySort.

(** A small reader of dates for the examples: ISO [YYYY-MM-DD] text, US
    [MM/DD/YYYY] text, time stamps [YYYY-MM-DDThh:mm:ss+hh:mm] with a UTC
    offset, and dates themselves. *)
Module ToyDates.

Definition digit (c : ascii) : option nat :=
  let n := nat_of_ascii c in
  if (48 <=? n) && (n <=? 57) then Some (n - 48) else None.

Fixpoint number (acc : nat) (s : list ascii) : option nat :=
  match s with
  | [] => Some acc
  | c :: rest => d ← digit c; number (10 * acc + d) rest
  end.

(** The UTC offset that ends a time stamp [YYYY-MM-DDThh:mm:ss+hh:mm]. *)
Definition stamp_offset (s : list ascii) : option (list ascii) :=
  if (length s =? 25)
     && Ascii.eqb (nth 10 s " "%char) "T"%char
     && (Ascii.eqb (nth 19 s " "%char) "+"%char || Ascii.eqb (nth 19 s " "%char) "-"%char)
  then Some (skipn 19 s)
  else None.

(** The local date of a time stamp. *)
Definition stamp_date (s : list ascii) : option (nat * nat * nat) :=
  match stamp_offset s with
  | Some _ =>
      y ← number 0 (firstn 4 s);
      m ← number 0 (firstn 2 (skipn 5 s));
      d ← number 0 (firstn 2 (skipn 8 s));
      Some (y, m, d)
  | None => None
  end.

Definition parse_date (c : cell) : option (nat * nat * nat) :=
  match c with
  | Date y m d => Some (y, m, d)
  | Str s =>
      match list_ascii_of_string s with
      | [y1; y2; y3; y4; "-"%char; m1; m2; "-"%char; d1; d2] =>
          y ← number 0 [y1; y2; y3; y4];
          m ← number 0 [m1; m2];
          d ← number 0 [d1; d2];
          Some (y, m, d)
      | [m1; m2; "/"%char; d1; d2; "/"%char; y1; y2; y3; y4] =>
          y ← number 0 [y1; y2; y3; y4];
          m ← number 0 [m1; m2];
          d ← number 0 [d1; d2];
          Some (y, m, d)
      | _ => stamp_date (list_ascii_of_string s)
      end
  | _ => None
  end.

(** The UTC offset read in a cell: none in a date or in a text without one. *)
Definition utc_offset (c : cell) : option (list ascii) :=
  match c with
  | Str s => stamp_offset (list_ascii_of_string s)
  | _ => None
  end.

(** The converted column is a datetime column when the cells that are read
    as dates all carry one UTC offset, or none does; with two offsets pandas
    keeps the column as a column of objects. *)
Definition datetimelike (column : list cell) : bool :=
  match map utc_offset (List.filter (fun c => bool_decide (is_Some (parse_date c))) column) with
  | [] => true
  | o :: rest => forallb (fun x => bool_decide (x = o)) rest
  end.

(** A stand-in for the text of a [Series]: its values, one per line. *)
Definition series_str (name : nat) (label : string) (vals : list cell) : string :=
  String.concat (String "010"%char EmptyString) (map py_str vals).

End ToyDates.

(* ------------------------------------------------------------------ *)
(** ** Example tables *)

Module Examples.

(** A run on two tables placed at addresses 0 and 1 of an otherwise empty
    heap, with the small date reader. *)
Definition two_tables (a b : DataFrame) : gmap nat DataFrame :=
  <[1 := b]> (<[0 := a]> ∅).

Definition run (argsort : list cell -> list nat) (a b : DataFrame) (config : Config)
    : result Report * gmap nat DataFrame :=
  compare_files argsort ToyDates.parse_date ToyDates.datetimelike ToyDates.series_str 0 1 config (two_tables a b).

Definition no_report : Report :=
  mkReport empty_frame empty_frame empty_frame empty_frame.

Definition report_or_none (r : result Report) : Report :=
  match r with
  | Ok rep => rep
  | Raise _ => no_report
  end.

(** Orders: keys 1 and 3 are in both files, key 2 in the first file only,
    key 4 in the second only; the headers differ in letter case. *)
Definition orders1 : DataFrame :=
  mkFrame ["ID"; "Amount"; "Flag"]
    [[Int 2; Str "5"; Str "Yes"];
     [Int 1; Str "10"; Str " Yes "];
     [Int 3; Str "7"; Str "Yes"]].

Definition orders2 : DataFrame :=
  mkFrame ["Key"; "amount"; "flag"]
    [[Int 1; Str "10"; Str "Yes"];
     [Int 4; Str "8"; Str "no"];
     [Int 3; Str "9"; Str "yes"]].

Definition orders_config : Config :=
  mkConfig "ID" "Key" ["Amount"; "FLAG"] None None.

Definition orders_report : Report :=
  Eval vm_compute in report_or_none (fst (run StableSort.argsort orders1 orders2 orders_config)).

(** The same first file with other letter case in the headers that are not
    the key column, and the same configuration with other letter case. *)
Definition orders1_upper : DataFrame :=
  mkFrame ["ID"; "AMOUNT"; "flag"] (rows orders1).

Definition orders_config_upper : Config :=
  mkConfig "ID" "Key" ["AMOUNT"; "Flag"] (Some []) None.

(** The first file with its key header in lower case. *)
Definition orders1_key_lower : DataFrame :=
  mkFrame ["id"; "Amount"; "Flag"] (rows orders1).

(** Two files that already call their key [keycolumn]; the configuration
    designates a column [id] that neither has. *)
Definition keyed1 : DataFrame :=
  mkFrame ["keycolumn"; "amt"] [[Int 1; Str "5"]].

Definition keyed2 : DataFrame :=
  mkFrame ["keycolumn"; "amt"] [[Int 1; Str "6"]].

Definition keyed_config : Config :=
  mkConfig "id" "id" ["amt"] None None.

(** A file without the designated key column or any [keycolumn]. *)
Definition no_key : DataFrame :=
  mkFrame ["ref"; "amt"] [[Int 1; Str "5"]].

(** A missing amount against the text [nan]. *)
Definition blank_amount : DataFrame :=
  mkFrame ["id"; "amt"] [[Int 1; NaN]].

Definition nan_text_amount : DataFrame :=
  mkFrame ["id"; "amt"] [[Int 1; Str "nan"]].

Definition amount_config : Config :=
  mkConfig "id" "id" ["amt"] None None.

(** A merged row with one compared column. *)
Definition flag_index : list string := ["keycolumn"; "flag_file1"; "flag_file2"; "_merge"].
Definition flag_row : list cell := [Int 1; Str " Yes "; Str "Yes"; Str "both"].

(** A file whose own labels end in the suffixes of the merge, and a file with
    the key alone; neither has a column [region]. *)
Definition suffixed : DataFrame :=
  mkFrame ["id"; "region_file1"; "region_file2"] [[Int 1; Str "north"; Str "south"]].

Definition keys_only : DataFrame :=
  mkFrame ["id"] [[Int 1]].

Definition region_config : Config :=
  mkConfig "id" "id" ["region"] None None.

(** A file with a [region] column against a file without one. *)
Definition with_region : DataFrame :=
  mkFrame ["id"; "region"] [[Int 1; Str "north"]; [Int 2; Str "south"]].

Definition without_region : DataFrame :=
  mkFrame ["id"; "amt"] [[Int 2; Str "5"]; [Int 1; Str "6"]].

Definition region_report : Report :=
  Eval vm_compute in
    report_or_none (fst (run StableSort.argsort with_region without_region region_config)).

(** Eighteen rows with one key; the second column numbers the rows. *)
Definition eighteen : DataFrame :=
  mkFrame ["keycolumn"; "n"] (map (fun i => [Int 7; Int (Z.of_nat i)]) (seq 0 18)).

(** A table to sort: two rows share the key 2, one row has no key. *)
Definition unsorted : DataFrame :=
  mkFrame ["keycolumn"; "n"]
    [[Int 2; Str "a"]; [NaN; Str "b"]; [Int 1; Str "c"]; [Int 2; Str "d"]].

Definition sorted : DataFrame :=
  Eval vm_compute in
    match sort_values StableSort.argsort key_label unsorted with
    | Ok d => d
    | Raise _ => empty_frame
    end.

(** The two scenarios of the specification: one order whose date is written
    in two ways, and one order that only the first file has. *)
Definition january1 : DataFrame :=
  mkFrame ["id"; "amt"; "date"] [[Int 1; Str "10"; Str "2024-01-01"]].

Definition january2 : DataFrame :=
  mkFrame ["id"; "amt"; "date"] [[Int 1; Str "10"; Str "01/01/2024"]].

Definition january_config : Config :=
  mkConfig "id" "id" ["amt"; "date"] (Some ["date"]) None.

Definition lonely1 : DataFrame :=
  mkFrame ["id"; "amt"] [[Int 2; Str "5"]].

Definition lonely2 : DataFrame :=
  mkFrame ["id"; "amt"] [].

(** A table whose date column holds time stamps with two UTC offsets. *)
Definition two_offsets : DataFrame :=
  mkFrame ["id"; "when"]
    [[Int 1; Str "2024-01-01T10:00:00+01:00"];
     [Int 2; Str "2024-01-02T10:00:00+02:00"]].

(** A table with a date column, a bad date in it. *)
Definition dated : DataFrame :=
  mkFrame ["id"; "when"; "note"]
    [[Int 1; Str "2024-01-01"; Str "2024-01-01"];
     [Int 2; Str "01/02/2024"; Str "x"];
     [Int 3; Str "soon"; Str "y"]].

End Examples.

(* ------------------------------------------------------------------ *)
(** ** Further vocabulary *)

(** The number of pairs of a key of [ka] and a key of [kb] that the join
    matches. *)
Definition matching_pairs (ka kb : list cell) : nat :=
  length (List.filter (fun '(x, y) => key_match x y) (list_prod ka kb)).

(** The configuration for the two files taken in the other order. *)
Definition swap_files (config : Config) : Config :=
  mkConfig (file2_key_column config) (file1_key_column config)
    (columns_to_compare config) (date_columns config) (decimal_columns config).

(** The labels that [pd.merge] refuses in its inputs when it adds the
    indicator column. *)
Definition indicator_labels : list string :=
  ["_merge"; "_left_indicator"; "_right_indicator"].

(** The labels of a table as they enter the sort: key renamed, all in lower
    case. *)
Definition prepared_labels (key_column : string) (d : DataFrame) : list string :=
  str_lower (columns (rename key_column "KeyColumn" d)).

(** The table has the designated key column and another column whose label
    lower-cases to [keycolumn]. *)
Definition two_key_columns (key_column : string) (d : DataFrame) : Prop :=
  In key_column (columns d)
  /\ exists x, In x (columns d) /\ x <> key_column /\ PyStr.lower x = key_label.

(** The keys that are not missing. *)
Definition present_keys (ks : list cell) : list cell :=
  List.filter (fun k => negb (isna k)) ks.

(** The entry of a record for one compared column (lines 77-82), on the two
    cells it reads. *)
Definition verdict (v1 v2 : cell) : cell :=
  let val1 := PyStr.strip (py_str v1) in
  let val2 := PyStr.strip (py_str v2) in
  if String.eqb val1 val2 then Str "Matched" else Str (val1 +:+ " | " +:+ val2).

(** No cell of the column is an integer. pandas holds such a column with
    dtype [object] (or as floats, when every cell is missing), and a join carries its
    cells over as they are; a column of integers is rebuilt as a column of
    floats when the join fills it with [NaN]. *)
Definition no_integers (d : DataFrame) (column : string) : bool :=
  forallb (fun row => negb (bool_decide (kind_of (item (columns d) row column) = KInt)))
    (rows d).

(** No two keys of the list match each other. *)
Fixpoint distinct_keys (ks : list cell) : bool :=
  match ks with
  | [] => true
  | k :: rest => negb (has_key rest k) && distinct_keys rest
  end.

(** The label occurs more than once in the index. *)
Definition duplicated (label : string) (index : list string) : bool :=
  1 <? length (get_loc label index).

(** The frame that the loop of [normalize_dates] leaves behind, whether it
    ends or raises: the rounds before the one that raises have been stored. *)
Fixpoint normalize_state (parse_date : cell -> option (nat * nat * nat))
    (datetimelike : list cell -> bool)
    (date_columns : list string) (d : DataFrame) : DataFrame :=
  match date_columns with
  | [] => d
  | col :: rest =>
      match normalize_step parse_date datetimelike d col with
      | Ok d' => normalize_state parse_date datetimelike rest d'
      | Raise _ => d
      end
  end.

(** [read_excel(file, sheet_name)], for the frame [sheet] that
    [pd.read_excel] reads from the file: a new object, whose labels are then
    replaced by their stripped form. *)
Definition read_excel (sheet : DataFrame) : Py nat :=
  df ← alloc sheet;
  (d ← load df; store df (mkFrame (map PyStr.strip (columns d)) (rows d))) ;;
  mret df.

(** A text of whitespace only (possibly empty). *)
Fixpoint whitespace (s : string) : bool :=
  match s with
  | EmptyString => true
  | String c r => PyStr.is_space c && whitespace r
  end.

Definition starts_with_space (s : string) : bool :=
  match s with
  | EmptyString => false
  | String c _ => PyStr.is_space c
  end.

Fixpoint ends_with_space (s : string) : bool :=
  match s with
  | EmptyString => false
  | String c EmptyString => PyStr.is_space c
  | String _ r => ends_with_space r
  end.

(** Neither the first nor the last character is whitespace. *)
Definition trimmed (s : string) : bool :=
  negb (starts_with_space s) && negb (ends_with_space s).

(* ------------------------------------------------------------------ *)
(** ** More example tables *)

Module MoreExamples.

(** The orders compared in the other order. *)
Definition orders_report_swapped : Report :=
  Eval vm_compute in
    Examples.report_or_none
      (fst (compare_files StableSort.argsort ToyDates.parse_date ToyDates.datetimelike ToyDates.series_str 1 0
              (swap_files Examples.orders_config)
              (Examples.two_tables Examples.orders1 Examples.orders2))).

(** A file with the designated key [ID] and a column [KeyColumn] of its own. *)
Definition twice_keyed : DataFrame :=
  mkFrame ["ID"; "KeyColumn"; "amt"] [[Int 1; Int 1; Str "5"]].

(** A file with a column that lower-cases to the indicator of the merge. *)
Definition tagged : DataFrame :=
  mkFrame ["id"; "_MERGE"] [[Int 1; Str "x"]].

(** The first file of the orders compared with itself. *)
Definition own_config : Config :=
  mkConfig "ID" "ID" ["Amount"; "Flag"] None None.

Definition orders1_alone : gmap nat DataFrame := <[0 := Examples.orders1]> ∅.

Definition own_report : Report :=
  Eval vm_compute in
    Examples.report_or_none
      (fst (compare_files StableSort.argsort ToyDates.parse_date ToyDates.datetimelike ToyDates.series_str 0 0
              own_config orders1_alone)).

Definition orders1_prepared : DataFrame :=
  Eval vm_compute in
    match prepare ToyDates.parse_date ToyDates.datetimelike "ID" own_config Examples.orders1 with
    | Ok d => d
    | Raise _ => empty_frame
    end.

(** The second file of the orders as it enters the sort. *)
Definition orders2_prepared : DataFrame :=
  Eval vm_compute in
    match prepare ToyDates.parse_date ToyDates.datetimelike "Key" Examples.orders_config
            Examples.orders2 with
    | Ok d => d
    | Raise _ => empty_frame
    end.

(** The heap after the dates of [dated] are normalised, [when] named twice. *)
Definition dated_twice_heap : gmap nat DataFrame :=
  Eval vm_compute in
    snd (normalize_dates ToyDates.parse_date ToyDates.datetimelike 0 ["when"; "when"]
           (<[0 := Examples.dated]> ∅)).

(** A table in which the label [when] occurs twice. *)
Definition twice_dated : DataFrame :=
  mkFrame ["start"; "when"; "when"]
    [[Str "2024-01-01"; Str "01/02/2024"; Str "soon"]].

(** Another sorting algorithm: descending order. *)
Definition descending (ks : list cell) : list nat := rev (StableSort.argsort ks).

(** The merged row [flag_row] without the whitespace around its first flag. *)
Definition plain_flag_row : list cell := [Int 1; Str "Yes"; Str "Yes"; Str "both"].

End MoreExamples.
(* ------------------------------------------------------------------ *)
(** ** Strings and labels *)

Lemma append_length (x s : string) :
  String.length (x +:+ s) = String.length x + String.length s.
Proof. induction x as [|c x IH]; simpl; [reflexivity | now rewrite IH]. Qed.

(** Two texts with suffixes of one length are equal piecewise. *)
Lemma append_same_length_inj (x c s s' : string) :
  String.length s = String.length s' ->
  x +:+ s = c +:+ s' -> x = c /\ s = s'.
Proof.
  intros Hlen. revert c.
  induction x as [|a x IH]; intros [|b c] Heq; simpl in Heq.
  - now split.
  - exfalso. apply (f_equal String.length) in Heq.
    rewrite !append_length in Heq. simpl in Heq. lia.
  - exfalso. apply (f_equal String.length) in Heq.
    rewrite !append_length in Heq. simpl in Heq. lia.
  - injection Heq as -> Heq. destruct (IH c Heq) as [-> ->]. now split.
Qed.

Lemma suffixed_not_key (x : string) (s : string) :
  s = suffix_file1 \/ s = suffix_file2 -> x +:+ s <> key_label.
Proof.
  intros Hs Heq. change key_label with ("key" +:+ "column") in Heq.
  destruct Hs; subst s;
    (apply append_same_length_inj in Heq as [_ Heq]; [discriminate | reflexivity]).
Qed.

Lemma suffixed_not_merge (x : string) (s : string) :
  s = suffix_file1 \/ s = suffix_file2 -> x +:+ s <> "_merge".
Proof.
  intros Hs Heq. change "_merge" with ("" +:+ "_merge") in Heq.
  destruct Hs; subst s;
    (apply append_same_length_inj in Heq as [_ Heq]; [discriminate | reflexivity]).
Qed.

Lemma label_in_In (label : string) (index : list string) :
  label_in label index = true <-> In label index.
Proof.
  unfold label_in. rewrite existsb_exists. split.
  - intros (x & Hx & Heq). apply String.eqb_eq in Heq. now subst.
  - intros H. exists label. split; [assumption | apply String.eqb_refl].
Qed.

Lemma label_in_false (label : string) (index : list string) :
  label_in label index = false <-> ~ In label index.
Proof.
  rewrite <- label_in_In. destruct (label_in label index); split; congruence.
Qed.

Lemma label_in_app (label : string) (l1 l2 : list string) :
  label_in label (l1 ++ l2) = label_in label l1 || label_in label l2.
Proof. unfold label_in. apply existsb_app. Qed.

Lemma get_loc_from_app (i : nat) (label : string) (l1 l2 : list string) :
  get_loc_from i label (l1 ++ l2)
  = get_loc_from i label l1 ++ get_loc_from (i + length l1) label l2.
Proof.
  revert i. induction l1 as [|x l1 IH]; intros i; simpl.
  - now rewrite Nat.add_0_r.
  - rewrite IH, <- app_assoc. do 3 f_equal. lia.
Qed.

Lemma get_loc_from_absent (i : nat) (label : string) (index : list string) :
  label_in label index = false -> get_loc_from i label index = [].
Proof.
  revert i. induction index as [|x l IH]; intros i H; simpl in *; [reflexivity|].
  apply orb_false_iff in H as [Hx Hl].
  rewrite String.eqb_sym in Hx. rewrite Hx. simpl. now apply IH.
Qed.

Lemma get_loc_from_bounds (i : nat) (label : string) (index : list string) (p : nat) :
  In p (get_loc_from i label index) ->
  i <= p /\ index !! (p - i) = Some label.
Proof.
  revert i. induction index as [|x l IH]; intros i H; simpl in H; [contradiction|].
  apply in_app_or in H as [H|H].
  - destruct (String.eqb_spec x label) as [->|]; [|contradiction].
    destruct H as [<-|[]]. split; [lia|]. now rewrite Nat.sub_diag.
  - apply IH in H as [Hle Hl]. split; [lia|].
    replace (p - i) with (S (p - S i)) by lia. exact Hl.
Qed.

Lemma get_loc_from_present (i : nat) (label : string) (index : list string) :
  label_in label index = true -> get_loc_from i label index <> [].
Proof.
  revert i. induction index as [|x l IH]; intros i H; simpl in *; [discriminate|].
  rewrite String.eqb_sym in H.
  destruct (String.eqb x label); simpl; [discriminate|]. now apply IH.
Qed.

Lemma get_loc_nil (label : string) (index : list string) :
  get_loc label index = [] <-> label_in label index = false.
Proof.
  split.
  - intros H. destruct (label_in label index) eqn:E; [|reflexivity].
    now apply (get_loc_from_present 0) in E.
  - apply get_loc_from_absent.
Qed.

Lemma get_loc_from_shift (i : nat) (label : string) (index : list string) :
  get_loc_from i label index = map (fun p => i + p) (get_loc label index).
Proof.
  unfold get_loc. revert i. induction index as [|x l IH]; intros i; simpl; [reflexivity|].
  rewrite map_app. f_equal.
  - destruct (String.eqb x label); simpl; [now rewrite Nat.add_0_r | reflexivity].
  - rewrite (IH (S i)), (IH 1), map_map. apply map_ext. intros; lia.
Qed.

Lemma get_loc_map (f : string -> string) (label : string) (index : list string) :
  (forall x, In x index -> String.eqb (f x) label = String.eqb x label) ->
  get_loc label (map f index) = get_loc label index.
Proof.
  unfold get_loc. generalize 0. induction index as [|x l IH]; intros i H; simpl; [reflexivity|].
  rewrite H by now left. f_equal. apply IH. intros y Hy. apply H. now right.
Qed.

Lemma get_loc_single_lookup (label : string) (index : list string) (p : nat) :
  get_loc label index = [p] -> index !! p = Some label.
Proof.
  intros H. destruct (get_loc_from_bounds 0 label index p) as [_ Hl].
  - fold (get_loc label index). rewrite H. now left.
  - now rewrite Nat.sub_0_r in Hl.
Qed.

Lemma get_loc_single_lt (label : string) (index : list string) (p : nat) :
  get_loc label index = [p] -> p < length index.
Proof. intros H. apply get_loc_single_lookup in H. now apply lookup_lt_Some in H. Qed.

(** With unique labels a label that occurs has one position. *)
Lemma get_loc_NoDup (label : string) (index : list string) :
  NoDup index -> label_in label index = true ->
  exists p, get_loc label index = [p].
Proof.
  unfold get_loc. generalize 0. induction index as [|x l IH]; intros i Hnd H; simpl in *.
  - discriminate.
  - apply NoDup_cons in Hnd as [Hx Hnd]. rewrite String.eqb_sym in H.
    destruct (String.eqb_spec x label) as [->|Hne]; simpl in *.
    + exists i. rewrite get_loc_from_absent; [reflexivity|].
      apply label_in_false. now rewrite <- list_elem_of_In.
    + now apply IH.
Qed.

(* ------------------------------------------------------------------ *)
(** ** The heap *)

Lemma preserves_refl (h : gmap nat DataFrame) : preserves h h.
Proof. now intros l _. Qed.

Lemma preserves_alloc (h0 h : gmap nat DataFrame) (d : DataFrame) :
  preserves h0 h -> preserves h0 (<[fresh (dom h) := d]> h).
Proof.
  intros Hp l Hl. rewrite lookup_insert_ne; [now apply Hp|].
  intros <-. pose proof (is_fresh (dom h)) as Hf.
  apply not_elem_of_dom in Hf. rewrite Hp in Hf by assumption.
  rewrite Hf in Hl. now destruct Hl.
Qed.

Lemma preserves_store (h0 h : gmap nat DataFrame) (l : nat) (d : DataFrame) :
  h0 !! l = None -> preserves h0 h -> preserves h0 (<[l := d]> h).
Proof.
  intros Hnew Hp l' Hl'. rewrite lookup_insert_ne; [now apply Hp|].
  intros <-. rewrite Hnew in Hl'. now destruct Hl'.
Qed.

Lemma fresh_unallocated (h0 h : gmap nat DataFrame) :
  preserves h0 h -> h0 !! fresh (dom h) = None.
Proof.
  intros Hp. destruct (h0 !! fresh (dom h)) eqn:E; [|reflexivity].
  pose proof (is_fresh (dom h)) as Hf. apply not_elem_of_dom in Hf.
  rewrite Hp in Hf by (rewrite E; eauto). congruence.
Qed.

Lemma bind_run {A B : Type} (m : Py A) (f : A -> Py B) (h : gmap nat DataFrame) :
  (m ≫= f) h
  = match m h with
    | (Ok a, h') => f a h'
    | (Raise e, h') => (Raise e, h')
    end.
Proof. reflexivity. Qed.

Section Heap.

Variable argsort : list cell -> list nat.
Variable parse_date : cell -> option (nat * nat * nat).
Variable datetimelike : list cell -> bool.
Variable series_str : nat -> string -> list cell -> string.

Lemma normalize_column_run (h : gmap nat DataFrame) (l : nat) (d : DataFrame) (col : string) :
  h !! l = Some d ->
  normalize_column parse_date datetimelike l col h
  = match normalize_step parse_date datetimelike d col with
    | Ok d' => (Ok tt, <[l := d']> h)
    | Raise e => (Raise e, h)
    end.
Proof.
  intros Hl. unfold normalize_column, normalize_step. rewrite bind_run.
  unfold load. rewrite Hl. simpl.
  destruct (label_in col (columns d)).
  - destruct (get_loc col (columns d)) as [|p [|q ps]]; try reflexivity.
    destruct (datetimelike (column_values p d)); reflexivity.
  - unfold mret, Py_ret. now rewrite insert_id.
Qed.

(** The loop of [normalize_dates] computes [normalize_frame] on the object it
    is given and touches no other object. *)
Lemma normalize_loop_run (date_columns : list string) :
  forall (h : gmap nat DataFrame) (l : nat) (d : DataFrame),
  h !! l = Some d ->
  exists d',
    normalize_loop parse_date datetimelike l date_columns h
    = (match normalize_frame parse_date datetimelike date_columns d with
       | Ok _ => Ok tt
       | Raise e => Raise e
       end, <[l := d']> h)
    /\ (forall d1, normalize_frame parse_date datetimelike date_columns d = Ok d1 -> d' = d1).
Proof.
  induction date_columns as [|col rest IH]; intros h l d Hl; simpl.
  - exists d. split; [|congruence]. unfold mret, Py_ret. now rewrite insert_id.
  - rewrite bind_run, (normalize_column_run h l d col Hl).
    destruct (normalize_step parse_date datetimelike d col) as [d1|e].
    + destruct (IH (<[l := d1]> h) l d1) as (d' & Hrun & Hd'); [apply lookup_insert_eq|].
      exists d'. rewrite Hrun, insert_insert_eq. split; [reflexivity | exact Hd'].
    + exists d. split; [|discriminate]. now rewrite insert_id.
Qed.

Lemma normalize_dates_run (date_columns : list string)
    (h : gmap nat DataFrame) (l : nat) (d : DataFrame) :
  h !! l = Some d ->
  exists d',
    normalize_dates parse_date datetimelike l date_columns h
    = (match normalize_frame parse_date datetimelike date_columns d with
       | Ok _ => Ok l
       | Raise e => Raise e
       end, <[l := d']> h)
    /\ (forall d1, normalize_frame parse_date datetimelike date_columns d = Ok d1 -> d' = d1).
Proof.
  intros Hl. destruct (normalize_loop_run date_columns h l d Hl) as (d' & Hrun & Hd').
  exists d'. split; [|exact Hd'].
  unfold normalize_dates. rewrite bind_run, Hrun.
  destruct (normalize_frame parse_date datetimelike date_columns d); reflexivity.
Qed.

Lemma new_frame_run (r : result DataFrame) (h : gmap nat DataFrame) :
  new_frame r h
  = match r with
    | Ok d => (Ok (fresh (dom h)), <[fresh (dom h) := d]> h)
    | Raise e => (Raise e, h)
    end.
Proof. destruct r; reflexivity. Qed.

(** The heap computation returns what the pipeline on values returns, and
    leaves every object of the initial heap as it was. *)
Lemma compare_files_run (h : gmap nat DataFrame) (l1 l2 : nat) (a b : DataFrame)
    (config : Config) :
  h !! l1 = Some a -> h !! l2 = Some b ->
  exists h',
    compare_files argsort parse_date datetimelike series_str l1 l2 config h
    = (compare_frames argsort parse_date datetimelike series_str a b config, h')
    /\ preserves h h'.
Proof.
  intros H1 H2. unfold compare_files, compare_frames, merged_frame, prepare.
  set (dc := map PyStr.lower (default [] (date_columns config))).
  set (ctc := map PyStr.lower (columns_to_compare config)).
  (* the two renamed copies *)
  rewrite bind_run, bind_run. unfold load at 1. rewrite H1. simpl default.
  unfold alloc at 1. cbv zeta.
  set (ra := rename (file1_key_column config) "KeyColumn" a).
  set (n1 := fresh (dom h)). set (h1 := <[n1 := ra]> h).
  assert (P1 : preserves h h1) by apply preserves_alloc, preserves_refl.
  assert (F1 : h !! n1 = None) by apply fresh_unallocated, preserves_refl.
  rewrite bind_run, bind_run. unfold load at 1.
  rewrite (P1 l2), H2 by (rewrite H2; eauto). simpl default.
  unfold alloc at 1. cbv zeta.
  set (rb := rename (file2_key_column config) "KeyColumn" b).
  set (n2 := fresh (dom h1)). set (h2 := <[n2 := rb]> h1).
  assert (P2 : preserves h h2) by now apply preserves_alloc.
  assert (F2 : h !! n2 = None) by now apply fresh_unallocated.
  assert (N12 : n1 <> n2).
  { intros E. pose proof (is_fresh (dom h1)) as Hf. fold n2 in Hf. rewrite <- E in Hf.
    apply Hf. apply elem_of_dom. unfold h1. rewrite lookup_insert_eq. eauto. }
  (* the labels are lower-cased in place *)
  rewrite bind_run, bind_run. unfold load at 1, store at 1.
  replace (h2 !! n1) with (Some ra)
    by (unfold h2, h1; now rewrite lookup_insert_ne, lookup_insert_eq).
  simpl default.
  set (la := mkFrame (str_lower (columns ra)) (rows ra)). set (h3 := <[n1 := la]> h2).
  assert (P3 : preserves h h3) by now apply preserves_store.
  rewrite bind_run, bind_run. unfold load at 1, store at 1.
  replace (h3 !! n2) with (Some rb)
    by (unfold h3, h2; now rewrite lookup_insert_ne, lookup_insert_eq).
  simpl default.
  set (lb := mkFrame (str_lower (columns rb)) (rows rb)). set (h4 := <[n2 := lb]> h3).
  assert (P4 : preserves h h4) by now apply preserves_store.
  (* dates *)
  rewrite bind_run.
  destruct (normalize_dates_run dc h4 n1 la) as (a1' & -> & Ha1).
  { unfold h4, h3. now rewrite lookup_insert_ne, lookup_insert_eq. }
  destruct (normalize_frame parse_date datetimelike dc la) as [a1|e]; cbn [bind_result];
    [|exists (<[n1 := a1']> h4); split; [reflexivity | now apply preserves_store]].
  specialize (Ha1 a1 eq_refl). subst a1'.
  set (h5 := <[n1 := a1]> h4).
  assert (P5 : preserves h h5) by now apply preserves_store.
  rewrite bind_run.
  destruct (normalize_dates_run dc h5 n2 lb) as (b1' & -> & Hb1).
  { unfold h5, h4. now rewrite lookup_insert_ne, lookup_insert_eq by congruence. }
  destruct (normalize_frame parse_date datetimelike dc lb) as [b1|e]; cbn [bind_result];
    [|exists (<[n2 := b1']> h5); split; [reflexivity | now apply preserves_store]].
  specialize (Hb1 b1 eq_refl). subst b1'.
  set (h6 := <[n2 := b1]> h5).
  assert (P6 : preserves h h6) by now apply preserves_store.
  (* sorting *)
  rewrite bind_run, bind_run. unfold load at 1.
  replace (h6 !! n1) with (Some a1)
    by (unfold h6, h5; now rewrite lookup_insert_ne, lookup_insert_eq by congruence).
  simpl default. rewrite new_frame_run.
  destruct (sort_values argsort key_label a1) as [a2|e]; cbn [bind_result];
    [|now exists h6].
  set (n3 := fresh (dom h6)). set (h7 := <[n3 := a2]> h6).
  assert (P7 : preserves h h7) by now apply preserves_alloc.
  assert (N32 : n3 <> n2).
  { intros E. pose proof (is_fresh (dom h6)) as Hf. fold n3 in Hf. rewrite E in Hf.
    apply Hf. apply elem_of_dom. unfold h6. rewrite lookup_insert_eq. eauto. }
  rewrite bind_run, bind_run. unfold load at 1.
  replace (h7 !! n2) with (Some b1)
    by (unfold h7, h6; now rewrite lookup_insert_ne, lookup_insert_eq by congruence).
  simpl default. rewrite new_frame_run.
  destruct (sort_values argsort key_label b1) as [b2|e]; cbn [bind_result];
    [|now exists h7].
  set (n4 := fresh (dom h7)). set (h8 := <[n4 := b2]> h7).
  assert (P8 : preserves h h8) by now apply preserves_alloc.
  assert (N43 : n4 <> n3).
  { intros E. pose proof (is_fresh (dom h7)) as Hf. fold n4 in Hf. rewrite E in Hf.
    apply Hf. apply elem_of_dom. unfold h7. rewrite lookup_insert_eq. eauto. }
  (* merging *)
  rewrite bind_run, bind_run. unfold load at 1.
  replace (h8 !! n3) with (Some a2)
    by (unfold h8, h7; now rewrite lookup_insert_ne, lookup_insert_eq by congruence).
  simpl default. rewrite bind_run. unfold load at 1.
  replace (h8 !! n4) with (Some b2)
    by (unfold h8; now rewrite lookup_insert_eq).
  simpl default. rewrite new_frame_run.
  destruct (merge a2 b2) as [m|e]; cbn [bind_result]; [|now exists h8].
  rewrite bind_run. unfold load, mret, Py_ret. rewrite lookup_insert_eq. simpl default.
  eexists. split; [reflexivity|]. now apply preserves_alloc.
Qed.

End Heap.

Lemma get_loc_from_complete (s i : nat) (label : string) (index : list string) :
  index !! i = Some label -> In (s + i) (get_loc_from s label index).
Proof.
  revert s i. induction index as [|x l IH]; intros s i H; [discriminate|].
  simpl. destruct i as [|i]; simpl in H.
  - injection H as ->. rewrite String.eqb_refl. left. lia.
  - apply in_or_app. right. replace (s + S i) with (S s + i) by lia. now apply IH.
Qed.

Lemma get_loc_single_unique (label : string) (index : list string) (p j : nat) :
  get_loc label index = [p] -> index !! j = Some label -> j = p.
Proof.
  intros Hp Hj. pose proof (get_loc_from_complete 0 j label index Hj) as H.
  fold (get_loc label index) in H. rewrite Hp in H. simpl in H.
  now destruct H as [<-|[]].
Qed.

(* ------------------------------------------------------------------ *)
(** ** Date normalisation *)

Section Dates.

Variable parse_date : cell -> option (nat * nat * nat).
Variable datetimelike : list cell -> bool.

(** What line 29 stores in a cell is what the specification asks for. *)
Lemma to_date_parsed (c : cell) : to_date parse_date c = parsed_date parse_date c.
Proof. unfold to_date, parsed_date. now destruct (parse_date c) as [[[y m] d]|]. Qed.

(** The two ways in which a round of the loop ends well. *)
Lemma normalize_step_Ok (d d' : DataFrame) (col : string) :
  normalize_step parse_date datetimelike d col = Ok d' ->
  (label_in col (columns d) = false /\ d' = d)
  \/ exists p, get_loc col (columns d) = [p]
               /\ datetimelike (column_values p d) = true
               /\ d' = set_column p (to_date parse_date) d.
Proof.
  unfold normalize_step. destruct (label_in col (columns d)).
  - destruct (get_loc col (columns d)) as [|p [|q ps]]; try discriminate.
    destruct (datetimelike (column_values p d)) eqn:E; [|discriminate].
    intros [= <-]. right. now exists p.
  - intros [= <-]. now left.
Qed.

Lemma normalize_step_columns (d d' : DataFrame) (col : string) :
  normalize_step parse_date datetimelike d col = Ok d' -> columns d' = columns d.
Proof.
  intros H. apply normalize_step_Ok in H as [[_ ->]|(p & _ & _ & ->)]; reflexivity.
Qed.

Lemma normalize_frame_columns (date_columns : list string) :
  forall d d', normalize_frame parse_date datetimelike date_columns d = Ok d' -> columns d' = columns d.
Proof.
  induction date_columns as [|col rest IH]; intros d d' H; simpl in H.
  - now injection H as <-.
  - destruct (normalize_step parse_date datetimelike d col) as [d1|e] eqn:E; [|discriminate].
    rewrite (IH _ _ H). now apply normalize_step_columns in E.
Qed.

Lemma normalize_frame_rectangular (date_columns : list string) :
  forall d d', normalize_frame parse_date datetimelike date_columns d = Ok d' ->
  rectangular d -> rectangular d'.
Proof.
  induction date_columns as [|col rest IH]; intros d d' H Hr; simpl in H.
  - now injection H as <-.
  - destruct (normalize_step parse_date datetimelike d col) as [d1|e] eqn:E; [|discriminate].
    apply (IH _ _ H). clear H IH.
    apply normalize_step_Ok in E as [[_ ->]|(p & _ & _ & ->)]; [exact Hr|].
    unfold rectangular in *. simpl.
    rewrite List.Forall_forall in *. intros r' Hin.
    apply List.in_map_iff in Hin as (r & <- & Hin).
    rewrite length_alter. now apply Hr.
Qed.

(** A round that ends well brings the table one name closer to the
    specified one; a name that comes again later is harmless when a date is
    read as itself. *)
Lemma normalize_step_result (d d1 : DataFrame) (col : string) (rest : list string) :
  normalize_step parse_date datetimelike d col = Ok d1 ->
  (label_in col rest = true ->
   forall c, to_date parse_date (to_date parse_date c) = to_date parse_date c) ->
  dates_normalized parse_date rest d1 = dates_normalized parse_date (col :: rest) d.
Proof.
  intros H Htwice. apply normalize_step_Ok in H as [[Hin ->]|(p & Hp & _ & ->)].
  - unfold dates_normalized. f_equal. apply map_ext. intros row.
    apply list_eq. intros i. rewrite !list_lookup_imap.
    destruct (row !! i) as [v|]; simpl; [|reflexivity].
    destruct (columns d !! i) as [c|] eqn:Hc; [|reflexivity].
    replace (String.eqb c col) with false; [reflexivity|].
    symmetry. apply String.eqb_neq. intros ->.
    apply label_in_false in Hin. apply Hin. apply list_elem_of_In.
    eapply list_elem_of_lookup_2; eassumption.
  - unfold dates_normalized, set_column. simpl. f_equal.
    rewrite map_map. apply map_ext. intros row.
    apply list_eq. intros i. rewrite !list_lookup_imap, list_lookup_alter.
    pose proof (get_loc_single_lookup _ _ _ Hp) as Hlp.
    destruct (decide (p = i)) as [<-|Hne].
    + rewrite Hlp. destruct (row !! p) as [v|]; simpl; [|reflexivity].
      rewrite String.eqb_refl. simpl. f_equal.
      destruct (label_in col rest) eqn:E; [|apply to_date_parsed].
      rewrite <- !to_date_parsed. now apply Htwice.
    + destruct (row !! i) as [v|]; simpl; [|reflexivity].
      destruct (columns d !! i) as [c|] eqn:Hc; [|reflexivity].
      replace (String.eqb c col) with false; [reflexivity|].
      symmetry. apply String.eqb_neq. intros ->.
      apply Hne. symmetry. exact (get_loc_single_unique _ _ _ _ Hp Hc).
Qed.

(** When the loop ends well it has produced the specified table: for
    distinct names, or for any names when a date is read as itself. *)
Lemma normalize_frame_result (date_columns : list string) :
  forall d d',
  NoDup date_columns
  \/ (forall c, to_date parse_date (to_date parse_date c) = to_date parse_date c) ->
  normalize_frame parse_date datetimelike date_columns d = Ok d' ->
  d' = dates_normalized parse_date date_columns d.
Proof.
  induction date_columns as [|col rest IH]; intros d d' Hdc H; simpl in H.
  - injection H as <-. destruct d as [cols rs]. unfold dates_normalized. simpl. f_equal.
    rewrite <- (map_id rs) at 1. apply map_ext. intros row.
    apply list_eq. intros i. rewrite list_lookup_imap.
    destruct (row !! i) as [v|]; simpl; [|reflexivity]. now destruct (cols !! i).
  - destruct (normalize_step parse_date datetimelike d col) as [d1|e] eqn:E; [|discriminate].
    rewrite <- (normalize_step_result d d1 col rest E).
    + apply IH; [|exact H]. destruct Hdc as [Hnd|Hid]; [left | now right].
      now apply NoDup_cons in Hnd.
    + intros Hin. destruct Hdc as [Hnd|Hid]; [|exact Hid].
      apply NoDup_cons in Hnd as [Hnd _]. apply label_in_In in Hin.
      now rewrite <- list_elem_of_In in Hin.
Qed.

(** Changing one column leaves the values of the others. *)
Lemma column_values_set_column (d : DataFrame) (p q : nat) (f : cell -> cell) :
  p <> q -> column_values q (set_column p f d) = column_values q d.
Proof.
  intros Hne. unfold column_values, set_column. cbn [rows]. rewrite map_map.
  apply map_ext. intros row. rewrite !nth_lookup. now rewrite list_lookup_alter_ne.
Qed.

(** The loop ends well when no named label is duplicated and every named
    column converts, for distinct names. *)
Lemma normalize_frame_succeeds (date_columns : list string) :
  forall d,
  NoDup date_columns ->
  existsb (fun col => duplicated col (columns d)) date_columns = false ->
  forallb (convertible datetimelike d) date_columns = true ->
  exists d', normalize_frame parse_date datetimelike date_columns d = Ok d'.
Proof.
  induction date_columns as [|col rest IH]; intros d Hnd Hdup Hconv; simpl; [now exists d|].
  apply NoDup_cons in Hnd as [Hcol Hnd].
  cbn [existsb] in Hdup. apply orb_false_iff in Hdup as [Hd Hdup].
  cbn [forallb] in Hconv. apply andb_true_iff in Hconv as [Hc Hconv].
  unfold normalize_step, duplicated, convertible in *.
  destruct (label_in col (columns d)) eqn:Hin; [|now apply IH].
  destruct (get_loc col (columns d)) as [|p [|q ps]] eqn:Hp.
  - apply get_loc_nil in Hp. congruence.
  - rewrite Hc. apply IH; [exact Hnd | exact Hdup |].
    rewrite forallb_forall in Hconv |- *. intros c Hin'. specialize (Hconv c Hin').
    cbn [set_column columns].
    destruct (get_loc c (columns d)) as [|q [|]] eqn:Hq; try reflexivity.
    rewrite column_values_set_column; [exact Hconv|].
    intros <-. pose proof (get_loc_single_lookup _ _ _ Hp) as L1.
    pose proof (get_loc_single_lookup _ _ _ Hq) as L2.
    assert (c = col) as -> by congruence. apply Hcol. now apply list_elem_of_In.
  - discriminate.
Qed.

(** With unique labels and distinct names, when every named column converts,
    one round after the other gives the specified table. *)
Lemma normalize_frame_spec (date_columns : list string) :
  forall d, NoDup (columns d) -> NoDup date_columns ->
  forallb (convertible datetimelike d) date_columns = true ->
  normalize_frame parse_date datetimelike date_columns d
  = Ok (dates_normalized parse_date date_columns d).
Proof.
  intros d Hcols Hdc Hconv.
  destruct (normalize_frame_succeeds date_columns d Hdc) as [d' H]; [|exact Hconv|].
  - apply not_true_iff_false. intros E. apply existsb_exists in E as (c & _ & E).
    unfold duplicated in E.
    destruct (label_in c (columns d)) eqn:Hin.
    + destruct (get_loc_NoDup c (columns d) Hcols Hin) as [p Hp]. now rewrite Hp in E.
    + apply get_loc_nil in Hin. now rewrite Hin in E.
  - rewrite H. f_equal. apply normalize_frame_result; [now left | exact H].
Qed.

End Dates.

(* ------------------------------------------------------------------ *)
(** ** Join keys and their groups *)

Lemma cell_eqb_eq (a b : cell) : cell_eqb a b = true <-> a = b.
Proof. unfold cell_eqb. apply bool_decide_eq_true. Qed.

Lemma cell_eqb_refl (a : cell) : cell_eqb a a = true.
Proof. now apply cell_eqb_eq. Qed.

Lemma key_match_refl (a : cell) : key_match a a = true.
Proof. unfold key_match. rewrite cell_eqb_refl. apply orb_true_r. Qed.

Lemma key_match_sym (a b : cell) : key_match a b = key_match b a.
Proof.
  unfold key_match, cell_eqb. rewrite (andb_comm (isna a)). f_equal.
  apply bool_decide_ext. split; congruence.
Qed.

Lemma key_match_trans (a b c : cell) :
  key_match a b = true -> key_match b c = true -> key_match a c = true.
Proof.
  unfold key_match. intros Hab Hbc.
  apply orb_true_iff in Hab as [Hab|Hab]; apply orb_true_iff in Hbc as [Hbc|Hbc].
  - apply andb_true_iff in Hab as [Ha _]. apply andb_true_iff in Hbc as [_ Hc].
    now rewrite Ha, Hc.
  - apply cell_eqb_eq in Hbc as <-. now rewrite Hab.
  - apply cell_eqb_eq in Hab as ->. now rewrite Hbc.
  - apply cell_eqb_eq in Hab as ->. now rewrite Hbc, orb_true_r.
Qed.

(** Matching keys match the same keys. *)
Lemma key_match_congr (a b c : cell) :
  key_match a b = true -> key_match a c = key_match b c.
Proof.
  intros Hab. destruct (key_match b c) eqn:Hbc.
  - eapply key_match_trans; eassumption.
  - destruct (key_match a c) eqn:Hac; [|reflexivity].
    rewrite key_match_sym in Hab.
    now rewrite (key_match_trans b a c Hab Hac) in Hbc.
Qed.

Lemma has_key_In (ks : list cell) (k : cell) :
  has_key ks k = true <-> exists k', In k' ks /\ key_match k k' = true.
Proof. unfold has_key. apply existsb_exists. Qed.

Lemma has_key_congr (ks : list cell) (a b : cell) :
  key_match a b = true -> has_key ks a = has_key ks b.
Proof.
  intros Hab. unfold has_key. induction ks as [|k ks IH]; simpl; [reflexivity|].
  now rewrite IH, (key_match_congr a b k Hab).
Qed.

Lemma has_key_Permutation (ks ks' : list cell) (k : cell) :
  Permutation ks ks' -> has_key ks k = has_key ks' k.
Proof.
  intros HP. destruct (has_key ks' k) eqn:E.
  - apply has_key_In in E as (k' & Hin & Hm). apply has_key_In. exists k'. split; [|exact Hm].
    eapply Permutation_in; [symmetry|]; eassumption.
  - destruct (has_key ks k) eqn:E'; [|reflexivity].
    apply has_key_In in E' as (k' & Hin & Hm).
    assert (has_key ks' k = true); [|congruence].
    apply has_key_In. exists k'. split; [|exact Hm]. eapply Permutation_in; eassumption.
Qed.

Lemma filter_Permutation_bool {A : Type} (p : A -> bool) (l l' : list A) :
  Permutation l l' -> Permutation (List.filter p l) (List.filter p l').
Proof.
  induction 1 as [|x l l' _ IH|x y l|l l' l'' _ IH1 _ IH2]; simpl.
  - constructor.
  - destruct (p x); [now constructor | assumption].
  - destruct (p x), (p y); try reflexivity. apply perm_swap.
  - etransitivity; eassumption.
Qed.

Lemma filter_flat_map {A B : Type} (p : B -> bool) (f : A -> list B) (l : list A) :
  List.filter p (flat_map f l) = flat_map (fun x => List.filter p (f x)) l.
Proof.
  induction l as [|x l IH]; simpl; [reflexivity|].
  now rewrite List.filter_app, IH.
Qed.

Lemma filter_map_swap {A B : Type} (p : B -> bool) (f : A -> B) (l : list A) :
  List.filter p (map f l) = map f (List.filter (fun x => p (f x)) l).
Proof.
  induction l as [|x l IH]; simpl; [reflexivity|].
  destruct (p (f x)); simpl; now rewrite IH.
Qed.

Lemma filter_all {A : Type} (p : A -> bool) (l : list A) :
  (forall x, In x l -> p x = true) -> List.filter p l = l.
Proof.
  induction l as [|x l IH]; intros H; simpl; [reflexivity|].
  rewrite (H x) by now left. f_equal. apply IH. intros y Hy. apply H. now right.
Qed.

Lemma filter_none {A : Type} (p : A -> bool) (l : list A) :
  (forall x, In x l -> p x = false) -> List.filter p l = [].
Proof.
  induction l as [|x l IH]; intros H; simpl; [reflexivity|].
  rewrite (H x) by now left. apply IH. intros y Hy. apply H. now right.
Qed.

Lemma nub_In (ks : list cell) (k : cell) : In k (nub ks) <-> In k ks.
Proof.
  induction ks as [|x ks IH]; simpl; [reflexivity|].
  rewrite List.filter_In, IH. split.
  - intros [H|[H _]]; auto.
  - intros [H|H]; [now left|].
    destruct (decide (x = k)) as [->|Hne]; [now left|]. right. split; [assumption|].
    apply negb_true_iff. destruct (cell_eqb x k) eqn:E; [|reflexivity].
    now apply cell_eqb_eq in E.
Qed.

(** A key occurs once among the distinct keys. *)
Lemma nub_once (ks : list cell) (k : cell) :
  In k ks -> List.filter (fun g => cell_eqb g k) (nub ks) = [k].
Proof.
  induction ks as [|x ks IH]; intros Hin; simpl; [contradiction|].
  destruct (decide (x = k)) as [->|Hne].
  - rewrite cell_eqb_refl. f_equal. apply filter_none. intros y Hy.
    apply List.filter_In in Hy as [_ Hy]. apply negb_true_iff in Hy.
    destruct (cell_eqb y k) eqn:E; [|reflexivity].
    apply cell_eqb_eq in E as ->. now rewrite cell_eqb_refl in Hy.
  - destruct Hin as [Hin|Hin]; [contradiction|].
    replace (cell_eqb x k) with false
      by (symmetry; apply bool_decide_eq_false; exact Hne).
    rewrite <- (IH Hin). clear IH.
    induction (nub ks) as [|y l IHl]; simpl; [reflexivity|].
    destruct (cell_eqb x y) eqn:Exy; simpl.
    + apply cell_eqb_eq in Exy as <-.
      replace (cell_eqb x k) with false
        by (symmetry; apply bool_decide_eq_false; exact Hne).
      exact IHl.
    + destruct (cell_eqb y k); [f_equal|]; exact IHl.
Qed.

Lemma nub_notna (ks : list cell) (g : cell) :
  In g (nub (List.filter (fun k => negb (isna k)) ks)) -> isna g = false.
Proof.
  intros H. apply nub_In, List.filter_In in H as [_ H]. now apply negb_true_iff.
Qed.

(** Every key of the list belongs to exactly one group. *)
Lemma key_groups_once (ks : list cell) (k : cell) :
  In k ks -> length (List.filter (fun g => key_match g k) (key_groups ks)) = 1.
Proof.
  intros Hin. unfold key_groups. rewrite List.filter_app, length_app.
  destruct (isna k) eqn:Hna.
  - rewrite filter_none.
    + replace (existsb isna ks) with true
        by (symmetry; apply existsb_exists; eauto).
      simpl. unfold key_match. now rewrite Hna.
    + intros g Hg. apply nub_notna in Hg. unfold key_match. rewrite Hg. simpl.
      apply bool_decide_eq_false. intros ->. congruence.
  - erewrite (List.filter_ext _ (fun g => cell_eqb g k)).
    + rewrite nub_once by (apply List.filter_In; now rewrite Hna).
      destruct (existsb isna ks); simpl; [|reflexivity].
      destruct k; try discriminate Hna; reflexivity.
    + intros g. unfold key_match. now rewrite Hna, andb_false_r.
Qed.

(** Every group holds a key of the list. *)
Lemma key_groups_inhabited (ks : list cell) (g : cell) :
  In g (key_groups ks) -> has_key ks g = true.
Proof.
  unfold key_groups. intros H. apply in_app_or in H as [H|H].
  - apply nub_In, List.filter_In in H as [H _]. apply has_key_In.
    exists g. split; [assumption | apply key_match_refl].
  - destruct (existsb isna ks) eqn:E; [|contradiction].
    destruct H as [<-|[]]. apply existsb_exists in E as (k & Hk & Hna).
    apply has_key_In. exists k. split; [assumption|]. unfold key_match. now rewrite Hna.
Qed.

(** Collecting, group by group, the keys of a list that belong to the group
    gives the list back, rearranged. *)
Lemma group_partition (G X : list cell) :
  (forall x, In x X -> length (List.filter (fun g => key_match g x) G) = 1) ->
  Permutation (flat_map (fun g => List.filter (key_match g) X) G) X.
Proof.
  induction X as [|x X IH]; intros H.
  - clear H. simpl. induction G; simpl; [apply perm_nil | assumption].
  - assert (Hx := H x (or_introl eq_refl)).
    assert (Hstep : forall G',
      Permutation (flat_map (fun g => List.filter (key_match g) (x :: X)) G')
        (map (fun _ => x) (List.filter (fun g => key_match g x) G')
         ++ flat_map (fun g => List.filter (key_match g) X) G')).
    { induction G' as [|g G' IHG]; [apply perm_nil|].
      cbn [flat_map]. rewrite IHG. cbn [List.filter].
      destruct (key_match g x); cbn [map app].
      - constructor. rewrite !app_assoc. apply Permutation_app_tail, Permutation_app_comm.
      - rewrite !app_assoc. apply Permutation_app_tail, Permutation_app_comm. }
    rewrite Hstep. destruct (List.filter (fun g => key_match g x) G) as [|g0 [|g1 l]];
      try discriminate.
    simpl. constructor. apply IH. intros y Hy. apply H. now right.
Qed.

(* ------------------------------------------------------------------ *)
(** ** The rows of the outer join *)

Lemma drop_nth_length {A : Type} (p : nat) (l : list A) :
  p < length l -> length (drop_nth p l) = length l - 1.
Proof.
  intros H. unfold drop_nth.
  rewrite length_app, List.length_firstn, List.length_skipn. lia.
Qed.

Lemma nth_tag (wl n : nat) (lp rp : list cell) (t : cell) :
  length lp = wl -> length rp = n ->
  nth (wl + n) (lp ++ rp ++ [t]) NaN = t.
Proof.
  intros <- <-. rewrite app_nth2_plus. apply nth_middle.
Qed.

Lemma nth_left (k : nat) (lp rest : list cell) :
  k < length lp -> nth k (lp ++ rest) NaN = nth k lp NaN.
Proof. intros H. now apply app_nth1. Qed.

Section MergeRows.

Variables (kl kr wl wr : nat) (L R : list (list cell)) (index : list string).

Let keysL : list cell := map (fun r => nth kl r NaN) L.
Let keysR : list cell := map (fun r => nth kr r NaN) R.
Let M : list (list cell) := merge_rows kl kr wl wr L R.
Let key_of (row : list cell) : cell := nth kl row NaN.
Let tag_of (row : list cell) : cell := nth (wl + (wr - 1)) row NaN.

Lemma left_group_has_key (g : cell) :
  List.filter (fun r => key_match g (nth kl r NaN)) L = []
  <-> has_key keysL g = false.
Proof.
  unfold has_key, keysL. induction L as [|l L' IH]; simpl; [tauto|].
  destruct (key_match g (nth kl l NaN)); simpl; [split; discriminate | exact IH].
Qed.

Lemma right_group_has_key (g : cell) :
  List.filter (fun r => key_match g (nth kr r NaN)) R = []
  <-> has_key keysR g = false.
Proof.
  unfold has_key, keysR. induction R as [|r R' IH]; simpl; [tauto|].
  destruct (key_match g (nth kr r NaN)); simpl; [split; discriminate | exact IH].
Qed.

Lemma group_rows_spec (g : cell) (row : list cell) :
  join_shape kl kr wl wr L R index ->
  In row (group_rows kl kr wl wr L R g) ->
  key_match g (key_of row) = true /\ tag_of row = Str (side_tag keysL keysR g).
Proof.
  intros S Hin. unfold group_rows in Hin. unfold side_tag, key_of, tag_of.
  pose proof (left_group_has_key g) as HLg. pose proof (right_group_has_key g) as HRg.
  destruct (List.filter (fun r => key_match g (nth kl r NaN)) L) as [|l0 ls] eqn:EL.
  - rewrite (proj1 HLg eq_refl).
    apply in_map_iff in Hin as (r & <- & Hr). apply List.filter_In in Hr as [HrR Hm].
    pose proof (shape_R _ _ _ _ _ _ _ S r HrR) as Hlen.
    pose proof (shape_kl _ _ _ _ _ _ _ S) as Hkl.
    pose proof (shape_kr _ _ _ _ _ _ _ S) as Hkr.
    unfold row_right_only. split.
    + rewrite nth_left by (rewrite length_insert, repeat_length; lia).
      rewrite nth_lookup, list_lookup_insert_eq by (rewrite repeat_length; lia).
      exact Hm.
    + apply nth_tag; [now rewrite length_insert, repeat_length|].
      rewrite drop_nth_length; lia.
  - assert (HkL : has_key keysL g = true).
    { apply not_false_iff_true. intros E. apply HLg in E. discriminate. }
    rewrite HkL.
    destruct (List.filter (fun r => key_match g (nth kr r NaN)) R) as [|r0 rs] eqn:ER.
    + rewrite (proj1 HRg eq_refl).
      apply in_map_iff in Hin as (l & <- & Hl).
      rewrite <- EL in Hl. apply List.filter_In in Hl as [HlL Hm].
      pose proof (shape_L _ _ _ _ _ _ _ S l HlL) as Hlen.
      pose proof (shape_kl _ _ _ _ _ _ _ S) as Hkl.
      unfold row_left_only. split.
      * rewrite nth_left by lia. exact Hm.
      * apply nth_tag; [assumption | apply repeat_length].
    + assert (HkR : has_key keysR g = true).
      { apply not_false_iff_true. intros E. apply HRg in E. discriminate. }
      rewrite HkR.
      apply in_flat_map in Hin as (l & Hl & Hin).
      apply in_map_iff in Hin as (r & <- & Hr).
      rewrite <- EL in Hl. apply List.filter_In in Hl as [HlL Hm].
      rewrite <- ER in Hr. apply List.filter_In in Hr as [HrR _].
      pose proof (shape_L _ _ _ _ _ _ _ S l HlL) as Hlen.
      pose proof (shape_R _ _ _ _ _ _ _ S r HrR) as Hlenr.
      pose proof (shape_kl _ _ _ _ _ _ _ S) as Hkl.
      pose proof (shape_kr _ _ _ _ _ _ _ S) as Hkr.
      unfold row_both. split.
      * rewrite nth_left by lia. exact Hm.
      * apply nth_tag; [assumption|]. rewrite drop_nth_length; lia.
Qed.

(** The tag of a joined row says which of the two tables hold its key. *)
Lemma merge_rows_tag (row : list cell) :
  join_shape kl kr wl wr L R index ->
  In row M ->
  tag_of row = Str (side_tag keysL keysR (key_of row)).
Proof.
  intros S Hin. unfold M, merge_rows in Hin.
  apply in_flat_map in Hin as (g & _ & Hin).
  destruct (group_rows_spec g row S Hin) as [Hm ->]. f_equal.
  unfold side_tag. now rewrite !(has_key_congr _ g (key_of row) Hm).
Qed.

(** The keys of the rows of a group that the left table does not hold. *)
Lemma group_rows_right_keys (g : cell) :
  join_shape kl kr wl wr L R index ->
  List.filter (fun k => negb (has_key keysL k)) (map key_of (group_rows kl kr wl wr L R g))
  = List.filter (fun k => negb (has_key keysL k)) (List.filter (key_match g) keysR).
Proof.
  intros S. destruct (has_key keysL g) eqn:HkL.
  - rewrite !filter_none; [reflexivity| |].
    + intros k Hk. apply List.filter_In in Hk as [_ Hm].
      now rewrite <- (has_key_congr _ g k Hm), HkL.
    + intros k Hk. apply in_map_iff in Hk as (row & <- & Hrow).
      destruct (group_rows_spec g row S Hrow) as [Hm _].
      now rewrite <- (has_key_congr _ g _ Hm), HkL.
  - f_equal. unfold group_rows. rewrite (proj2 (left_group_has_key g) HkL).
    unfold keysR. rewrite filter_map_swap, !map_map. apply map_ext_in.
    intros r Hr. apply List.filter_In in Hr as [HrR _].
    pose proof (shape_kl _ _ _ _ _ _ _ S) as Hkl.
    unfold key_of, row_right_only.
    rewrite nth_left by (rewrite length_insert, repeat_length; lia).
    now rewrite nth_lookup, list_lookup_insert_eq by (rewrite repeat_length; lia).
Qed.

(** The keys of the rows of a group that the right table does not hold. *)
Lemma group_rows_left_keys (g : cell) :
  join_shape kl kr wl wr L R index ->
  List.filter (fun k => negb (has_key keysR k)) (map key_of (group_rows kl kr wl wr L R g))
  = List.filter (fun k => negb (has_key keysR k)) (List.filter (key_match g) keysL).
Proof.
  intros S. destruct (has_key keysR g) eqn:HkR.
  - rewrite !filter_none; [reflexivity| |].
    + intros k Hk. apply List.filter_In in Hk as [_ Hm].
      now rewrite <- (has_key_congr _ g k Hm), HkR.
    + intros k Hk. apply in_map_iff in Hk as (row & <- & Hrow).
      destruct (group_rows_spec g row S Hrow) as [Hm _].
      now rewrite <- (has_key_congr _ g _ Hm), HkR.
  - f_equal. unfold group_rows. rewrite (proj2 (right_group_has_key g) HkR).
    unfold keysL. rewrite filter_map_swap.
    transitivity (map key_of (map (row_left_only wr)
                    (List.filter (fun r => key_match g (nth kl r NaN)) L))).
    { now destruct (List.filter (fun r => key_match g (nth kl r NaN)) L). }
    rewrite map_map. apply map_ext_in.
    intros l Hl. apply List.filter_In in Hl as [HlL _].
    pose proof (shape_L _ _ _ _ _ _ _ S l HlL) as Hlen.
    pose proof (shape_kl _ _ _ _ _ _ _ S) as Hkl.
    unfold key_of, row_left_only. now rewrite nth_left by lia.
Qed.

Lemma merge_rows_groups_once (k : cell) :
  In k (keysL ++ keysR) ->
  length (List.filter (fun g => key_match g k) (key_groups (keysL ++ keysR))) = 1.
Proof. apply key_groups_once. Qed.

(** The keys of the joined rows whose key the left table does not hold are
    the keys of the right table that the left table does not hold. *)
Lemma merge_rows_right_only :
  join_shape kl kr wl wr L R index ->
  Permutation
    (List.filter (fun k => negb (has_key keysL k)) (map key_of M))
    (List.filter (fun k => negb (has_key keysL k)) keysR).
Proof.
  intros S. unfold M, merge_rows. fold keysL keysR.
  rewrite flat_map_concat_map, concat_map, map_map, <- flat_map_concat_map.
  rewrite filter_flat_map.
  rewrite (flat_map_ext _ _ (fun g => group_rows_right_keys g S)).
  rewrite <- filter_flat_map. apply filter_Permutation_bool, group_partition.
  intros k Hk. apply merge_rows_groups_once. apply in_or_app. now right.
Qed.

Lemma merge_rows_left_only :
  join_shape kl kr wl wr L R index ->
  Permutation
    (List.filter (fun k => negb (has_key keysR k)) (map key_of M))
    (List.filter (fun k => negb (has_key keysR k)) keysL).
Proof.
  intros S. unfold M, merge_rows. fold keysL keysR.
  rewrite flat_map_concat_map, concat_map, map_map, <- flat_map_concat_map.
  rewrite filter_flat_map.
  rewrite (flat_map_ext _ _ (fun g => group_rows_left_keys g S)).
  rewrite <- filter_flat_map. apply filter_Permutation_bool, group_partition.
  intros k Hk. apply merge_rows_groups_once. apply in_or_app. now left.
Qed.

(** The key of a joined row occurs in one of the two tables. *)
Lemma merge_rows_key_somewhere (row : list cell) :
  join_shape kl kr wl wr L R index ->
  In row M -> has_key keysL (key_of row) || has_key keysR (key_of row) = true.
Proof.
  intros S Hin. unfold M, merge_rows in Hin.
  apply in_flat_map in Hin as (g & Hg & Hin).
  destruct (group_rows_spec g row S Hin) as [Hm _].
  rewrite <- !(has_key_congr _ g (key_of row) Hm).
  apply key_groups_inhabited in Hg. fold keysL keysR in Hg.
  unfold has_key in *. now rewrite existsb_app in Hg.
Qed.

End MergeRows.

(* ------------------------------------------------------------------ *)
(** ** Sorting *)

Lemma map_nth_seq {A : Type} (l : list A) (d : A) :
  map (fun i => nth i l d) (seq 0 (length l)) = l.
Proof.
  induction l as [|x l IH]; simpl; [reflexivity|].
  f_equal. rewrite <- seq_shift, map_map. exact IH.
Qed.

Lemma filter_split_Permutation {A : Type} (p : A -> bool) (l : list A) :
  Permutation (List.filter (fun x => negb (p x)) l ++ List.filter p l) l.
Proof.
  induction l as [|x l IH]; simpl; [constructor|].
  destruct (p x); simpl.
  - symmetry. apply Permutation_cons_app. now symmetry.
  - now constructor.
Qed.

Section Sorting.

Variable argsort : list cell -> list nat.

Lemma nargsort_Permutation (k : list cell) (indexer : list nat) :
  argsort_permutes argsort ->
  nargsort argsort k = Ok indexer ->
  Permutation indexer (seq 0 (length k)).
Proof.
  intros Hperm. unfold nargsort.
  set (idx := seq 0 (length k)).
  set (non_nan_idx := List.filter (fun j => negb (isna (nth j k NaN))) idx).
  set (nan_idx := List.filter (fun j => isna (nth j k NaN)) idx).
  set (non_nans := map (fun j => nth j k NaN) non_nan_idx).
  destruct (homogeneous non_nans) eqn:Hh; [|discriminate].
  intros [= <-]. rewrite (Hperm non_nans Hh).
  unfold non_nans at 1. rewrite length_map, map_nth_seq.
  apply (filter_split_Permutation (fun j => isna (nth j k NaN)) idx).
Qed.

Lemma sort_values_columns (label : string) (d d' : DataFrame) :
  sort_values argsort label d = Ok d' -> columns d' = columns d.
Proof.
  unfold sort_values. destruct (get_loc label (columns d)) as [|p [|q ps]]; try discriminate.
  destruct (nargsort argsort (column_values p d)); [|discriminate]. now intros [= <-].
Qed.

Lemma sort_values_key (label : string) (d d' : DataFrame) :
  sort_values argsort label d = Ok d' -> exists p, get_loc label (columns d) = [p].
Proof.
  unfold sort_values. destruct (get_loc label (columns d)) as [|p [|q ps]]; try discriminate.
  intros _. now exists p.
Qed.

(** The sorted table holds the rows of the table, rearranged. *)
Lemma sort_values_Permutation (label : string) (d d' : DataFrame) :
  argsort_permutes argsort ->
  sort_values argsort label d = Ok d' ->
  Permutation (rows d') (rows d).
Proof.
  intros Hperm. unfold sort_values.
  destruct (get_loc label (columns d)) as [|p [|q ps]]; try discriminate.
  destruct (nargsort argsort (column_values p d)) as [indexer|] eqn:E; [|discriminate].
  intros [= <-]. simpl. apply nargsort_Permutation in E; [|assumption].
  unfold column_values in E. rewrite length_map in E.
  etransitivity; [apply Permutation_map, E|]. now rewrite map_nth_seq.
Qed.

Lemma sort_values_rectangular (label : string) (d d' : DataFrame) :
  argsort_permutes argsort ->
  sort_values argsort label d = Ok d' -> rectangular d -> rectangular d'.
Proof.
  intros Hperm Hs Hr. unfold rectangular in *.
  rewrite (sort_values_columns _ _ _ Hs).
  eapply Permutation_Forall; [symmetry; eapply sort_values_Permutation|]; eassumption.
Qed.

Lemma sort_values_join_keys (d d' : DataFrame) :
  argsort_permutes argsort ->
  sort_values argsort key_label d = Ok d' ->
  Permutation (join_keys d') (join_keys d).
Proof.
  intros Hperm Hs. unfold join_keys. rewrite (sort_values_columns _ _ _ Hs).
  apply Permutation_map. eapply sort_values_Permutation; eassumption.
Qed.

End Sorting.

(* ------------------------------------------------------------------ *)
(** ** Preparation *)

Section Preparation.

Variable parse_date : cell -> option (nat * nat * nat).
Variable datetimelike : list cell -> bool.

Lemma normalize_frame_length (date_columns : list string) :
  forall d d', normalize_frame parse_date datetimelike date_columns d = Ok d' ->
  length (rows d') = length (rows d).
Proof.
  induction date_columns as [|col rest IH]; intros d d' H; simpl in H.
  - now injection H as <-.
  - destruct (normalize_step parse_date datetimelike d col) as [d1|e] eqn:E; [|discriminate].
    rewrite (IH _ _ H).
    apply normalize_step_Ok in E as [[_ ->]|(p & _ & _ & ->)]; [reflexivity|].
    simpl. apply length_map.
Qed.

Lemma rename_rectangular (old new : string) (d : DataFrame) :
  rectangular d -> rectangular (mkFrame (str_lower (columns (rename old new d))) (rows d)).
Proof.
  unfold rectangular, str_lower, rename. simpl. now rewrite !length_map.
Qed.

Lemma prepare_columns (key_column : string) (config : Config) (d d' : DataFrame) :
  prepare parse_date datetimelike key_column config d = Ok d' ->
  columns d' = str_lower (columns (rename key_column "KeyColumn" d)).
Proof. unfold prepare. intros H. now apply normalize_frame_columns in H. Qed.

Lemma prepare_rectangular (key_column : string) (config : Config) (d d' : DataFrame) :
  prepare parse_date datetimelike key_column config d = Ok d' -> rectangular d -> rectangular d'.
Proof.
  unfold prepare. intros H Hr. eapply normalize_frame_rectangular; [exact H|].
  exact (rename_rectangular key_column "KeyColumn" d Hr).
Qed.

Lemma prepare_length (key_column : string) (config : Config) (d d' : DataFrame) :
  prepare parse_date datetimelike key_column config d = Ok d' ->
  length (rows d') = length (rows d).
Proof. unfold prepare. intros H. now apply normalize_frame_length in H. Qed.

End Preparation.

(* ------------------------------------------------------------------ *)
(** ** The merged frame *)

Lemma merged_labels_length (suffix : string) (mine other : list string) :
  length (merged_labels suffix mine other) = length mine.
Proof. apply length_map. Qed.

Lemma merged_labels_In (suffix : string) (mine other : list string) (x : string) :
  In x (merged_labels suffix mine other) ->
  In x mine \/ exists y, x = y +:+ suffix /\ In y mine /\ In y other /\ y <> key_label.
Proof.
  unfold merged_labels. intros H. apply in_map_iff in H as (y & <- & Hy).
  destruct (negb (String.eqb y key_label) && label_in y mine && label_in y other) eqn:E.
  - right. exists y. apply andb_true_iff in E as [E Ho]. apply andb_true_iff in E as [Hk _].
    apply negb_true_iff, String.eqb_neq in Hk. apply label_in_In in Ho. auto.
  - now left.
Qed.

Lemma merged_labels_key (suffix : string) (mine other : list string) :
  suffix = suffix_file1 \/ suffix = suffix_file2 ->
  get_loc key_label (merged_labels suffix mine other) = get_loc key_label mine.
Proof.
  intros Hs. apply get_loc_map. intros x _.
  destruct (String.eqb_spec x key_label) as [->|Hne]; simpl.
  - reflexivity.
  - destruct (label_in x mine && label_in x other); [|now apply String.eqb_neq].
    apply String.eqb_neq. now apply suffixed_not_key.
Qed.

Lemma merged_labels_no_merge (suffix : string) (mine other : list string) :
  suffix = suffix_file1 \/ suffix = suffix_file2 ->
  label_in "_merge" mine = false ->
  label_in "_merge" (merged_labels suffix mine other) = false.
Proof.
  intros Hs Hm. apply label_in_false. intros H.
  apply merged_labels_In in H as [H|(y & Hy & _)].
  - now apply label_in_false in Hm.
  - symmetry in Hy. now apply suffixed_not_merge in Hy.
Qed.

Lemma drop_nth_In {A : Type} (p : nat) (l : list A) (x : A) :
  In x (drop_nth p l) -> In x l.
Proof.
  unfold drop_nth. revert p. induction l as [|y l IH]; intros p H.
  - now destruct p.
  - destruct p as [|p]; simpl in H; [now right|].
    destruct H as [H|H]; [now left | right; now apply (IH p)].
Qed.

Lemma label_in_drop_nth (label : string) (p : nat) (l : list string) :
  label_in label l = false -> label_in label (drop_nth p l) = false.
Proof.
  intros H. apply label_in_false. apply label_in_false in H. intros Hin. apply H.
  eapply drop_nth_In; eassumption.
Qed.

(** A successful merge: where its parts are. *)
Lemma merge_anatomy (left right m : DataFrame) :
  merge left right = Ok m ->
  exists kl kr,
    get_loc key_label (columns left) = [kl]
    /\ get_loc key_label (columns right) = [kr]
    /\ columns m
       = merged_labels suffix_file1 (columns left) (columns right)
         ++ drop_nth kr (merged_labels suffix_file2 (columns right) (columns left))
         ++ ["_merge"]
    /\ rows m
       = merge_rows kl kr (length (columns left)) (length (columns right))
           (rows left) (rows right)
    /\ label_in "_merge" (columns left) = false
    /\ label_in "_merge" (columns right) = false.
Proof.
  unfold merge. intros H.
  destruct (get_loc key_label (columns left)) as [|kl [|? ?]] eqn:EL;
    destruct (get_loc key_label (columns right)) as [|kr [|? ?]] eqn:ER;
    try discriminate.
  destruct (existsb _ _) eqn:Ex; [discriminate|].
  injection H as <-. exists kl, kr. simpl in Ex.
  apply orb_false_iff in Ex as [Ex _]. apply orb_false_iff in Ex as [E1 E2].
  repeat split; assumption.
Qed.

Lemma merge_join_shape (left right m : DataFrame) (kl kr : nat) :
  merge left right = Ok m ->
  get_loc key_label (columns left) = [kl] ->
  get_loc key_label (columns right) = [kr] ->
  rectangular left -> rectangular right ->
  join_shape kl kr (length (columns left)) (length (columns right))
    (rows left) (rows right) (columns m).
Proof.
  intros Hm HL HR Hrl Hrr.
  destruct (merge_anatomy _ _ _ Hm) as (kl' & kr' & HL' & HR' & Hcols & _ & Hml & Hmr).
  rewrite HL in HL'. rewrite HR in HR'. injection HL' as <-. injection HR' as <-.
  pose proof (get_loc_single_lt _ _ _ HL) as Hkl.
  pose proof (get_loc_single_lt _ _ _ HR) as Hkr.
  split; try assumption.
  - intros l Hl. unfold rectangular in Hrl. rewrite List.Forall_forall in Hrl. now apply Hrl.
  - intros r Hr. unfold rectangular in Hrr. rewrite List.Forall_forall in Hrr. now apply Hrr.
  - intros row. unfold item, get_loc. rewrite Hcols, !get_loc_from_app.
    rewrite get_loc_from_absent
      by (apply merged_labels_no_merge; [now left | assumption]).
    rewrite get_loc_from_absent
      by (apply label_in_drop_nth, merged_labels_no_merge; [now right | assumption]).
    simpl. rewrite merged_labels_length, drop_nth_length
      by (now rewrite merged_labels_length).
    rewrite merged_labels_length. reflexivity.
  - intros row. unfold item, get_loc. rewrite Hcols, get_loc_from_app.
    fold (get_loc key_label (merged_labels suffix_file1 (columns left) (columns right))).
    rewrite merged_labels_key by now left. now rewrite HL.
Qed.

(* ------------------------------------------------------------------ *)
(** ** The merged frame of the two input tables *)

Lemma join_keys_nth (d : DataFrame) (p : nat) :
  get_loc key_label (columns d) = [p] ->
  join_keys d = map (fun r => nth p r NaN) (rows d).
Proof. intros H. unfold join_keys, item. now rewrite H. Qed.

Lemma side_tag_Permutation (ka ka' kb kb' : list cell) (k : cell) :
  Permutation ka ka' -> Permutation kb kb' -> side_tag ka kb k = side_tag ka' kb' k.
Proof.
  intros Ha Hb. unfold side_tag.
  now rewrite (has_key_Permutation ka ka' k Ha), (has_key_Permutation kb kb' k Hb).
Qed.

Lemma filter_absent_Permutation (ks ks' l : list cell) :
  Permutation ks ks' ->
  List.filter (fun k => negb (has_key ks k)) l
  = List.filter (fun k => negb (has_key ks' k)) l.
Proof.
  intros HP. apply List.filter_ext. intros k. f_equal. now apply has_key_Permutation.
Qed.

Section Pipeline.

Variable argsort : list cell -> list nat.
Variable parse_date : cell -> option (nat * nat * nat).
Variable datetimelike : list cell -> bool.

Lemma merged_frame_anatomy (a b m : DataFrame) (config : Config) :
  merged_frame argsort parse_date datetimelike a b config = Ok m ->
  exists A B A' B',
    prepare parse_date datetimelike (file1_key_column config) config a = Ok A
    /\ prepare parse_date datetimelike (file2_key_column config) config b = Ok B
    /\ sort_values argsort key_label A = Ok A'
    /\ sort_values argsort key_label B = Ok B'
    /\ merge A' B' = Ok m.
Proof.
  unfold merged_frame. intros H.
  destruct (prepare parse_date datetimelike (file1_key_column config) config a) as [A|] eqn:EA;
    [|discriminate].
  destruct (prepare parse_date datetimelike (file2_key_column config) config b) as [B|] eqn:EB;
    [|discriminate].
  cbn [bind_result] in H.
  destruct (sort_values argsort key_label A) as [A'|] eqn:EA'; [|discriminate].
  destruct (sort_values argsort key_label B) as [B'|] eqn:EB'; [|discriminate].
  cbn [bind_result] in H. now exists A, B, A', B'.
Qed.

(** How the joined rows relate to the keys of the two prepared tables. *)
Lemma merged_frame_spec (a b m : DataFrame) (config : Config) :
  argsort_permutes argsort -> rectangular a -> rectangular b ->
  merged_frame argsort parse_date datetimelike a b config = Ok m ->
  exists A B,
    prepare parse_date datetimelike (file1_key_column config) config a = Ok A
    /\ prepare parse_date datetimelike (file2_key_column config) config b = Ok B
    /\ (forall row, In row (rows m) ->
          item (columns m) row "_merge"
          = Str (side_tag (join_keys A) (join_keys B) (item (columns m) row key_label)))
    /\ (forall row, In row (rows m) ->
          has_key (join_keys A) (item (columns m) row key_label)
          || has_key (join_keys B) (item (columns m) row key_label) = true)
    /\ Permutation
         (List.filter (fun k => negb (has_key (join_keys A) k)) (join_keys m))
         (List.filter (fun k => negb (has_key (join_keys A) k)) (join_keys B))
    /\ Permutation
         (List.filter (fun k => negb (has_key (join_keys B) k)) (join_keys m))
         (List.filter (fun k => negb (has_key (join_keys B) k)) (join_keys A)).
Proof.
  intros Hperm Hra Hrb Hm.
  destruct (merged_frame_anatomy _ _ _ _ Hm) as (A & B & A' & B' & HA & HB & HA' & HB' & HM).
  exists A, B. split; [exact HA|]. split; [exact HB|].
  destruct (merge_anatomy _ _ _ HM) as (kl & kr & HL & HR & _ & Hrows & _).
  assert (RA' : rectangular A').
  { eapply sort_values_rectangular; [eassumption..|]. eapply prepare_rectangular; eassumption. }
  assert (RB' : rectangular B').
  { eapply sort_values_rectangular; [eassumption..|]. eapply prepare_rectangular; eassumption. }
  pose proof (merge_join_shape _ _ _ _ _ HM HL HR RA' RB') as S.
  pose proof (sort_values_join_keys _ _ _ Hperm HA') as PA.
  pose proof (sort_values_join_keys _ _ _ Hperm HB') as PB.
  rewrite (join_keys_nth _ _ HL) in PA. rewrite (join_keys_nth _ _ HR) in PB.
  assert (Hkeys : join_keys m = map (fun row => nth kl row NaN) (rows m)).
  { unfold join_keys. apply map_ext. apply (shape_key _ _ _ _ _ _ _ S). }
  repeat split.
  - intros row Hin. rewrite (shape_tag _ _ _ _ _ _ _ S), (shape_key _ _ _ _ _ _ _ S).
    rewrite Hrows in Hin. rewrite (merge_rows_tag _ _ _ _ _ _ _ row S Hin).
    f_equal. now apply side_tag_Permutation.
  - intros row Hin. rewrite (shape_key _ _ _ _ _ _ _ S). rewrite Hrows in Hin.
    rewrite <- (has_key_Permutation _ _ _ PA), <- (has_key_Permutation _ _ _ PB).
    exact (merge_rows_key_somewhere _ _ _ _ _ _ _ row S Hin).
  - rewrite Hkeys, Hrows.
    rewrite <- !(filter_absent_Permutation _ _ _ PA).
    rewrite (merge_rows_right_only _ _ _ _ _ _ _ S).
    now apply filter_Permutation_bool.
  - rewrite Hkeys, Hrows.
    rewrite <- !(filter_absent_Permutation _ _ _ PB).
    rewrite (merge_rows_left_only _ _ _ _ _ _ _ S).
    now apply filter_Permutation_bool.
Qed.

End Pipeline.

(* ------------------------------------------------------------------ *)
(** ** The report *)

Section Report.

Variable argsort : list cell -> list nat.
Variable parse_date : cell -> option (nat * nat * nat).
Variable datetimelike : list cell -> bool.
Variable series_str : nat -> string -> list cell -> string.

Lemma compare_files_result (h h' : gmap nat DataFrame) (l1 l2 : nat) (a b : DataFrame)
    (config : Config) (r : result Report) :
  h !! l1 = Some a -> h !! l2 = Some b ->
  compare_files argsort parse_date datetimelike series_str l1 l2 config h = (r, h') ->
  r = compare_frames argsort parse_date datetimelike series_str a b config.
Proof.
  intros H1 H2 Hrun.
  destruct (compare_files_run argsort parse_date datetimelike series_str h l1 l2 a b config H1 H2)
    as (h'' & Hrun' & _).
  congruence.
Qed.

Lemma compare_frames_report (a b : DataFrame) (config : Config) (rep : Report) :
  compare_frames argsort parse_date datetimelike series_str a b config = Ok rep ->
  exists m,
    merged_frame argsort parse_date datetimelike a b config = Ok m
    /\ rep = report_of series_str (map PyStr.lower (columns_to_compare config)) m.
Proof.
  unfold compare_frames. destruct (merged_frame argsort parse_date datetimelike a b config) as [m|];
    [|discriminate].
  intros [= <-]. now exists m.
Qed.

Lemma merge_is_tag (index : list string) (row : list cell) (tag t : string) :
  item index row "_merge" = Str t -> merge_is tag index row = String.eqb t tag.
Proof.
  intros H. unfold merge_is, cell_eqb. rewrite H.
  destruct (String.eqb_spec t tag) as [->|Hne].
  - now apply bool_decide_eq_true.
  - apply bool_decide_eq_false. congruence.
Qed.

(** The keys listed under a tag, when the tag of a row is decided by its key. *)
Lemma keys_tagged_rows (tag : string) (m : DataFrame) (p : cell -> bool) :
  (forall row, In row (rows m) ->
     merge_is tag (columns m) row = p (item (columns m) row key_label)) ->
  rows (keys_tagged tag m) = map (fun k => [k]) (List.filter p (join_keys m)).
Proof.
  intros H. unfold keys_tagged, join_keys. simpl.
  rewrite (List.filter_ext_in _ _ _ H). rewrite filter_map_swap, map_map. reflexivity.
Qed.

End Report.

(* ------------------------------------------------------------------ *)
(** ** The stable sort meets what pandas promises *)

Lemma string_ltb_asym (a b : string) : string_ltb a b = true -> string_ltb b a = false.
Proof.
  revert b. induction a as [|x a IH]; intros [|y b] H; simpl in *; try congruence.
  apply orb_true_iff in H as [H|H].
  - apply Nat.ltb_lt in H.
    replace (nat_of_ascii y <? nat_of_ascii x) with false by (symmetry; apply Nat.ltb_ge; lia).
    replace (nat_of_ascii y =? nat_of_ascii x) with false by (symmetry; apply Nat.eqb_neq; lia).
    reflexivity.
  - apply andb_true_iff in H as [He H]. apply Nat.eqb_eq in He.
    replace (nat_of_ascii y <? nat_of_ascii x) with false by (symmetry; apply Nat.ltb_ge; lia).
    rewrite (IH b H). apply andb_false_r.
Qed.

Lemma cell_ltb_asym (a b : cell) : cell_ltb a b = true -> cell_ltb b a = false.
Proof.
  destruct a as [| |x|x|y1 m1 d1], b as [| |y|y|y2 m2 d2]; simpl; try congruence.
  - intros H. apply Z.ltb_lt in H. apply Z.ltb_ge. lia.
  - apply string_ltb_asym.
  - intros H.
    destruct (Nat.ltb_spec y1 y2), (Nat.eqb_spec y1 y2), (Nat.ltb_spec m1 m2),
      (Nat.eqb_spec m1 m2), (Nat.ltb_spec d1 d2); simpl in H; try discriminate; try lia;
    destruct (Nat.ltb_spec y2 y1), (Nat.eqb_spec y2 y1), (Nat.ltb_spec m2 m1),
      (Nat.eqb_spec m2 m1), (Nat.ltb_spec d2 d1); simpl; try reflexivity; lia.
Qed.

Lemma insert_pos_Permutation (v : list cell) (i : nat) (sorted : list nat) :
  Permutation (StableSort.insert_pos v i sorted) (i :: sorted).
Proof.
  induction sorted as [|j rest IH]; simpl; [reflexivity|].
  destruct (cell_ltb (nth i v NaN) (nth j v NaN)); [reflexivity|].
  rewrite IH. apply perm_swap.
Qed.

Lemma ascending_cons (a b : cell) (l : list cell) :
  ascending (a :: b :: l) = negb (cell_ltb b a) && ascending (b :: l).
Proof. reflexivity. Qed.

Lemma ascending_tail (a : cell) (l : list cell) :
  ascending (a :: l) = true -> ascending l = true.
Proof.
  destruct l as [|b l]; [reflexivity|]. rewrite ascending_cons.
  intros H. now apply andb_true_iff in H.
Qed.

Lemma insert_pos_ascending (v : list cell) (i : nat) (sorted : list nat) :
  ascending (map (fun p => nth p v NaN) sorted) = true ->
  ascending (map (fun p => nth p v NaN) (StableSort.insert_pos v i sorted)) = true.
Proof.
  induction sorted as [|j rest IH]; intros H; [reflexivity|].
  cbn [StableSort.insert_pos].
  destruct (cell_ltb (nth i v NaN) (nth j v NaN)) eqn:E.
  - cbn [map] in *. rewrite ascending_cons, H. now rewrite (cell_ltb_asym _ _ E).
  - cbn [map] in *. specialize (IH (ascending_tail _ _ H)).
    destruct rest as [|j' rest'].
    + cbn [StableSort.insert_pos map]. rewrite ascending_cons. now rewrite E.
    + cbn [StableSort.insert_pos] in *.
      destruct (cell_ltb (nth i v NaN) (nth j' v NaN)).
      * cbn [map] in *. rewrite ascending_cons, E. exact IH.
      * cbn [map] in *. rewrite ascending_cons in H |- *.
        apply andb_true_iff in H as [H _]. now rewrite H, IH.
Qed.

Lemma stable_argsort_permutes : argsort_permutes StableSort.argsort.
Proof.
  intros ks _. unfold StableSort.argsort.
  assert (H : forall l acc,
    Permutation (fold_left (fun acc i => StableSort.insert_pos ks i acc) l acc) (l ++ acc)).
  { induction l as [|i l IH]; intros acc; simpl; [reflexivity|].
    rewrite IH, insert_pos_Permutation. symmetry. apply Permutation_middle. }
  rewrite H. now rewrite app_nil_r.
Qed.

Lemma stable_argsort_ascends : argsort_ascends StableSort.argsort.
Proof.
  intros ks _. unfold StableSort.argsort.
  assert (H : forall l acc,
    ascending (map (fun p => nth p ks NaN) acc) = true ->
    ascending (map (fun p => nth p ks NaN)
                 (fold_left (fun acc i => StableSort.insert_pos ks i acc) l acc)) = true).
  { induction l as [|i l IH]; intros acc Hacc; simpl; [assumption|].
    apply IH. now apply insert_pos_ascending. }
  now apply H.
Qed.

(* ------------------------------------------------------------------ *)
(** ** Counting rows *)

Lemma filter_length_split {A : Type} (p q r : A -> bool) (l : list A) :
  (forall x, In x l -> p x = q x || r x) ->
  (forall x, In x l -> q x && r x = false) ->
  length (List.filter p l) = length (List.filter q l) + length (List.filter r l).
Proof.
  induction l as [|x l IH]; intros Hp Hqr; simpl; [reflexivity|].
  rewrite (Hp x) by now left. pose proof (Hqr x (or_introl eq_refl)) as Hx.
  assert (IH' := IH (fun y Hy => Hp y (or_intror Hy)) (fun y Hy => Hqr y (or_intror Hy))).
  destruct (q x), (r x); simpl in *; try discriminate; rewrite IH'; lia.
Qed.

Lemma side_tag_both (ka kb : list cell) (k : cell) :
  String.eqb (side_tag ka kb k) "both" = has_key ka k && has_key kb k.
Proof. unfold side_tag. now destruct (has_key ka k), (has_key kb k). Qed.

Lemma side_tag_left_only (ka kb : list cell) (k : cell) :
  String.eqb (side_tag ka kb k) "left_only" = has_key ka k && negb (has_key kb k).
Proof. unfold side_tag. now destruct (has_key ka k), (has_key kb k). Qed.

Lemma side_tag_right_only (ka kb : list cell) (k : cell) :
  String.eqb (side_tag ka kb k) "right_only" = negb (has_key ka k).
Proof. unfold side_tag. now destruct (has_key ka k), (has_key kb k). Qed.

Section Counting.

Variable series_str : nat -> string -> list cell -> string.

(** One record of the detailed comparison per row tagged [both]. *)
Lemma comparison_results_length (columns_to_compare : list string) (m : DataFrame) :
  length (comparison_results series_str columns_to_compare m)
  = length (List.filter (merge_is "both" (columns m)) (rows m)).
Proof.
  unfold comparison_results. generalize 0. generalize (columns m) as index.
  induction (rows m) as [|row rest IH]; intros index n; simpl; [reflexivity|].
  rewrite length_app, IH. destruct (merge_is "both" index row); reflexivity.
Qed.

(** The records of the detailed comparison: the key and one verdict per
    compared column. *)
Lemma comparison_results_In (columns_to_compare : list string) (m : DataFrame)
    (record : list cell) :
  In record (comparison_results series_str columns_to_compare m) ->
  exists name row,
    In row (rows m)
    /\ record = item (columns m) row key_label
                :: map (compare_column series_str name (columns m) row) columns_to_compare.
Proof.
  unfold comparison_results. intros H. apply in_flat_map in H as ([name row] & Hin & H).
  destruct (merge_is "both" (columns m) row); [|contradiction].
  destruct H as [<-|[]]. exists name, row. split; [|reflexivity].
  apply list_elem_of_In, elem_of_zip_r in Hin. now apply list_elem_of_In.
Qed.

End Counting.

(* ------------------------------------------------------------------ *)
(** * The claims *)

(** C1. When the comparison succeeds, the rows of 'Missing in File 1' are
    the join keys of table B that table A does not hold (the rows the outer
    join tags [right_only]), and the rows of 'Missing in File 2' are the join
    keys of table A that table B does not hold (tagged [left_only]); each key
    is listed as often as it occurs. The tables are taken as they enter the
    join: key renamed, labels lower-cased, dates normalised. *)
Theorem missing_keys_come_from_the_other_table
    (argsort : list cell -> list nat)
    (parse_date : cell -> option (nat * nat * nat))
    (datetimelike : list cell -> bool)
    (series_str : nat -> string -> list cell -> string)
    (h h' : gmap nat DataFrame) (l1 l2 : nat) (a b : DataFrame)
    (config : Config) (rep : Report) :
  argsort_permutes argsort ->
  rectangular a -> rectangular b ->
  h !! l1 = Some a -> h !! l2 = Some b ->
  compare_files argsort parse_date datetimelike series_str l1 l2 config h = (Ok rep, h') ->
  exists A B,
    prepare parse_date datetimelike (file1_key_column config) config a = Ok A
    /\ prepare parse_date datetimelike (file2_key_column config) config b = Ok B
    /\ Permutation (rows (missing_in_file1 rep))
         (map (fun k => [k])
            (List.filter (fun k => negb (has_key (join_keys A) k)) (join_keys B)))
    /\ Permutation (rows (missing_in_file2 rep))
         (map (fun k => [k])
            (List.filter (fun k => negb (has_key (join_keys B) k)) (join_keys A))).
Proof.
  intros Hperm Hra Hrb H1 H2 Hrun.
  apply (compare_files_result _ _ _ _ _ _ _ _ _ _ _ _ H1 H2) in Hrun. symmetry in Hrun.
  destruct (compare_frames_report _ _ _ _ _ _ _ _ Hrun) as (m & Hm & ->).
  destruct (merged_frame_spec _ _ _ _ _ _ _ Hperm Hra Hrb Hm)
    as (A & B & HA & HB & Htag & Hsome & Hright & Hleft).
  exists A, B. split; [exact HA|]. split; [exact HB|]. split.
  - cbn [missing_in_file1 report_of].
    rewrite (keys_tagged_rows "right_only" m
               (fun k => negb (has_key (join_keys A) k))).
    + now apply Permutation_map.
    + intros row Hin. rewrite (merge_is_tag _ _ _ _ (Htag row Hin)).
      apply side_tag_right_only.
  - cbn [missing_in_file2 report_of].
    rewrite (keys_tagged_rows "left_only" m
               (fun k => negb (has_key (join_keys B) k))).
    + now apply Permutation_map.
    + intros row Hin. rewrite (merge_is_tag _ _ _ _ (Htag row Hin)).
      rewrite side_tag_left_only. specialize (Hsome row Hin).
      destruct (has_key (join_keys A) _), (has_key (join_keys B) _);
        simpl in *; congruence.
Qed.

(** C3. When the comparison succeeds, 'Matched Records' is the number of
    rows of the outer join whose key both tables hold, and 'Not Matched
    Records' the number of its other rows, which is the number of keys listed
    as missing in file 2 plus the number listed as missing in file 1. Neither
    count looks at a compared column, and the detailed comparison has one
    record per matched row. When no key of table A matches a key of table B,
    the matched count is 0 and the two lists of missing keys are as long as
    the tables. *)
Theorem summary_counts_rows_by_key
    (argsort : list cell -> list nat)
    (parse_date : cell -> option (nat * nat * nat))
    (datetimelike : list cell -> bool)
    (series_str : nat -> string -> list cell -> string)
    (h h' : gmap nat DataFrame) (l1 l2 : nat) (a b : DataFrame)
    (config : Config) (rep : Report) :
  argsort_permutes argsort ->
  rectangular a -> rectangular b ->
  h !! l1 = Some a -> h !! l2 = Some b ->
  compare_files argsort parse_date datetimelike series_str l1 l2 config h = (Ok rep, h') ->
  exists A B m,
    prepare parse_date datetimelike (file1_key_column config) config a = Ok A
    /\ prepare parse_date datetimelike (file2_key_column config) config b = Ok B
    /\ merged_frame argsort parse_date datetimelike a b config = Ok m
    /\ let in_a row := has_key (join_keys A) (item (columns m) row key_label) in
       let in_b row := has_key (join_keys B) (item (columns m) row key_label) in
       let matched := length (List.filter (fun row => in_a row && in_b row) (rows m)) in
       let not_matched :=
         length (List.filter (fun row => negb (in_a row && in_b row)) (rows m)) in
       rows (summary rep)
       = [[Str "Matched Records"; Int (Z.of_nat matched)];
          [Str "Not Matched Records"; Int (Z.of_nat not_matched)]]
       /\ not_matched
          = length (rows (missing_in_file2 rep)) + length (rows (missing_in_file1 rep))
       /\ length (rows (comparison_df rep)) = matched
       /\ ((forall k, In k (join_keys A) -> has_key (join_keys B) k = false) ->
           matched = 0
           /\ length (rows (missing_in_file2 rep)) = length (rows a)
           /\ length (rows (missing_in_file1 rep)) = length (rows b)).
Proof.
  intros Hperm Hra Hrb H1 H2 Hrun.
  apply (compare_files_result _ _ _ _ _ _ _ _ _ _ _ _ H1 H2) in Hrun. symmetry in Hrun.
  destruct (compare_frames_report _ _ _ _ _ _ _ _ Hrun) as (m & Hm & ->).
  destruct (merged_frame_spec _ _ _ _ _ _ _ Hperm Hra Hrb Hm)
    as (A & B & HA & HB & Htag & Hsome & Hright & Hleft).
  exists A, B, m. split; [exact HA|]. split; [exact HB|]. split; [exact Hm|].
  cbv zeta.
  set (in_a := fun row => has_key (join_keys A) (item (columns m) row key_label)).
  set (in_b := fun row => has_key (join_keys B) (item (columns m) row key_label)).
  assert (Hboth : forall row, In row (rows m) ->
            merge_is "both" (columns m) row = in_a row && in_b row).
  { intros row Hin. rewrite (merge_is_tag _ _ _ _ (Htag row Hin)). apply side_tag_both. }
  assert (Hlo : forall row, In row (rows m) ->
            merge_is "left_only" (columns m) row = negb (in_b row)).
  { intros row Hin. rewrite (merge_is_tag _ _ _ _ (Htag row Hin)), side_tag_left_only.
    specialize (Hsome row Hin). fold (in_a row) (in_b row) in Hsome |- *.
    destruct (in_a row), (in_b row); simpl in *; congruence. }
  assert (Hro : forall row, In row (rows m) ->
            merge_is "right_only" (columns m) row = negb (in_a row)).
  { intros row Hin. rewrite (merge_is_tag _ _ _ _ (Htag row Hin)).
    apply side_tag_right_only. }
  assert (Hm2 : length (rows (keys_tagged "left_only" m))
                = length (List.filter (fun k => negb (has_key (join_keys B) k)) (join_keys A))).
  { rewrite (keys_tagged_rows "left_only" m (fun k => negb (has_key (join_keys B) k)) Hlo).
    rewrite length_map. now apply Permutation_length. }
  assert (Hm1 : length (rows (keys_tagged "right_only" m))
                = length (List.filter (fun k => negb (has_key (join_keys A) k)) (join_keys B))).
  { rewrite (keys_tagged_rows "right_only" m (fun k => negb (has_key (join_keys A) k)) Hro).
    rewrite length_map. now apply Permutation_length. }
  cbn [summary comparison_df missing_in_file1 missing_in_file2 report_of rows].
  rewrite (List.filter_ext_in _ _ _ Hboth).
  rewrite (List.filter_ext_in
             (fun row => negb (merge_is "both" (columns m) row))
             (fun row => negb (in_a row && in_b row)))
    by (intros row Hin; now rewrite Hboth).
  split; [reflexivity|]. split; [|split].
  - unfold keys_tagged. cbn [rows]. rewrite !length_map.
    rewrite (List.filter_ext_in _ _ _ Hlo), (List.filter_ext_in _ _ _ Hro).
    apply filter_length_split.
    + intros row _. now destruct (in_a row), (in_b row).
    + intros row Hin. specialize (Hsome row Hin). fold (in_a row) (in_b row) in Hsome.
      destruct (in_a row), (in_b row); simpl in *; congruence.
  - rewrite comparison_results_length. now rewrite (List.filter_ext_in _ _ _ Hboth).
  - intros Hdisj.
    assert (Hdisj' : forall k, In k (join_keys B) -> has_key (join_keys A) k = false).
    { intros k Hk. destruct (has_key (join_keys A) k) eqn:E; [|reflexivity].
      apply has_key_In in E as (k' & Hk' & Hmatch).
      rewrite <- (Hdisj k' Hk'). symmetry. apply has_key_In. exists k.
      split; [assumption|]. now rewrite key_match_sym. }
    split; [|split].
    + rewrite filter_none; [reflexivity|]. intros row Hin.
      destruct (in_a row) eqn:Ea; [|reflexivity]. simpl.
      unfold in_a in Ea. apply has_key_In in Ea as (k' & Hk' & Hmatch).
      unfold in_b. rewrite (has_key_congr _ _ k' Hmatch). now apply Hdisj.
    + rewrite Hm2, filter_all.
      * unfold join_keys. rewrite length_map. eapply prepare_length; eassumption.
      * intros k Hk. now rewrite Hdisj.
    + rewrite Hm1, filter_all.
      * unfold join_keys. rewrite length_map. eapply prepare_length; eassumption.
      * intros k Hk. now rewrite Hdisj'.
Qed.

(** C9. Whether the comparison returns a report or raises, the two frames the
    caller passed in are in the heap afterwards exactly as they were: the
    renaming makes copies, and the lower-casing, the date normalisation and
    the sort work on the copies. *)
Theorem compare_files_keeps_inputs
    (argsort : list cell -> list nat)
    (parse_date : cell -> option (nat * nat * nat))
    (datetimelike : list cell -> bool)
    (series_str : nat -> string -> list cell -> string)
    (h : gmap nat DataFrame) (l1 l2 : nat) (a b : DataFrame) (config : Config) :
  h !! l1 = Some a -> h !! l2 = Some b ->
  snd (compare_files argsort parse_date datetimelike series_str l1 l2 config h) !! l1 = Some a
  /\ snd (compare_files argsort parse_date datetimelike series_str l1 l2 config h) !! l2 = Some b.
Proof.
  intros H1 H2.
  destruct (compare_files_run argsort parse_date datetimelike series_str h l1 l2 a b config H1 H2)
    as (h' & -> & Hkeep).
  cbn [snd]. split.
  - rewrite Hkeep by (rewrite H1; eauto). exact H1.
  - rewrite Hkeep by (rewrite H2; eauto). exact H2.
Qed.

(** C10. [decimal_columns] is read and never used: two configurations that
    differ in that field only give the same outcome, report and heap alike. *)
Theorem decimal_columns_is_ignored
    (argsort : list cell -> list nat)
    (parse_date : cell -> option (nat * nat * nat))
    (datetimelike : list cell -> bool)
    (series_str : nat -> string -> list cell -> string)
    (h : gmap nat DataFrame) (l1 l2 : nat)
    (key1 key2 : string) (compared : list string) (dates : option (list string))
    (decimals decimals' : option (list string)) :
  compare_files argsort parse_date datetimelike series_str l1 l2
    (mkConfig key1 key2 compared dates decimals) h
  = compare_files argsort parse_date datetimelike series_str l1 l2
      (mkConfig key1 key2 compared dates decimals') h.
Proof. unfold compare_files. cbn [columns_to_compare date_columns file1_key_column file2_key_column]. reflexivity. Qed.

(** X17. On a table with unique labels and for distinct names, when every
    named column that the table has converts to a datetime column,
    [normalize_dates] raises nothing and leaves in place of the table the one
    in which every cell under a named label is replaced by the date read in
    it, or by [NaT] when none can be read; names that label no column are
    skipped and the other columns are kept as they are. *)
Theorem normalize_dates_replaces_named_columns
    (parse_date : cell -> option (nat * nat * nat))
    (datetimelike : list cell -> bool)
    (h : gmap nat DataFrame) (df : nat) (d : DataFrame) (date_columns : list string) :
  h !! df = Some d ->
  NoDup (columns d) -> NoDup date_columns ->
  forallb (convertible datetimelike d) date_columns = true ->
  normalize_dates parse_date datetimelike df date_columns h
  = (Ok df, <[df := dates_normalized parse_date date_columns d]> h)
  /\ (forall c year month day,
        parse_date c = Some (year, month, day) ->
        parsed_date parse_date c = Date year month day)
  /\ (forall c, parse_date c = None -> parsed_date parse_date c = NaT).
Proof.
  intros Hl Hcols Hnames Hconv. split; [|split].
  - destruct (normalize_dates_run parse_date datetimelike date_columns h df d Hl) as (d' & -> & Hd').
    rewrite (normalize_frame_spec parse_date datetimelike date_columns d Hcols Hnames Hconv) in *.
    now rewrite (Hd' _ eq_refl).
  - intros c year month day Hc. unfold parsed_date. now rewrite Hc.
  - intros c Hc. unfold parsed_date. now rewrite Hc.
Qed.

(** C2 (amended). For a compared column whose two suffixed labels each occur
    once in the merged row, the verdict is computed from the two cells by
    [str], [strip] and exact equality of the texts: [Matched] when they are
    equal, the text ["valueA | valueB"] of the two trimmed forms otherwise.
    So [" Yes "] against ["Yes"] is [Matched], ["Yes"] against ["yes"] is
    not, a missing marker against the same marker is [Matched], and a missing
    value against a value is a mismatch whenever the trimmed text of that
    value is not the text of the marker. *)
Theorem verdict_compares_trimmed_text
    (series_str : nat -> string -> list cell -> string)
    (name : nat) (index : list string) (row : list cell) (column : string)
    (p1 p2 : nat) :
  get_loc (column +:+ suffix_file1) index = [p1] ->
  get_loc (column +:+ suffix_file2) index = [p2] ->
  let v1 := nth p1 row NaN in
  let v2 := nth p2 row NaN in
  let val1 := PyStr.strip (py_str v1) in
  let val2 := PyStr.strip (py_str v2) in
  let verdict := compare_column series_str name index row column in
  verdict = (if String.eqb val1 val2 then Str "Matched" else Str (val1 +:+ " | " +:+ val2))
  /\ (v1 = Str " Yes " -> v2 = Str "Yes" -> verdict = Str "Matched")
  /\ (v1 = Str "Yes" -> v2 = Str "yes" -> verdict = Str "Yes | yes")
  /\ (isna v1 = true -> v2 = v1 -> verdict = Str "Matched")
  /\ (isna v1 = true -> val2 <> py_str v1 ->
      verdict = Str (py_str v1 +:+ " | " +:+ val2))
  /\ (isna v2 = true -> val1 <> py_str v2 ->
      verdict = Str (val1 +:+ " | " +:+ py_str v2)).
Proof.
  intros Hp1 Hp2 v1 v2 val1 val2 verdict.
  assert (Hv : verdict
               = if String.eqb val1 val2 then Str "Matched"
                 else Str (val1 +:+ " | " +:+ val2)).
  { unfold verdict, compare_column, str_item.
    replace (label_in (column +:+ suffix_file1) index) with true.
    - replace (label_in (column +:+ suffix_file2) index) with true.
      + cbn [andb]. now rewrite Hp1, Hp2.
      + symmetry. apply not_false_iff_true. intros E. apply get_loc_nil in E. congruence.
    - symmetry. apply not_false_iff_true. intros E. apply get_loc_nil in E. congruence. }
  assert (Hna : forall v, isna v = true -> PyStr.strip (py_str v) = py_str v).
  { intros [| | | |] Hv'; try discriminate; reflexivity. }
  split; [exact Hv|]. rewrite Hv. unfold val1, val2. repeat split.
  - intros -> ->. reflexivity.
  - intros -> ->. reflexivity.
  - intros Hna1 ->. now rewrite String.eqb_refl.
  - intros Hna1 Hne. rewrite (Hna v1 Hna1).
    destruct (String.eqb_spec (py_str v1) (PyStr.strip (py_str v2))) as [E|_];
      [|reflexivity].
    now destruct Hne.
  - intros Hna2 Hne. rewrite (Hna v2 Hna2).
    destruct (String.eqb_spec (PyStr.strip (py_str v1)) (py_str v2)) as [E|_];
      [|reflexivity].
    now destruct Hne.
Qed.

(* ------------------------------------------------------------------ *)
(** ** A table without its key column *)

Lemma rename_absent (old new : string) (d : DataFrame) :
  ~ In old (columns d) -> columns (rename old new d) = columns d.
Proof.
  intros H. unfold rename. simpl. rewrite <- (map_id (columns d)) at 2.
  apply map_ext_in. intros c Hc.
  destruct (String.eqb_spec c old) as [->|]; [contradiction | reflexivity].
Qed.

Lemma sort_values_absent (argsort : list cell -> list nat) (label : string) (d : DataFrame) :
  ~ In label (columns d) -> sort_values argsort label d = Raise KeyError.
Proof.
  intros H. unfold sort_values.
  now rewrite (proj2 (get_loc_nil label (columns d)) (proj2 (label_in_false _ _) H)).
Qed.

(** C4 (amended). If a table has no column with the designated key name and
    none of its labels lower-cases to [keycolumn], the comparison raises and
    returns no report. The exception is the [KeyError] of the sort, which
    finds no column [keycolumn], unless a step before that sort raised: the
    preparation of one of the tables or, for the second table, the sort of
    the first. *)
Theorem missing_key_column_raises
    (argsort : list cell -> list nat)
    (parse_date : cell -> option (nat * nat * nat))
    (datetimelike : list cell -> bool)
    (series_str : nat -> string -> list cell -> string)
    (h : gmap nat DataFrame) (l1 l2 : nat) (a b : DataFrame) (config : Config) :
  h !! l1 = Some a -> h !! l2 = Some b ->
  (~ In (file1_key_column config) (columns a) /\ ~ In key_label (str_lower (columns a)))
  \/ (~ In (file2_key_column config) (columns b) /\ ~ In key_label (str_lower (columns b))) ->
  exists e h',
    compare_files argsort parse_date datetimelike series_str l1 l2 config h = (Raise e, h')
    /\ (e = KeyError
        \/ prepare parse_date datetimelike (file1_key_column config) config a = Raise e
        \/ prepare parse_date datetimelike (file2_key_column config) config b = Raise e
        \/ exists A, prepare parse_date datetimelike (file1_key_column config) config a = Ok A
                     /\ sort_values argsort key_label A = Raise e).
Proof.
  intros H1 H2 Hkey.
  destruct (compare_files_run argsort parse_date datetimelike series_str h l1 l2 a b config H1 H2)
    as (h' & -> & _).
  assert (Hraise : exists e,
            compare_frames argsort parse_date datetimelike series_str a b config = Raise e
            /\ (e = KeyError
                \/ prepare parse_date datetimelike (file1_key_column config) config a = Raise e
                \/ prepare parse_date datetimelike (file2_key_column config) config b = Raise e
                \/ exists A, prepare parse_date datetimelike (file1_key_column config) config a = Ok A
                             /\ sort_values argsort key_label A = Raise e)).
  { unfold compare_frames, merged_frame.
    destruct (prepare parse_date datetimelike (file1_key_column config) config a) as [A|e] eqn:EA;
      [|exists e; tauto].
    destruct (prepare parse_date datetimelike (file2_key_column config) config b) as [B|e] eqn:EB;
      [|exists e; tauto].
    cbn [bind_result].
    pose proof (prepare_columns _ _ _ _ _ _ EA) as CA.
    pose proof (prepare_columns _ _ _ _ _ _ EB) as CB.
    destruct Hkey as [[Hk Hl]|[Hk Hl]].
    - rewrite sort_values_absent; [exists KeyError; tauto|].
      now rewrite CA, (rename_absent _ _ _ Hk).
    - destruct (sort_values argsort key_label A) as [A'|e] eqn:ES.
      + cbn [bind_result]. rewrite sort_values_absent; [exists KeyError; tauto|].
        now rewrite CB, (rename_absent _ _ _ Hk).
      + exists e. split; [reflexivity|]. right. right. right. now exists A. }
  destruct Hraise as (e & -> & He). now exists e, h'.
Qed.

(* ------------------------------------------------------------------ *)
(** ** The order of the sorted table *)

Lemma nth_map_default {A B : Type} (f : A -> B) (l : list A) (i : nat) (d : A) (d' : B) :
  i < length l -> nth i (map f l) d' = f (nth i l d).
Proof.
  intros H. rewrite (nth_indep _ d' (f d)) by now rewrite length_map. apply map_nth.
Qed.

Lemma nth_column (rs : list (list cell)) (p j : nat) :
  nth p (nth j rs []) NaN = nth j (map (fun r => nth p r NaN) rs) NaN.
Proof.
  transitivity (nth j (map (fun r => nth p r NaN) rs) (nth p [] NaN)).
  - symmetry. apply (map_nth (fun r => nth p r NaN)).
  - f_equal. now destruct p.
Qed.

(** C5 (amended). A table sorts into a rearrangement of its rows with the
    same labels, in which the rows with a key come first, in ascending order
    of the key, and the rows with a missing key come last; the order among
    rows with equal keys is the sorting algorithm's. *)
Theorem sort_values_orders_by_key
    (argsort : list cell -> list nat) (label : string) (d d' : DataFrame) :
  argsort_permutes argsort -> argsort_ascends argsort ->
  sort_values argsort label d = Ok d' ->
  columns d' = columns d
  /\ Permutation (rows d') (rows d)
  /\ exists p present missing,
       get_loc label (columns d) = [p]
       /\ column_values p d' = present ++ missing
       /\ ascending present = true
       /\ forallb (fun k => negb (isna k)) present = true
       /\ forallb isna missing = true.
Proof.
  intros Hperm Hasc Hsort.
  split; [eapply sort_values_columns; eassumption|].
  split; [eapply sort_values_Permutation; eassumption|].
  unfold sort_values in Hsort.
  destruct (get_loc label (columns d)) as [|p [|q ps]]; try discriminate.
  destruct (nargsort argsort (column_values p d)) as [indexer|] eqn:E; [|discriminate].
  injection Hsort as <-. unfold nargsort in E.
  set (k := column_values p d) in *.
  set (idx := seq 0 (length k)) in *.
  set (non_nan_idx := List.filter (fun j => negb (isna (nth j k NaN))) idx) in *.
  set (nan_idx := List.filter (fun j => isna (nth j k NaN)) idx) in *.
  set (non_nans := map (fun j => nth j k NaN) non_nan_idx) in *.
  destruct (homogeneous non_nans) eqn:Hh; [|discriminate]. injection E as <-.
  exists p, (map (fun q => nth q non_nans NaN) (argsort non_nans)),
    (map (fun j => nth j k NaN) nan_idx).
  split; [reflexivity|].
  assert (Hin : forall q, In q (argsort non_nans) -> q < length non_nan_idx).
  { intros q Hq. apply (Permutation_in _ (Hperm non_nans Hh)) in Hq.
    apply in_seq in Hq. unfold non_nans in Hq. rewrite length_map in Hq. lia. }
  split; [|split; [|split]].
  - unfold column_values. cbn [rows]. rewrite map_map, map_app, map_map.
    f_equal.
    + apply map_ext_in. intros q Hq. unfold non_nans.
      rewrite (nth_map_default _ _ _ 0) by now apply Hin.
      apply nth_column.
    + apply map_ext. intros j. apply nth_column.
  - now apply Hasc.
  - apply forallb_forall. intros x Hx. apply in_map_iff in Hx as (q & <- & Hq).
    unfold non_nans. rewrite (nth_map_default _ _ _ 0) by now apply Hin.
    assert (Hmem : In (nth q non_nan_idx 0) non_nan_idx) by (apply nth_In; now apply Hin).
    now apply List.filter_In in Hmem as [_ Hmem].
  - apply forallb_forall. intros x Hx. apply in_map_iff in Hx as (j & <- & Hj).
    now apply List.filter_In in Hj as [_ Hj].
Qed.

(* ------------------------------------------------------------------ *)
(** ** Suffixed labels of the merged frame *)

(** A label [c_file1] or [c_file2] of the merged frame comes from a column
    [c] that both tables have, or was a label of one of the tables already. *)
Lemma merged_suffixed_label (left right m : DataFrame) (c s : string) :
  s = suffix_file1 \/ s = suffix_file2 ->
  merge left right = Ok m ->
  In (c +:+ s) (columns m) ->
  (In c (columns left) /\ In c (columns right))
  \/ In (c +:+ s) (columns left) \/ In (c +:+ s) (columns right).
Proof.
  intros Hs Hm Hin.
  destruct (merge_anatomy _ _ _ Hm) as (kl & kr & _ & _ & Hcols & _).
  rewrite Hcols in Hin. apply in_app_or in Hin as [Hin|Hin].
  - apply merged_labels_In in Hin as [Hin|(y & Heq & Hy & Hy' & _)]; [tauto|].
    left. apply append_same_length_inj in Heq as [-> _]; [tauto|].
    destruct Hs; now subst.
  - apply in_app_or in Hin as [Hin|Hin].
    + apply drop_nth_In, merged_labels_In in Hin as [Hin|(y & Heq & Hy & Hy' & _)]; [tauto|].
      left. apply append_same_length_inj in Heq as [-> _]; [tauto|].
      destruct Hs; now subst.
    + destruct Hin as [Hin|[]]. symmetry in Hin. now apply suffixed_not_merge in Hin.
Qed.

Lemma lookup_map {A B : Type} (f : A -> B) (l : list A) (i : nat) :
  map f l !! i = f <$> l !! i.
Proof. exact (list_lookup_fmap f l i). Qed.

(** C7 (amended). Take a compared column (in lower case) that one of the
    two tables lacks after renaming and lower-casing, and suppose that no
    table has a label that is this name followed by [_file1], or none has one
    that is this name followed by [_file2]. Then every record of the detailed
    comparison holds 'Not Available' for that column. *)
Theorem absent_column_is_not_available
    (argsort : list cell -> list nat)
    (parse_date : cell -> option (nat * nat * nat))
    (datetimelike : list cell -> bool)
    (series_str : nat -> string -> list cell -> string)
    (h h' : gmap nat DataFrame) (l1 l2 : nat) (a b : DataFrame)
    (config : Config) (rep : Report) (i : nat) (column : string) :
  h !! l1 = Some a -> h !! l2 = Some b ->
  compare_files argsort parse_date datetimelike series_str l1 l2 config h = (Ok rep, h') ->
  map PyStr.lower (columns_to_compare config) !! i = Some column ->
  let ca := str_lower (columns (rename (file1_key_column config) "KeyColumn" a)) in
  let cb := str_lower (columns (rename (file2_key_column config) "KeyColumn" b)) in
  ~ In column ca \/ ~ In column cb ->
  (~ In (column +:+ suffix_file1) ca /\ ~ In (column +:+ suffix_file1) cb)
  \/ (~ In (column +:+ suffix_file2) ca /\ ~ In (column +:+ suffix_file2) cb) ->
  Forall (fun record => record !! (S i) = Some (Str "Not Available"))
    (rows (comparison_df rep)).
Proof.
  intros H1 H2 Hrun Hcol ca cb Habs Hsuf. apply List.Forall_forall. intros record Hrec.
  apply (compare_files_result _ _ _ _ _ _ _ _ _ _ _ _ H1 H2) in Hrun. symmetry in Hrun.
  destruct (compare_frames_report _ _ _ _ _ _ _ _ Hrun) as (m & Hm & ->).
  destruct (merged_frame_anatomy _ _ _ _ _ _ _ Hm) as (A & B & A' & B' & HA & HB & HA' & HB' & HM).
  assert (EA : columns A' = ca).
  { rewrite (sort_values_columns _ _ _ _ HA'). now apply prepare_columns in HA. }
  assert (EB : columns B' = cb).
  { rewrite (sort_values_columns _ _ _ _ HB'). now apply prepare_columns in HB. }
  cbn [comparison_df report_of rows] in Hrec.
  apply comparison_results_In in Hrec as (name & row & _ & ->).
  rewrite lookup_cons, lookup_map, Hcol. cbn [fmap option_fmap option_map].
  f_equal. unfold compare_column.
  destruct (label_in (column +:+ suffix_file1) (columns m)) eqn:E1;
    destruct (label_in (column +:+ suffix_file2) (columns m)) eqn:E2; try reflexivity.
  exfalso.
  apply label_in_In, (merged_suffixed_label A' B' m column suffix_file1) in E1;
    [|now left|exact HM].
  apply label_in_In, (merged_suffixed_label A' B' m column suffix_file2) in E2;
    [|now right|exact HM].
  rewrite EA, EB in E1, E2. tauto.
Qed.

(* ------------------------------------------------------------------ *)
(** ** Letter case of labels *)

Lemma same_labels_prepared (key_column new : string) (xs ys : list string) :
  same_labels_up_to_case key_column xs ys ->
  str_lower (map (fun c => if String.eqb c key_column then new else c) xs)
  = str_lower (map (fun c => if String.eqb c key_column then new else c) ys).
Proof.
  unfold same_labels_up_to_case, str_lower.
  induction 1 as [|x y xs ys [Hlow Hkey] _ IH]; [reflexivity|].
  cbn [map]. f_equal; [|exact IH].
  destruct (String.eqb_spec x key_column) as [Hx|Hx],
    (String.eqb_spec y key_column) as [Hy|Hy]; tauto.
Qed.

(** C8 (amended). Two runs give the same result, report or exception, when
    their tables have the same rows and labels that differ in letter case
    only, the designated key column being at the same positions with its
    exact name, and their configurations name the same key columns and give
    lists of compared and date columns that differ in letter case only. *)
Theorem result_ignores_label_case
    (argsort : list cell -> list nat)
    (parse_date : cell -> option (nat * nat * nat))
    (datetimelike : list cell -> bool)
    (series_str : nat -> string -> list cell -> string)
    (h h' : gmap nat DataFrame) (l1 l2 l1' l2' : nat) (a b a' b' : DataFrame)
    (config config' : Config) :
  h !! l1 = Some a -> h !! l2 = Some b ->
  h' !! l1' = Some a' -> h' !! l2' = Some b' ->
  rows a' = rows a -> rows b' = rows b ->
  same_labels_up_to_case (file1_key_column config) (columns a) (columns a') ->
  same_labels_up_to_case (file2_key_column config) (columns b) (columns b') ->
  file1_key_column config' = file1_key_column config ->
  file2_key_column config' = file2_key_column config ->
  map PyStr.lower (columns_to_compare config')
  = map PyStr.lower (columns_to_compare config) ->
  map PyStr.lower (default [] (date_columns config'))
  = map PyStr.lower (default [] (date_columns config)) ->
  fst (compare_files argsort parse_date datetimelike series_str l1' l2' config' h')
  = fst (compare_files argsort parse_date datetimelike series_str l1 l2 config h).
Proof.
  intros H1 H2 H1' H2' Hra Hrb Hca Hcb Hk1 Hk2 Hctc Hdc.
  destruct (compare_files_run argsort parse_date datetimelike series_str h l1 l2 a b config H1 H2)
    as (h1 & -> & _).
  destruct (compare_files_run argsort parse_date datetimelike series_str h' l1' l2' a' b' config' H1' H2')
    as (h2 & -> & _).
  cbn [fst]. unfold compare_frames, merged_frame, prepare, rename. cbn [columns rows].
  rewrite Hk1, Hk2, Hctc, Hdc, Hra, Hrb.
  now rewrite (same_labels_prepared _ _ _ _ Hca), (same_labels_prepared _ _ _ _ Hcb).
Qed.

(* ------------------------------------------------------------------ *)
(** * The claims on the example tables *)

Import Examples.

Lemma orders_rectangular : rectangular orders1 /\ rectangular orders2.
Proof. split; repeat constructor. Qed.

Lemma orders_run :
  run StableSort.argsort orders1 orders2 orders_config
  = (Ok orders_report, snd (run StableSort.argsort orders1 orders2 orders_config)).
Proof. vm_compute. reflexivity. Qed.

(** C1 on the orders: key 4 is missing in file 1, key 2 in file 2. *)
Lemma missing_keys_of_the_orders :
  exists A B,
    prepare ToyDates.parse_date ToyDates.datetimelike "ID" orders_config orders1 = Ok A
    /\ prepare ToyDates.parse_date ToyDates.datetimelike "Key" orders_config orders2 = Ok B
    /\ Permutation (rows (missing_in_file1 orders_report))
         (map (fun k => [k])
            (List.filter (fun k => negb (has_key (join_keys A) k)) (join_keys B)))
    /\ Permutation (rows (missing_in_file2 orders_report))
         (map (fun k => [k])
            (List.filter (fun k => negb (has_key (join_keys B) k)) (join_keys A))).
Proof.
  exact (missing_keys_come_from_the_other_table
           StableSort.argsort ToyDates.parse_date ToyDates.datetimelike ToyDates.series_str
           (two_tables orders1 orders2)
           (snd (run StableSort.argsort orders1 orders2 orders_config))
           0 1 orders1 orders2 orders_config orders_report
           stable_argsort_permutes
           (proj1 orders_rectangular) (proj2 orders_rectangular)
           eq_refl eq_refl orders_run).
Defined.

(** C3 on the orders: two matched rows, two unmatched. *)
Lemma summary_of_the_orders :
  exists A B m,
    prepare ToyDates.parse_date ToyDates.datetimelike "ID" orders_config orders1 = Ok A
    /\ prepare ToyDates.parse_date ToyDates.datetimelike "Key" orders_config orders2 = Ok B
    /\ merged_frame StableSort.argsort ToyDates.parse_date ToyDates.datetimelike orders1 orders2 orders_config = Ok m
    /\ let in_a row := has_key (join_keys A) (item (columns m) row key_label) in
       let in_b row := has_key (join_keys B) (item (columns m) row key_label) in
       let matched := length (List.filter (fun row => in_a row && in_b row) (rows m)) in
       let not_matched :=
         length (List.filter (fun row => negb (in_a row && in_b row)) (rows m)) in
       rows (summary orders_report)
       = [[Str "Matched Records"; Int (Z.of_nat matched)];
          [Str "Not Matched Records"; Int (Z.of_nat not_matched)]]
       /\ not_matched
          = length (rows (missing_in_file2 orders_report))
            + length (rows (missing_in_file1 orders_report))
       /\ length (rows (comparison_df orders_report)) = matched
       /\ ((forall k, In k (join_keys A) -> has_key (join_keys B) k = false) ->
           matched = 0
           /\ length (rows (missing_in_file2 orders_report)) = length (rows orders1)
           /\ length (rows (missing_in_file1 orders_report)) = length (rows orders2)).
Proof.
  exact (summary_counts_rows_by_key
           StableSort.argsort ToyDates.parse_date ToyDates.datetimelike ToyDates.series_str
           (two_tables orders1 orders2)
           (snd (run StableSort.argsort orders1 orders2 orders_config))
           0 1 orders1 orders2 orders_config orders_report
           stable_argsort_permutes
           (proj1 orders_rectangular) (proj2 orders_rectangular)
           eq_refl eq_refl orders_run).
Defined.

(** C9 on the orders: both files are in the heap unchanged after the run. *)
Lemma orders_are_kept :
  snd (run StableSort.argsort orders1 orders2 orders_config) !! 0 = Some orders1
  /\ snd (run StableSort.argsort orders1 orders2 orders_config) !! 1 = Some orders2.
Proof.
  exact (compare_files_keeps_inputs
           StableSort.argsort ToyDates.parse_date ToyDates.datetimelike ToyDates.series_str
           (two_tables orders1 orders2) 0 1 orders1 orders2 orders_config
           eq_refl eq_refl).
Defined.

Lemma dated_labels_unique : NoDup (columns dated) /\ NoDup ["when"; "absent"].
Proof. split; apply (bool_decide_unpack _); vm_compute; exact I. Qed.

(** X17 on a table with a date column: the bad date becomes [NaT], the name
    that labels no column is skipped. *)
Lemma dates_of_the_dated_table :
  normalize_dates ToyDates.parse_date ToyDates.datetimelike 0 ["when"; "absent"] (<[0 := dated]> ∅)
  = (Ok 0, <[0 := dates_normalized ToyDates.parse_date ["when"; "absent"] dated]>
             (<[0 := dated]> ∅))
  /\ (forall c year month day,
        ToyDates.parse_date c = Some (year, month, day) ->
        parsed_date ToyDates.parse_date c = Date year month day)
  /\ (forall c, ToyDates.parse_date c = None -> parsed_date ToyDates.parse_date c = NaT).
Proof.
  exact (normalize_dates_replaces_named_columns ToyDates.parse_date ToyDates.datetimelike
           (<[0 := dated]> ∅) 0 dated ["when"; "absent"]
           eq_refl (proj1 dated_labels_unique) (proj2 dated_labels_unique) eq_refl).
Defined.

(** C6. A date column whose texts carry two UTC offsets: every cell is read
    as a date, and still [normalize_dates] replaces no cell and raises
    [AttributeError], where the claim has it return the table with the
    parsed dates. *)
Theorem two_offsets_stop_the_normalization :
  map ToyDates.parse_date (column_values 1 two_offsets)
  = [Some (2024, 1, 1); Some (2024, 1, 2)]
  /\ normalize_dates ToyDates.parse_date ToyDates.datetimelike 0 ["when"]
       (<[0 := two_offsets]> ∅)
     = (Raise AttributeError, <[0 := two_offsets]> ∅).
Proof. split; vm_compute; reflexivity. Qed.

(** C2 on a merged row: [" Yes "] against ["Yes"]. *)
Lemma verdict_of_the_flag_row :
  compare_column ToyDates.series_str 0 flag_index flag_row "flag" = Str "Matched".
Proof.
  exact (proj1 (verdict_compares_trimmed_text ToyDates.series_str 0 flag_index flag_row
                  "flag" 1 2 eq_refl eq_refl)).
Defined.

(** C2 as stated fails: a missing amount against the text [nan] is reported
    as [Matched]. *)
Lemma missing_value_matches_nan_text :
  isna NaN = true /\ isna (Str "nan") = false
  /\ fst (run NumpySort.argsort blank_amount nan_text_amount amount_config)
     = Ok (mkReport
             (mkFrame ["Description"; "Count"]
                [[Str "Matched Records"; Int 1]; [Str "Not Matched Records"; Int 0]])
             (mkFrame ["KeyColumn"; "amt"] [[Int 1; Str "Matched"]])
             (mkFrame ["keycolumn"] [])
             (mkFrame ["keycolumn"] [])).
Proof. repeat split. Qed.

(** C4 on a file without its key column. *)
Lemma no_key_raises :
  exists e h',
    compare_files StableSort.argsort ToyDates.parse_date ToyDates.datetimelike ToyDates.series_str 0 1
      keyed_config (two_tables no_key keyed2)
    = (Raise e, h')
    /\ (e = KeyError
        \/ prepare ToyDates.parse_date ToyDates.datetimelike "id" keyed_config no_key = Raise e
        \/ prepare ToyDates.parse_date ToyDates.datetimelike "id" keyed_config keyed2 = Raise e
        \/ exists A, prepare ToyDates.parse_date ToyDates.datetimelike "id" keyed_config no_key = Ok A
                     /\ sort_values StableSort.argsort key_label A = Raise e).
Proof.
  refine (missing_key_column_raises
            StableSort.argsort ToyDates.parse_date ToyDates.datetimelike ToyDates.series_str
            (two_tables no_key keyed2) 0 1 no_key keyed2 keyed_config
            eq_refl eq_refl (or_introl (conj _ _)));
    simpl; intuition discriminate.
Defined.

(** C4 as stated fails: neither file has the designated column [id], and the
    comparison returns a report, joined on the column [keycolumn]. *)
Lemma undesignated_key_is_used :
  label_in "id" (columns keyed1) = false
  /\ label_in "id" (columns keyed2) = false
  /\ fst (run NumpySort.argsort keyed1 keyed2 keyed_config)
     = Ok (mkReport
             (mkFrame ["Description"; "Count"]
                [[Str "Matched Records"; Int 1]; [Str "Not Matched Records"; Int 0]])
             (mkFrame ["KeyColumn"; "amt"] [[Int 1; Str "5 | 6"]])
             (mkFrame ["keycolumn"] [])
             (mkFrame ["keycolumn"] [])).
Proof. repeat split. Qed.

Lemma unsorted_sorts : sort_values StableSort.argsort key_label unsorted = Ok sorted.
Proof. reflexivity. Qed.

(** C5 on a small table, sorted by a stable sort. *)
Lemma sorted_is_ordered :
  columns sorted = columns unsorted
  /\ Permutation (rows sorted) (rows unsorted)
  /\ exists p present missing,
       get_loc key_label (columns unsorted) = [p]
       /\ column_values p sorted = present ++ missing
       /\ ascending present = true
       /\ forallb (fun k => negb (isna k)) present = true
       /\ forallb isna missing = true.
Proof.
  exact (sort_values_orders_by_key StableSort.argsort key_label unsorted sorted
           stable_argsort_permutes stable_argsort_ascends unsorted_sorts).
Defined.

(** C5 as stated fails: numpy's quicksort returns eighteen rows of one key
    in another order than it received them (row 15 comes out second). *)
Lemma quicksort_reorders_equal_keys :
  sort_values NumpySort.argsort key_label eighteen
  = Ok (mkFrame ["keycolumn"; "n"]
          (map (fun i => [Int 7; Int i])
             [0; 15; 14; 13; 12; 11; 10; 9; 8; 7; 6; 5; 4; 3; 2; 1; 16; 17]%Z)).
Proof. vm_compute. reflexivity. Qed.

Lemma region_run :
  run StableSort.argsort with_region without_region region_config
  = (Ok region_report, snd (run StableSort.argsort with_region without_region region_config)).
Proof. vm_compute. reflexivity. Qed.

(** C7 on a file with a [region] column against a file without one. *)
Lemma region_is_not_available :
  Forall (fun record => record !! 1 = Some (Str "Not Available"))
    (rows (comparison_df region_report)).
Proof.
  refine (absent_column_is_not_available
            StableSort.argsort ToyDates.parse_date ToyDates.datetimelike ToyDates.series_str
            (two_tables with_region without_region)
            (snd (run StableSort.argsort with_region without_region region_config))
            0 1 with_region without_region region_config region_report 0 "region"
            eq_refl eq_refl region_run eq_refl (or_intror _) (or_introl (conj _ _)));
    simpl; intuition discriminate.
Defined.

(** C7 as stated fails: neither file has a column [region], and the verdict
    compares the columns [region_file1] and [region_file2] of the first file. *)
Lemma suffixed_labels_are_compared :
  label_in "region" (columns suffixed) = false
  /\ label_in "region" (columns keys_only) = false
  /\ fst (run NumpySort.argsort suffixed keys_only region_config)
     = Ok (mkReport
             (mkFrame ["Description"; "Count"]
                [[Str "Matched Records"; Int 1]; [Str "Not Matched Records"; Int 0]])
             (mkFrame ["KeyColumn"; "region"] [[Int 1; Str "north | south"]])
             (mkFrame ["keycolumn"] [])
             (mkFrame ["keycolumn"] [])).
Proof. repeat split. Qed.

Lemma orders_upper_labels :
  same_labels_up_to_case "ID" (columns orders1) (columns orders1_upper)
  /\ same_labels_up_to_case "Key" (columns orders2) (columns orders2).
Proof.
  split; repeat (constructor; [split; [reflexivity | split; intros E; first [exact E | discriminate E]]|]);
    constructor.
Qed.

(** C8 on the orders: other letter case in the headers that are not the key
    and in the configured lists gives the same result. *)
Lemma orders_in_upper_case :
  fst (compare_files StableSort.argsort ToyDates.parse_date ToyDates.datetimelike ToyDates.series_str 0 1
         orders_config_upper (two_tables orders1_upper orders2))
  = fst (compare_files StableSort.argsort ToyDates.parse_date ToyDates.datetimelike ToyDates.series_str 0 1
           orders_config (two_tables orders1 orders2)).
Proof.
  exact (result_ignores_label_case
           StableSort.argsort ToyDates.parse_date ToyDates.datetimelike ToyDates.series_str
           (two_tables orders1 orders2) (two_tables orders1_upper orders2)
           0 1 0 1 orders1 orders2 orders1_upper orders2
           orders_config orders_config_upper
           eq_refl eq_refl eq_refl eq_refl eq_refl eq_refl
           (proj1 orders_upper_labels) (proj2 orders_upper_labels)
           eq_refl eq_refl eq_refl eq_refl).
Defined.

(** C8 as stated fails: with the key header [ID] written [id], the labels
    being otherwise the same, the comparison raises [KeyError] where it
    returned a report. *)
Lemma key_header_case_matters :
  str_lower (columns orders1_key_lower) = str_lower (columns orders1)
  /\ rows orders1_key_lower = rows orders1
  /\ fst (run NumpySort.argsort orders1 orders2 orders_config) = Ok orders_report
  /\ fst (run NumpySort.argsort orders1_key_lower orders2 orders_config) = Raise KeyError.
Proof. repeat split. Qed.

(* ------------------------------------------------------------------ *)
(** ** The scenarios of the specification *)

(** One order in both files, its date written in two ways and listed as a
    date column: one matched record, both columns [Matched]. *)
Example scenario_two_date_formats :
  fst (run NumpySort.argsort january1 january2 january_config)
  = Ok (mkReport
          (mkFrame ["Description"; "Count"]
             [[Str "Matched Records"; Int 1]; [Str "Not Matched Records"; Int 0]])
          (mkFrame ["KeyColumn"; "amt"; "date"] [[Int 1; Str "Matched"; Str "Matched"]])
          (mkFrame ["keycolumn"] [])
          (mkFrame ["keycolumn"] [])).
Proof. reflexivity. Qed.

(** An order that only the first file has: no matched record, and key 2 is
    listed under 'Missing in File 2'. *)
Example scenario_key_only_in_first_file :
  fst (run NumpySort.argsort lonely1 lonely2 amount_config)
  = Ok (mkReport
          (mkFrame ["Description"; "Count"]
             [[Str "Matched Records"; Int 0]; [Str "Not Matched Records"; Int 1]])
          (mkFrame ["KeyColumn"; "amt"] [])
          (mkFrame ["keycolumn"] [])
          (mkFrame ["keycolumn"] [[Int 2]])).
Proof. reflexivity. Qed.

(* ------------------------------------------------------------------ *)
(** * Further properties of the comparison *)

(** ** No row is lost by the join *)

Lemma key_group_exists (ks : list cell) (k : cell) :
  In k ks -> exists g, In g (key_groups ks) /\ key_match g k = true.
Proof.
  intros Hin. pose proof (key_groups_once ks k Hin) as H.
  destruct (List.filter (fun g => key_match g k) (key_groups ks)) as [|g l] eqn:E;
    [discriminate|].
  assert (Hg : In g (List.filter (fun g => key_match g k) (key_groups ks)))
    by (rewrite E; now left).
  apply List.filter_In in Hg. now exists g.
Qed.

(** Every row of the left table is the left part of a joined row. *)
Lemma merge_rows_covers_left (kl kr wl wr : nat) (L R : list (list cell))
    (index : list string) (l : list cell) :
  join_shape kl kr wl wr L R index ->
  In l L ->
  exists row, In row (merge_rows kl kr wl wr L R) /\ nth kl row NaN = nth kl l NaN.
Proof.
  intros S Hl.
  destruct (key_group_exists
              (map (fun r => nth kl r NaN) L ++ map (fun r => nth kr r NaN) R)
              (nth kl l NaN)) as (g & Hg & Hm).
  { apply in_or_app. left. exact (in_map (fun r => nth kl r NaN) L l Hl). }
  pose proof (shape_L _ _ _ _ _ _ _ S l Hl) as Hlen.
  pose proof (shape_kl _ _ _ _ _ _ _ S) as Hkl.
  assert (Hls : In l (List.filter (fun r => key_match g (nth kl r NaN)) L))
    by now apply List.filter_In.
  unfold merge_rows.
  destruct (List.filter (fun r => key_match g (nth kr r NaN)) R) as [|r0 rs] eqn:ER.
  - exists (row_left_only wr l). split.
    + apply in_flat_map. exists g. split; [exact Hg|]. unfold group_rows. rewrite ER.
      destruct (List.filter (fun r => key_match g (nth kl r NaN)) L) as [|l0 ls];
        [contradiction|].
      now apply in_map.
    + unfold row_left_only. apply nth_left. lia.
  - exists (row_both kr l r0). split.
    + apply in_flat_map. exists g. split; [exact Hg|]. unfold group_rows. rewrite ER.
      destruct (List.filter (fun r => key_match g (nth kl r NaN)) L) as [|l0 ls] eqn:EL;
        [contradiction|].
      apply in_flat_map. exists l. split; [exact Hls|]. now left.
    + unfold row_both. apply nth_left. lia.
Qed.

(** Every row of the right table is joined into a row whose key matches its
    key. *)
Lemma merge_rows_covers_right (kl kr wl wr : nat) (L R : list (list cell))
    (index : list string) (r : list cell) :
  join_shape kl kr wl wr L R index ->
  In r R ->
  exists row, In row (merge_rows kl kr wl wr L R)
              /\ key_match (nth kl row NaN) (nth kr r NaN) = true.
Proof.
  intros S Hr.
  destruct (key_group_exists
              (map (fun r => nth kl r NaN) L ++ map (fun r => nth kr r NaN) R)
              (nth kr r NaN)) as (g & Hg & Hm).
  { apply in_or_app. right. exact (in_map (fun r => nth kr r NaN) R r Hr). }
  assert (Hrs : In r (List.filter (fun r => key_match g (nth kr r NaN)) R))
    by now apply List.filter_In.
  assert (Hrow : exists row, In row (group_rows kl kr wl wr L R g)).
  { unfold group_rows.
    destruct (List.filter (fun r => key_match g (nth kl r NaN)) L) as [|l0 ls].
    - exists (row_right_only kl kr wl r). now apply in_map.
    - destruct (List.filter (fun r => key_match g (nth kr r NaN)) R) as [|r0 rs];
        [contradiction|].
      exists (row_both kr l0 r0). apply in_flat_map. exists l0. split; now left. }
  destruct Hrow as [row Hrow]. exists row. split.
  - unfold merge_rows. apply in_flat_map. now exists g.
  - destruct (group_rows_spec _ _ _ _ _ _ _ g row S Hrow) as [Hgk _].
    rewrite key_match_sym in Hgk. eapply key_match_trans; eassumption.
Qed.

Section Coverage.

Variable argsort : list cell -> list nat.
Variable parse_date : cell -> option (nat * nat * nat).
Variable datetimelike : list cell -> bool.
Variable series_str : nat -> string -> list cell -> string.

(** The keys of the two prepared tables are among the keys of the merged
    frame. *)
Lemma merged_frame_covers (a b m A B : DataFrame) (config : Config) :
  argsort_permutes argsort -> rectangular a -> rectangular b ->
  merged_frame argsort parse_date datetimelike a b config = Ok m ->
  prepare parse_date datetimelike (file1_key_column config) config a = Ok A ->
  prepare parse_date datetimelike (file2_key_column config) config b = Ok B ->
  (forall k, In k (join_keys A) ->
     exists row, In row (rows m) /\ item (columns m) row key_label = k)
  /\ (forall k, In k (join_keys B) ->
        exists row, In row (rows m)
                    /\ key_match (item (columns m) row key_label) k = true).
Proof.
  intros Hperm Hra Hrb Hm HA HB.
  destruct (merged_frame_anatomy _ _ _ _ _ _ _ Hm)
    as (A0 & B0 & A' & B' & HA0 & HB0 & HA' & HB' & HM).
  rewrite HA in HA0. rewrite HB in HB0. injection HA0 as <-. injection HB0 as <-.
  destruct (merge_anatomy _ _ _ HM) as (kl & kr & HL & HR & _ & Hrows & _).
  assert (RA' : rectangular A').
  { eapply sort_values_rectangular; [eassumption..|]. eapply prepare_rectangular; eassumption. }
  assert (RB' : rectangular B').
  { eapply sort_values_rectangular; [eassumption..|]. eapply prepare_rectangular; eassumption. }
  pose proof (merge_join_shape _ _ _ _ _ HM HL HR RA' RB') as S.
  pose proof (sort_values_join_keys _ _ _ Hperm HA') as PA.
  pose proof (sort_values_join_keys _ _ _ Hperm HB') as PB.
  rewrite (join_keys_nth _ _ HL) in PA. rewrite (join_keys_nth _ _ HR) in PB.
  split.
  - intros k Hk. apply (Permutation_in _ (Permutation_sym PA)) in Hk.
    apply in_map_iff in Hk as (l & <- & Hl).
    destruct (merge_rows_covers_left _ _ _ _ _ _ _ l S Hl) as (row & Hrow & Hkey).
    exists row. rewrite Hrows, (shape_key _ _ _ _ _ _ _ S). now split.
  - intros k Hk. apply (Permutation_in _ (Permutation_sym PB)) in Hk.
    apply in_map_iff in Hk as (r & <- & Hr).
    destruct (merge_rows_covers_right _ _ _ _ _ _ _ r S Hr) as (row & Hrow & Hkey).
    exists row. rewrite Hrows, (shape_key _ _ _ _ _ _ _ S). now split.
Qed.

(** A row tagged [both] has its record in the detailed comparison. *)
Lemma comparison_results_of_row (columns_to_compare : list string) (m : DataFrame)
    (row : list cell) :
  In row (rows m) -> merge_is "both" (columns m) row = true ->
  exists record,
    In record (comparison_results series_str columns_to_compare m)
    /\ head record = Some (item (columns m) row key_label).
Proof.
  intros Hin Hboth. apply list_elem_of_In, list_elem_of_lookup_1 in Hin as [i Hi].
  exists (item (columns m) row key_label
          :: map (compare_column series_str i (columns m) row) columns_to_compare).
  split; [|reflexivity].
  unfold comparison_results. apply in_flat_map. exists (i, row). split.
  - apply list_elem_of_In, list_elem_of_lookup_2 with i.
    apply lookup_zip_with_Some. exists i, row. split; [reflexivity|]. split; [|exact Hi].
    apply lookup_seq. split; [reflexivity|]. now apply lookup_lt_Some in Hi.
  - rewrite Hboth. now left.
Qed.

End Coverage.

Lemma comparison_results_row (series_str : nat -> string -> list cell -> string)
    (columns_to_compare : list string) (m : DataFrame) (record : list cell) :
  In record (comparison_results series_str columns_to_compare m) ->
  exists name row,
    In row (rows m)
    /\ merge_is "both" (columns m) row = true
    /\ record = item (columns m) row key_label
                :: map (compare_column series_str name (columns m) row) columns_to_compare.
Proof.
  unfold comparison_results. intros H. apply in_flat_map in H as ([name row] & Hin & H).
  destruct (merge_is "both" (columns m) row) eqn:E; [|contradiction].
  destruct H as [<-|[]]. exists name, row. split; [|now split].
  apply list_elem_of_In, elem_of_zip_r in Hin. now apply list_elem_of_In.
Qed.

Lemma has_key_self (ks : list cell) (k : cell) : In k ks -> has_key ks k = true.
Proof. intros H. apply has_key_In. exists k. split; [assumption | apply key_match_refl]. Qed.

(** X1. When the comparison succeeds no key is lost: every key of table A
    heads a record of the detailed comparison or is listed under 'Missing in
    File 2', and every key of table B is matched by the key of a record of the
    detailed comparison or is listed under 'Missing in File 1'. *)
Theorem every_key_is_reported
    (argsort : list cell -> list nat)
    (parse_date : cell -> option (nat * nat * nat))
    (datetimelike : list cell -> bool)
    (series_str : nat -> string -> list cell -> string)
    (h h' : gmap nat DataFrame) (l1 l2 : nat) (a b : DataFrame)
    (config : Config) (rep : Report) :
  argsort_permutes argsort ->
  rectangular a -> rectangular b ->
  h !! l1 = Some a -> h !! l2 = Some b ->
  compare_files argsort parse_date datetimelike series_str l1 l2 config h = (Ok rep, h') ->
  exists A B,
    prepare parse_date datetimelike (file1_key_column config) config a = Ok A
    /\ prepare parse_date datetimelike (file2_key_column config) config b = Ok B
    /\ Forall (fun k =>
                 In [k] (rows (missing_in_file2 rep))
                 \/ exists record,
                      In record (rows (comparison_df rep)) /\ head record = Some k)
         (join_keys A)
    /\ Forall (fun k =>
                 In [k] (rows (missing_in_file1 rep))
                 \/ exists record k',
                      In record (rows (comparison_df rep))
                      /\ head record = Some k' /\ key_match k' k = true)
         (join_keys B).
Proof.
  intros Hperm Hra Hrb H1 H2 Hrun.
  apply (compare_files_result _ _ _ _ _ _ _ _ _ _ _ _ H1 H2) in Hrun. symmetry in Hrun.
  destruct (compare_frames_report _ _ _ _ _ _ _ _ Hrun) as (m & Hm & ->).
  destruct (merged_frame_spec _ _ _ _ _ _ _ Hperm Hra Hrb Hm)
    as (A & B & HA & HB & Htag & Hsome & Hright & Hleft).
  destruct (merged_frame_covers _ _ _ _ _ _ _ _ _ Hperm Hra Hrb Hm HA HB) as [HcovA HcovB].
  exists A, B. split; [exact HA|]. split; [exact HB|].
  cbn [missing_in_file1 missing_in_file2 comparison_df report_of rows].
  split; apply List.Forall_forall; intros k Hk.
  - destruct (HcovA k Hk) as (row & Hrow & Hkey).
    pose proof (Htag row Hrow) as Ht. rewrite Hkey in Ht.
    unfold side_tag in Ht. rewrite (has_key_self _ _ Hk) in Ht.
    destruct (has_key (join_keys B) k).
    + right. destruct (comparison_results_of_row series_str
                         (map PyStr.lower (columns_to_compare config)) m row Hrow)
        as (record & Hrec & Hhead).
      { now rewrite (merge_is_tag _ _ _ _ Ht). }
      exists record. rewrite Hkey in Hhead. now split.
    + left. unfold keys_tagged. cbn [rows]. apply in_map_iff. exists row.
      rewrite Hkey. split; [reflexivity|]. apply List.filter_In. split; [exact Hrow|].
      now rewrite (merge_is_tag _ _ _ _ Ht).
  - destruct (has_key (join_keys A) k) eqn:Hka.
    + right. destruct (HcovB k Hk) as (row & Hrow & Hkey).
      pose proof (Htag row Hrow) as Ht. unfold side_tag in Ht.
      rewrite (has_key_congr _ _ _ Hkey), Hka in Ht.
      rewrite (has_key_congr _ _ _ Hkey), (has_key_self _ _ Hk) in Ht.
      destruct (comparison_results_of_row series_str
                  (map PyStr.lower (columns_to_compare config)) m row Hrow)
        as (record & Hrec & Hhead).
      { now rewrite (merge_is_tag _ _ _ _ Ht). }
      exists record, (item (columns m) row key_label). now repeat split.
    + left. assert (Hin : In k (List.filter (fun k => negb (has_key (join_keys A) k))
                                   (join_keys m))).
      { apply (Permutation_in _ (Permutation_sym Hright)). apply List.filter_In.
        split; [exact Hk | now rewrite Hka]. }
      apply List.filter_In in Hin as [Hin _]. unfold join_keys in Hin.
      apply in_map_iff in Hin as (row & Hkey & Hrow).
      pose proof (Htag row Hrow) as Ht. rewrite Hkey in Ht.
      unfold side_tag in Ht. rewrite Hka in Ht.
      unfold keys_tagged. cbn [rows]. apply in_map_iff. exists row.
      rewrite Hkey. split; [reflexivity|]. apply List.filter_In. split; [exact Hrow|].
      now rewrite (merge_is_tag _ _ _ _ Ht).
Qed.

(** X2. The detailed comparison never reports a key that one of the tables
    lacks: the key of every record matches a key of table A and a key of
    table B. *)
Theorem detail_keys_are_in_both_tables
    (argsort : list cell -> list nat)
    (parse_date : cell -> option (nat * nat * nat))
    (datetimelike : list cell -> bool)
    (series_str : nat -> string -> list cell -> string)
    (h h' : gmap nat DataFrame) (l1 l2 : nat) (a b : DataFrame)
    (config : Config) (rep : Report) :
  argsort_permutes argsort ->
  rectangular a -> rectangular b ->
  h !! l1 = Some a -> h !! l2 = Some b ->
  compare_files argsort parse_date datetimelike series_str l1 l2 config h = (Ok rep, h') ->
  exists A B,
    prepare parse_date datetimelike (file1_key_column config) config a = Ok A
    /\ prepare parse_date datetimelike (file2_key_column config) config b = Ok B
    /\ Forall (fun record =>
                 exists k, head record = Some k
                           /\ has_key (join_keys A) k = true
                           /\ has_key (join_keys B) k = true)
         (rows (comparison_df rep)).
Proof.
  intros Hperm Hra Hrb H1 H2 Hrun.
  apply (compare_files_result _ _ _ _ _ _ _ _ _ _ _ _ H1 H2) in Hrun. symmetry in Hrun.
  destruct (compare_frames_report _ _ _ _ _ _ _ _ Hrun) as (m & Hm & ->).
  destruct (merged_frame_spec _ _ _ _ _ _ _ Hperm Hra Hrb Hm)
    as (A & B & HA & HB & Htag & _).
  exists A, B. split; [exact HA|]. split; [exact HB|].
  cbn [comparison_df report_of rows]. apply List.Forall_forall. intros record Hrec.
  apply comparison_results_row in Hrec as (name & row & Hrow & Hboth & ->).
  exists (item (columns m) row key_label). split; [reflexivity|].
  rewrite (merge_is_tag _ _ _ _ (Htag row Hrow)), side_tag_both in Hboth.
  now apply andb_true_iff in Hboth.
Qed.

(* ------------------------------------------------------------------ *)
(** ** Counting the matched rows *)

Lemma list_sum_Permutation (l l' : list nat) :
  Permutation l l' -> list_sum l = list_sum l'.
Proof.
  induction 1 as [|x l l' _ IH|x y l|l l' l'' _ IH1 _ IH2]; simpl; lia.
Qed.

Lemma list_sum_flat_map {A : Type} (c : A -> nat) (f : cell -> list A) (G : list cell) :
  list_sum (map c (flat_map f G)) = list_sum (map (fun g => list_sum (map c (f g))) G).
Proof.
  induction G as [|g G IH]; simpl; [reflexivity|].
  now rewrite map_app, list_sum_app, IH.
Qed.

Lemma list_sum_const {A : Type} (c : A -> nat) (n : nat) (l : list A) :
  (forall x, In x l -> c x = n) -> list_sum (map c l) = length l * n.
Proof.
  induction l as [|x l IH]; intros H; simpl; [reflexivity|].
  rewrite (H x) by now left. rewrite IH; [lia|]. intros y Hy. apply H. now right.
Qed.

Lemma matching_pairs_sum (ka kb : list cell) :
  matching_pairs ka kb
  = list_sum (map (fun x => length (List.filter (key_match x) kb)) ka).
Proof.
  unfold matching_pairs. induction ka as [|x ka IH]; simpl; [reflexivity|].
  rewrite List.filter_app, length_app, IH. f_equal.
  rewrite filter_map_swap, length_map. reflexivity.
Qed.

Lemma matching_pairs_Permutation (ka ka' kb kb' : list cell) :
  Permutation ka ka' -> Permutation kb kb' ->
  matching_pairs ka kb = matching_pairs ka' kb'.
Proof.
  intros Ha Hb. rewrite !matching_pairs_sum.
  transitivity (list_sum (map (fun x => length (List.filter (key_match x) kb')) ka)).
  - f_equal. apply map_ext. intros x.
    now apply Permutation_length, filter_Permutation_bool.
  - now apply list_sum_Permutation, Permutation_map.
Qed.

(** The pairs counted key by key are the pairs counted group by group. *)
Lemma matching_pairs_by_group (G ka kb : list cell) :
  (forall x, In x ka -> length (List.filter (fun g => key_match g x) G) = 1) ->
  matching_pairs ka kb
  = list_sum (map (fun g => length (List.filter (key_match g) ka)
                            * length (List.filter (key_match g) kb)) G).
Proof.
  intros HG. rewrite matching_pairs_sum.
  rewrite (list_sum_Permutation _ _
             (Permutation_map _ (Permutation_sym (group_partition G ka HG)))).
  rewrite list_sum_flat_map. f_equal. apply map_ext. intros g.
  apply list_sum_const. intros x Hx. apply List.filter_In in Hx as [_ Hx].
  f_equal. apply List.filter_ext. intros y. symmetry. now apply key_match_congr.
Qed.

Section GroupCount.

Variables (kl kr wl wr : nat) (L R : list (list cell)) (index : list string).

(** A matched group contributes one joined row per pair of its rows, the
    other groups none. *)
Lemma group_rows_both_length (g : cell) :
  join_shape kl kr wl wr L R index ->
  length (List.filter (merge_is "both" index) (group_rows kl kr wl wr L R g))
  = length (List.filter (key_match g) (map (fun r => nth kl r NaN) L))
    * length (List.filter (key_match g) (map (fun r => nth kr r NaN) R)).
Proof.
  intros S. rewrite !filter_map_swap, !length_map.
  assert (Htag : forall row, In row (group_rows kl kr wl wr L R g) ->
            merge_is "both" index row
            = String.eqb (side_tag (map (fun r => nth kl r NaN) L)
                            (map (fun r => nth kr r NaN) R) g) "both").
  { intros row Hrow. destruct (group_rows_spec _ _ _ _ _ _ _ g row S Hrow) as [_ Ht].
    apply merge_is_tag. now rewrite (shape_tag _ _ _ _ _ _ _ S). }
  rewrite (List.filter_ext_in _ _ _ Htag). rewrite side_tag_both.
  pose proof (left_group_has_key kl kr wl wr L R g) as HL.
  pose proof (right_group_has_key kl kr wl wr L R g) as HR.
  unfold group_rows.
  destruct (List.filter (fun r => key_match g (nth kl r NaN)) L) as [|l0 ls].
  - rewrite (proj1 HL eq_refl). simpl. now rewrite filter_none.
  - destruct (List.filter (fun r => key_match g (nth kr r NaN)) R) as [|r0 rs].
    + rewrite (proj1 HR eq_refl), andb_false_r. rewrite filter_none by reflexivity.
      simpl. lia.
    + replace (has_key (map (fun r => nth kl r NaN) L) g) with true
        by (symmetry; apply not_false_iff_true; intros E; apply HL in E; discriminate).
      replace (has_key (map (fun r => nth kr r NaN) R) g) with true
        by (symmetry; apply not_false_iff_true; intros E; apply HR in E; discriminate).
      rewrite filter_all by reflexivity.
      generalize (l0 :: ls) as ls'. generalize (r0 :: rs) as rs'. intros rs' ls'.
      induction ls' as [|l ls' IH]; simpl; [reflexivity|].
      now rewrite length_app, length_map, IH.
Qed.

(** The joined rows tagged [both] are as many as the matching pairs of
    keys. *)
Lemma merge_rows_both_length :
  join_shape kl kr wl wr L R index ->
  length (List.filter (merge_is "both" index) (merge_rows kl kr wl wr L R))
  = matching_pairs (map (fun r => nth kl r NaN) L) (map (fun r => nth kr r NaN) R).
Proof.
  intros S. unfold merge_rows.
  set (ka := map (fun r => nth kl r NaN) L). set (kb := map (fun r => nth kr r NaN) R).
  rewrite (matching_pairs_by_group (key_groups (ka ++ kb)) ka kb).
  - induction (key_groups (ka ++ kb)) as [|g G IH]; simpl; [reflexivity|].
    rewrite List.filter_app, length_app, IH. f_equal. now apply group_rows_both_length.
  - intros x Hx. apply key_groups_once. apply in_or_app. now left.
Qed.

End GroupCount.

(** X3. Duplicated keys are joined many-to-many: when the comparison
    succeeds, 'Matched Records' and the number of records of the detailed
    comparison are the number of pairs of a row of table A and a row of table
    B whose keys match. *)
Theorem matched_records_count_pairs
    (argsort : list cell -> list nat)
    (parse_date : cell -> option (nat * nat * nat))
    (datetimelike : list cell -> bool)
    (series_str : nat -> string -> list cell -> string)
    (h h' : gmap nat DataFrame) (l1 l2 : nat) (a b : DataFrame)
    (config : Config) (rep : Report) :
  argsort_permutes argsort ->
  rectangular a -> rectangular b ->
  h !! l1 = Some a -> h !! l2 = Some b ->
  compare_files argsort parse_date datetimelike series_str l1 l2 config h = (Ok rep, h') ->
  exists A B,
    prepare parse_date datetimelike (file1_key_column config) config a = Ok A
    /\ prepare parse_date datetimelike (file2_key_column config) config b = Ok B
    /\ head (rows (summary rep))
       = Some [Str "Matched Records";
               Int (Z.of_nat (matching_pairs (join_keys A) (join_keys B)))]
    /\ length (rows (comparison_df rep)) = matching_pairs (join_keys A) (join_keys B).
Proof.
  intros Hperm Hra Hrb H1 H2 Hrun.
  apply (compare_files_result _ _ _ _ _ _ _ _ _ _ _ _ H1 H2) in Hrun. symmetry in Hrun.
  destruct (compare_frames_report _ _ _ _ _ _ _ _ Hrun) as (m & Hm & ->).
  destruct (merged_frame_anatomy _ _ _ _ _ _ _ Hm)
    as (A & B & A' & B' & HA & HB & HA' & HB' & HM).
  exists A, B. split; [exact HA|]. split; [exact HB|].
  destruct (merge_anatomy _ _ _ HM) as (kl & kr & HL & HR & _ & Hrows & _).
  assert (RA' : rectangular A').
  { eapply sort_values_rectangular; [eassumption..|]. eapply prepare_rectangular; eassumption. }
  assert (RB' : rectangular B').
  { eapply sort_values_rectangular; [eassumption..|]. eapply prepare_rectangular; eassumption. }
  pose proof (merge_join_shape _ _ _ _ _ HM HL HR RA' RB') as S.
  pose proof (sort_values_join_keys _ _ _ Hperm HA') as PA.
  pose proof (sort_values_join_keys _ _ _ Hperm HB') as PB.
  rewrite (join_keys_nth _ _ HL) in PA. rewrite (join_keys_nth _ _ HR) in PB.
  assert (Hcount : length (List.filter (merge_is "both" (columns m)) (rows m))
                   = matching_pairs (join_keys A) (join_keys B)).
  { rewrite Hrows, (merge_rows_both_length _ _ _ _ _ _ _ S).
    now apply matching_pairs_Permutation. }
  cbn [summary comparison_df report_of rows head].
  rewrite comparison_results_length, Hcount. now split.
Qed.

(* ------------------------------------------------------------------ *)
(** ** The two files in the other order *)

Lemma list_sum_map_add {A : Type} (f g : A -> nat) (l : list A) :
  list_sum (map (fun x => f x + g x) l) = list_sum (map f l) + list_sum (map g l).
Proof. induction l as [|x l IH]; simpl; [reflexivity | rewrite IH; lia]. Qed.

Lemma length_filter_sum {A : Type} (p : A -> bool) (l : list A) :
  length (List.filter p l) = list_sum (map (fun x => if p x then 1 else 0) l).
Proof. induction l as [|x l IH]; simpl; [reflexivity|]. destruct (p x); simpl; now rewrite IH. Qed.

Lemma matching_pairs_sym (ka kb : list cell) :
  matching_pairs ka kb = matching_pairs kb ka.
Proof.
  rewrite !matching_pairs_sum. induction ka as [|x ka IH]; simpl.
  - induction kb as [|y kb IHb]; simpl; [reflexivity | exact IHb].
  - rewrite IH. clear IH.
    transitivity (list_sum (map (fun y => (if key_match y x then 1 else 0)
                                          + length (List.filter (key_match y) ka)) kb)).
    + rewrite list_sum_map_add, <- length_filter_sum. f_equal.
      f_equal. apply List.filter_ext. intros y. apply key_match_sym.
    + f_equal. apply map_ext. intros y. now destruct (key_match y x).
Qed.

Section ReportSections.

Variable argsort : list cell -> list nat.
Variable parse_date : cell -> option (nat * nat * nat).
Variable datetimelike : list cell -> bool.
Variable series_str : nat -> string -> list cell -> string.

(** The summary and the two lists of missing keys, from the keys of the two
    prepared tables. *)
Lemma report_sections (a b A B : DataFrame) (config : Config) (rep : Report) :
  argsort_permutes argsort -> rectangular a -> rectangular b ->
  compare_frames argsort parse_date datetimelike series_str a b config = Ok rep ->
  prepare parse_date datetimelike (file1_key_column config) config a = Ok A ->
  prepare parse_date datetimelike (file2_key_column config) config b = Ok B ->
  let only_a := List.filter (fun k => negb (has_key (join_keys B) k)) (join_keys A) in
  let only_b := List.filter (fun k => negb (has_key (join_keys A) k)) (join_keys B) in
  Permutation (rows (missing_in_file1 rep)) (map (fun k => [k]) only_b)
  /\ Permutation (rows (missing_in_file2 rep)) (map (fun k => [k]) only_a)
  /\ summary rep
     = mkFrame ["Description"; "Count"]
         [[Str "Matched Records";
           Int (Z.of_nat (matching_pairs (join_keys A) (join_keys B)))];
          [Str "Not Matched Records";
           Int (Z.of_nat (length only_a + length only_b))]].
Proof.
  intros Hperm Hra Hrb Hrun HA HB only_a only_b.
  destruct (compare_frames_report _ _ _ _ _ _ _ _ Hrun) as (m & Hm & ->).
  destruct (merged_frame_spec _ _ _ _ _ _ _ Hperm Hra Hrb Hm)
    as (A0 & B0 & HA0 & HB0 & Htag & Hsome & Hright & Hleft).
  rewrite HA in HA0. rewrite HB in HB0. injection HA0 as <-. injection HB0 as <-.
  set (in_a := fun row => has_key (join_keys A) (item (columns m) row key_label)).
  set (in_b := fun row => has_key (join_keys B) (item (columns m) row key_label)).
  assert (Hboth : forall row, In row (rows m) ->
            merge_is "both" (columns m) row = in_a row && in_b row).
  { intros row Hin. rewrite (merge_is_tag _ _ _ _ (Htag row Hin)). apply side_tag_both. }
  assert (Hlo : forall row, In row (rows m) ->
            merge_is "left_only" (columns m) row = negb (in_b row)).
  { intros row Hin. rewrite (merge_is_tag _ _ _ _ (Htag row Hin)), side_tag_left_only.
    specialize (Hsome row Hin). fold (in_a row) (in_b row) in Hsome |- *.
    destruct (in_a row), (in_b row); simpl in *; congruence. }
  assert (Hro : forall row, In row (rows m) ->
            merge_is "right_only" (columns m) row = negb (in_a row)).
  { intros row Hin. rewrite (merge_is_tag _ _ _ _ (Htag row Hin)).
    apply side_tag_right_only. }
  assert (M1 : Permutation (rows (keys_tagged "right_only" m)) (map (fun k => [k]) only_b)).
  { rewrite (keys_tagged_rows "right_only" m (fun k => negb (has_key (join_keys A) k)) Hro).
    now apply Permutation_map. }
  assert (M2 : Permutation (rows (keys_tagged "left_only" m)) (map (fun k => [k]) only_a)).
  { rewrite (keys_tagged_rows "left_only" m (fun k => negb (has_key (join_keys B) k)) Hlo).
    now apply Permutation_map. }
  cbn [summary missing_in_file1 missing_in_file2 report_of].
  split; [exact M1|]. split; [exact M2|].
  assert (Hmatched : length (List.filter (merge_is "both" (columns m)) (rows m))
                     = matching_pairs (join_keys A) (join_keys B)).
  { destruct (merged_frame_anatomy _ _ _ _ _ _ _ Hm)
      as (A0 & B0 & A' & B' & HA0 & HB0 & HA' & HB' & HM).
    rewrite HA in HA0. rewrite HB in HB0. injection HA0 as <-. injection HB0 as <-.
    destruct (merge_anatomy _ _ _ HM) as (kl & kr & HL & HR & _ & Hrows & _).
    assert (RA' : rectangular A').
    { eapply sort_values_rectangular; [eassumption..|].
      eapply prepare_rectangular; eassumption. }
    assert (RB' : rectangular B').
    { eapply sort_values_rectangular; [eassumption..|].
      eapply prepare_rectangular; eassumption. }
    pose proof (merge_join_shape _ _ _ _ _ HM HL HR RA' RB') as S.
    pose proof (sort_values_join_keys _ _ _ Hperm HA') as PA.
    pose proof (sort_values_join_keys _ _ _ Hperm HB') as PB.
    rewrite (join_keys_nth _ _ HL) in PA. rewrite (join_keys_nth _ _ HR) in PB.
    rewrite Hrows, (merge_rows_both_length _ _ _ _ _ _ _ S).
    now apply matching_pairs_Permutation. }
  assert (Hrest : length (List.filter (fun row => negb (merge_is "both" (columns m) row))
                            (rows m))
                  = length only_a + length only_b).
  { rewrite <- (length_map (fun k => [k]) only_a), <- (length_map (fun k => [k]) only_b).
    rewrite <- (Permutation_length M1), <- (Permutation_length M2).
    unfold keys_tagged. cbn [rows]. rewrite !length_map.
    apply filter_length_split.
    - intros row Hin. rewrite Hboth, Hlo, Hro by assumption.
      specialize (Hsome row Hin). fold (in_a row) (in_b row) in Hsome.
      destruct (in_a row), (in_b row); simpl in *; congruence.
    - intros row Hin. rewrite Hlo, Hro by assumption.
      specialize (Hsome row Hin). fold (in_a row) (in_b row) in Hsome.
      destruct (in_a row), (in_b row); simpl in *; congruence. }
  now rewrite Hmatched, Hrest.
Qed.

End ReportSections.

(** X4. Comparing the two files in the other order (the key columns swapped
    in the configuration) exchanges 'Missing in File 1' and 'Missing in File
    2', up to the order of their rows, and gives the same summary. *)
Theorem swapping_files_swaps_missing_keys
    (argsort : list cell -> list nat)
    (parse_date : cell -> option (nat * nat * nat))
    (datetimelike : list cell -> bool)
    (series_str : nat -> string -> list cell -> string)
    (h h1 h2 : gmap nat DataFrame) (l1 l2 : nat) (a b : DataFrame)
    (config : Config) (rep rep' : Report) :
  argsort_permutes argsort ->
  rectangular a -> rectangular b ->
  h !! l1 = Some a -> h !! l2 = Some b ->
  compare_files argsort parse_date datetimelike series_str l1 l2 config h = (Ok rep, h1) ->
  compare_files argsort parse_date datetimelike series_str l2 l1 (swap_files config) h = (Ok rep', h2) ->
  Permutation (rows (missing_in_file1 rep')) (rows (missing_in_file2 rep))
  /\ Permutation (rows (missing_in_file2 rep')) (rows (missing_in_file1 rep))
  /\ summary rep' = summary rep.
Proof.
  intros Hperm Hra Hrb H1 H2 Hrun Hrun'.
  apply (compare_files_result _ _ _ _ _ _ _ _ _ _ _ _ H1 H2) in Hrun. symmetry in Hrun.
  apply (compare_files_result _ _ _ _ _ _ _ _ _ _ _ _ H2 H1) in Hrun'. symmetry in Hrun'.
  destruct (compare_frames_report _ _ _ _ _ _ _ _ Hrun) as (m & Hm & _).
  destruct (merged_frame_anatomy _ _ _ _ _ _ _ Hm) as (A & B & _ & _ & HA & HB & _).
  destruct (report_sections _ _ _ _ a b A B config rep Hperm Hra Hrb Hrun HA HB)
    as (M1 & M2 & HS).
  destruct (report_sections _ _ _ _ b a B A (swap_files config) rep' Hperm Hrb Hra Hrun' HB HA)
    as (M1' & M2' & HS').
  split; [|split].
  - now rewrite M1', M2.
  - now rewrite M2', M1.
  - rewrite HS, HS'. now rewrite matching_pairs_sym, Nat.add_comm.
Qed.

(* ------------------------------------------------------------------ *)
(** ** When the comparison raises *)

(** A label at two places has two positions. *)
Lemma get_loc_twice (label : string) (index : list string) (i j : nat) :
  index !! i = Some label -> index !! j = Some label -> i <> j ->
  exists p q ps, get_loc label index = p :: q :: ps.
Proof.
  intros Hi Hj Hne.
  pose proof (get_loc_from_complete 0 i label index Hi) as Ii.
  pose proof (get_loc_from_complete 0 j label index Hj) as Ij.
  fold (get_loc label index) in Ii, Ij. simpl in Ii, Ij.
  destruct (get_loc label index) as [|p [|q ps]].
  - contradiction.
  - destruct Ii as [<-|[]], Ij as [<-|[]]. now destruct Hne.
  - now exists p, q, ps.
Qed.

Lemma two_key_columns_positions (key_column : string) (d : DataFrame) :
  two_key_columns key_column d ->
  exists p q ps, get_loc key_label (prepared_labels key_column d) = p :: q :: ps.
Proof.
  intros (Hk & x & Hx & Hne & Hlow).
  apply list_elem_of_In, list_elem_of_lookup_1 in Hk as [i Hi].
  apply list_elem_of_In, list_elem_of_lookup_1 in Hx as [j Hj].
  apply (get_loc_twice key_label _ i j).
  - unfold prepared_labels, str_lower, rename. cbn [columns].
    rewrite !lookup_map, Hi. cbn. now rewrite String.eqb_refl.
  - unfold prepared_labels, str_lower, rename. cbn [columns].
    rewrite !lookup_map, Hj. cbn.
    destruct (String.eqb_spec x key_column) as [E|_]; [contradiction|]. now rewrite Hlow.
  - intros ->. congruence.
Qed.

Section Errors.

Variable argsort : list cell -> list nat.
Variable parse_date : cell -> option (nat * nat * nat).
Variable datetimelike : list cell -> bool.
Variable series_str : nat -> string -> list cell -> string.

Lemma normalize_frame_raises (date_columns : list string) :
  forall d e, normalize_frame parse_date datetimelike date_columns d = Raise e ->
  e = ValueError \/ e = AttributeError.
Proof.
  induction date_columns as [|col rest IH]; intros d e H; simpl in H; [discriminate|].
  destruct (normalize_step parse_date datetimelike d col) as [d1|e1] eqn:E.
  - now apply (IH d1).
  - injection H as <-. unfold normalize_step in E.
    destruct (label_in col (columns d)); [|discriminate].
    destruct (get_loc col (columns d)) as [|p [|q ps]]; [left; congruence| |left; congruence].
    destruct (datetimelike (column_values p d)); [discriminate | right; congruence].
Qed.

Lemma prepare_raises (key_column : string) (config : Config) (d : DataFrame) (e : exn) :
  prepare parse_date datetimelike key_column config d = Raise e ->
  e = ValueError \/ e = AttributeError.
Proof. unfold prepare. apply normalize_frame_raises. Qed.

Lemma sort_values_duplicated (label : string) (d : DataFrame) (p q : nat) (ps : list nat) :
  get_loc label (columns d) = p :: q :: ps ->
  sort_values argsort label d = Raise ValueError.
Proof. intros H. unfold sort_values. now rewrite H. Qed.

Lemma merge_refuses (left right : DataFrame) (x : string) :
  In x indicator_labels ->
  In x (columns left) \/ In x (columns right) ->
  exists e, merge left right = Raise e.
Proof.
  intros Hx Hin. unfold merge.
  destruct (get_loc key_label (columns left)) as [|kl [|? ?]];
    destruct (get_loc key_label (columns right)) as [|kr [|? ?]];
    try (now eexists).
  replace (existsb _ _) with true; [now eexists|].
  symmetry. apply existsb_exists. exists x. split; [exact Hx|].
  apply orb_true_iff. destruct Hin as [H|H]; [left | right]; now apply label_in_In.
Qed.

End Errors.

(** X5. A table that has the designated key column and also a column whose
    label lower-cases to [keycolumn] cannot be compared: the comparison
    raises. For the first table the exception is [ValueError] (two columns
    are then labelled [keycolumn]), unless the date normalisation of one of
    the tables has raised [AttributeError] before. *)
Theorem second_key_column_raises
    (argsort : list cell -> list nat)
    (parse_date : cell -> option (nat * nat * nat))
    (datetimelike : list cell -> bool)
    (series_str : nat -> string -> list cell -> string)
    (h : gmap nat DataFrame) (l1 l2 : nat) (a b : DataFrame) (config : Config) :
  h !! l1 = Some a -> h !! l2 = Some b ->
  two_key_columns (file1_key_column config) a
  \/ two_key_columns (file2_key_column config) b ->
  exists e h',
    compare_files argsort parse_date datetimelike series_str l1 l2 config h = (Raise e, h')
    /\ (two_key_columns (file1_key_column config) a ->
        e = ValueError
        \/ prepare parse_date datetimelike (file1_key_column config) config a
           = Raise AttributeError
        \/ prepare parse_date datetimelike (file2_key_column config) config b
           = Raise AttributeError).
Proof.
  intros H1 H2 Htwo.
  destruct (compare_files_run argsort parse_date datetimelike series_str h l1 l2 a b config H1 H2)
    as (h' & -> & _).
  assert (Hraise : exists e,
            compare_frames argsort parse_date datetimelike series_str a b config = Raise e
            /\ (two_key_columns (file1_key_column config) a ->
                e = ValueError
                \/ prepare parse_date datetimelike (file1_key_column config) config a
                   = Raise AttributeError
                \/ prepare parse_date datetimelike (file2_key_column config) config b
                   = Raise AttributeError)).
  { unfold compare_frames, merged_frame.
    destruct (prepare parse_date datetimelike (file1_key_column config) config a) as [A|e] eqn:EA.
    2: { exists e. split; [reflexivity|]. intros _.
         destruct (prepare_raises _ _ _ _ _ _ EA) as [-> | ->]; [now left | right; now left]. }
    destruct (prepare parse_date datetimelike (file2_key_column config) config b) as [B|e] eqn:EB.
    2: { exists e. split; [reflexivity|]. intros _.
         destruct (prepare_raises _ _ _ _ _ _ EB) as [-> | ->]; [now left | right; now right]. }
    cbn [bind_result].
    pose proof (prepare_columns _ _ _ _ _ _ EA) as CA.
    pose proof (prepare_columns _ _ _ _ _ _ EB) as CB.
    assert (HA : two_key_columns (file1_key_column config) a ->
                 sort_values argsort key_label A = Raise ValueError).
    { intros Ha. destruct (two_key_columns_positions _ _ Ha) as (p & q & ps & Hp).
      unfold prepared_labels in Hp. rewrite <- CA in Hp.
      eapply sort_values_duplicated; eassumption. }
    destruct (sort_values argsort key_label A) as [A'|e] eqn:ES.
    - destruct Htwo as [Ha|Hb]; [now specialize (HA Ha)|].
      cbn [bind_result].
      destruct (two_key_columns_positions _ _ Hb) as (p & q & ps & Hp).
      unfold prepared_labels in Hp. rewrite <- CB in Hp.
      rewrite (sort_values_duplicated _ _ _ _ _ _ Hp). exists ValueError.
      split; [reflexivity | tauto].
    - exists e. split; [reflexivity|]. intros Ha. specialize (HA Ha). left. congruence. }
  destruct Hraise as (e & -> & He). now exists e, h'.
Qed.

(** X6. A table with a column whose label lower-cases to [_merge],
    [_left_indicator] or [_right_indicator] (and that is not the designated
    key column) cannot be compared: the comparison raises and returns no
    report. *)
Theorem indicator_label_raises
    (argsort : list cell -> list nat)
    (parse_date : cell -> option (nat * nat * nat))
    (datetimelike : list cell -> bool)
    (series_str : nat -> string -> list cell -> string)
    (h : gmap nat DataFrame) (l1 l2 : nat) (a b : DataFrame) (config : Config)
    (x : string) :
  h !! l1 = Some a -> h !! l2 = Some b ->
  In x indicator_labels ->
  In x (prepared_labels (file1_key_column config) a)
  \/ In x (prepared_labels (file2_key_column config) b) ->
  exists e h',
    compare_files argsort parse_date datetimelike series_str l1 l2 config h = (Raise e, h').
Proof.
  intros H1 H2 Hx Hin.
  destruct (compare_files_run argsort parse_date datetimelike series_str h l1 l2 a b config H1 H2)
    as (h' & -> & _).
  assert (Hraise : exists e, compare_frames argsort parse_date datetimelike series_str a b config = Raise e).
  { unfold compare_frames, merged_frame.
    destruct (prepare parse_date datetimelike (file1_key_column config) config a) as [A|e] eqn:EA;
      [|now exists e].
    destruct (prepare parse_date datetimelike (file2_key_column config) config b) as [B|e] eqn:EB;
      [|now exists e].
    cbn [bind_result].
    destruct (sort_values argsort key_label A) as [A'|e] eqn:SA; [|now exists e].
    destruct (sort_values argsort key_label B) as [B'|e] eqn:SB; [|now exists e].
    cbn [bind_result].
    destruct (merge_refuses A' B' x Hx) as [e ->]; [|now exists e].
    rewrite (sort_values_columns _ _ _ _ SA), (sort_values_columns _ _ _ _ SB).
    rewrite (prepare_columns _ _ _ _ _ _ EA), (prepare_columns _ _ _ _ _ _ EB). exact Hin. }
  destruct Hraise as [e ->]. now exists e, h'.
Qed.

(* ------------------------------------------------------------------ *)
(** ** When the comparison returns a report *)

Lemma present_keys_by_position (k : list cell) :
  map (fun j => nth j k NaN)
    (List.filter (fun j => negb (isna (nth j k NaN))) (seq 0 (length k)))
  = present_keys k.
Proof.
  unfold present_keys.
  rewrite <- (filter_map_swap (fun c => negb (isna c)) (fun j => nth j k NaN)).
  now rewrite map_nth_seq.
Qed.


Section Outcome.

Variable argsort : list cell -> list nat.
Variable parse_date : cell -> option (nat * nat * nat).
Variable datetimelike : list cell -> bool.
Variable series_str : nat -> string -> list cell -> string.

(** The sort of a table with one column [label] raises for keys of several
    types only. *)
Lemma sort_values_outcome (label : string) (d : DataFrame) (p : nat) :
  get_loc label (columns d) = [p] ->
  if homogeneous (present_keys (column_values p d))
  then exists d', sort_values argsort label d = Ok d'
  else sort_values argsort label d = Raise TypeError.
Proof.
  intros Hp. unfold sort_values, nargsort. rewrite Hp, present_keys_by_position.
  destruct (homogeneous (present_keys (column_values p d))); [now eexists | reflexivity].
Qed.

End Outcome.



(* ------------------------------------------------------------------ *)
(** ** The cells a record compares *)

Lemma get_loc_from_unique (label : string) (index : list string) :
  forall i p,
  index !! p = Some label ->
  (forall j, index !! j = Some label -> j = p) ->
  get_loc_from i label index = [i + p].
Proof.
  induction index as [|x rest IH]; intros i p Hp Hu; [discriminate|].
  simpl. destruct p as [|p]; simpl in Hp.
  - injection Hp as ->. rewrite String.eqb_refl, get_loc_from_absent.
    + simpl. f_equal. lia.
    + apply label_in_false. intros Hin.
      apply list_elem_of_In, list_elem_of_lookup_1 in Hin as [j Hj].
      now specialize (Hu (S j) Hj).
  - destruct (String.eqb_spec x label) as [->|_].
    + now specialize (Hu 0 eq_refl).
    + simpl. rewrite (IH (S i) p Hp).
      * f_equal. lia.
      * intros j Hj. specialize (Hu (S j) Hj). lia.
Qed.

Lemma get_loc_unique (label : string) (index : list string) (p : nat) :
  index !! p = Some label ->
  (forall j, index !! j = Some label -> j = p) ->
  get_loc label index = [p].
Proof. intros Hp Hu. exact (get_loc_from_unique label index 0 p Hp Hu). Qed.

Lemma lookup_drop_nth {A : Type} (k : nat) (l : list A) (j : nat) :
  k < length l ->
  drop_nth k l !! j = l !! (if j <? k then j else S j).
Proof.
  intros Hk. unfold drop_nth. destruct (Nat.ltb_spec j k) as [Hlt|Hge].
  - rewrite lookup_app_l by (rewrite length_take; lia). now apply lookup_take_lt.
  - rewrite lookup_app_r by (rewrite length_take; lia).
    rewrite lookup_drop, length_take. f_equal. lia.
Qed.

(** The label a column gets in the merged frame. *)
Lemma merged_labels_lookup (suffix : string) (mine other : list string) (j : nat) (c : string) :
  mine !! j = Some c -> In c other -> c <> key_label ->
  merged_labels suffix mine other !! j = Some (c +:+ suffix).
Proof.
  intros Hj Ho Hk. unfold merged_labels. rewrite lookup_map, Hj. cbn.
  destruct (String.eqb_spec c key_label) as [E|_]; [contradiction|].
  replace (label_in c mine) with true.
  - replace (label_in c other) with true; [reflexivity|].
    symmetry. now apply label_in_In.
  - symmetry. apply label_in_In, list_elem_of_In. eapply list_elem_of_lookup_2, Hj.
Qed.

(** Where a suffixed label sits among the merged labels of one side. *)
Lemma merged_labels_position (suffix : string) (mine other : list string)
    (j p : nat) (c : string) :
  get_loc c mine = [p] -> ~ In (c +:+ suffix) mine ->
  merged_labels suffix mine other !! j = Some (c +:+ suffix) -> j = p.
Proof.
  intros Hp Hno Hj. unfold merged_labels in Hj. rewrite lookup_map in Hj.
  destruct (mine !! j) as [x|] eqn:Hx; [|discriminate]. cbn in Hj.
  assert (Hin : In x mine) by (apply list_elem_of_In; eapply list_elem_of_lookup_2, Hx).
  destruct (negb (String.eqb x key_label) && label_in x mine && label_in x other).
  - injection Hj as Hj. apply append_same_length_inj in Hj as [-> _]; [|reflexivity].
    exact (get_loc_single_unique _ _ _ _ Hp Hx).
  - injection Hj as ->. contradiction.
Qed.

(** A suffixed label of one side is no label of the other side. *)
Lemma merged_labels_other_suffix (s s' : string) (mine other : list string) (c : string) :
  (s = suffix_file1 /\ s' = suffix_file2) \/ (s = suffix_file2 /\ s' = suffix_file1) ->
  ~ In (c +:+ s) mine ->
  ~ In (c +:+ s) (merged_labels s' mine other).
Proof.
  intros Hs Hno Hin. apply merged_labels_In in Hin as [Hin|(y & E & _)]; [contradiction|].
  apply append_same_length_inj in E as [_ E].
  - destruct Hs as [[-> ->]|[-> ->]]; discriminate.
  - destruct Hs as [[-> ->]|[-> ->]]; reflexivity.
Qed.

Section Positions.

Variables (cA cB : list string) (kr : nat) (c : string).

Let index : list string :=
  merged_labels suffix_file1 cA cB
  ++ drop_nth kr (merged_labels suffix_file2 cB cA)
  ++ ["_merge"].

Lemma merged_position_file1 (p : nat) :
  get_loc c cA = [p] -> In c cB -> c <> key_label ->
  ~ In (c +:+ suffix_file1) cA -> ~ In (c +:+ suffix_file1) cB ->
  get_loc (c +:+ suffix_file1) index = [p].
Proof.
  intros Hp HB Hk NA NB.
  pose proof (get_loc_single_lookup _ _ _ Hp) as Hlp.
  pose proof (get_loc_single_lt _ _ _ Hp) as Hlt.
  apply get_loc_unique.
  - unfold index. rewrite lookup_app_l by now rewrite merged_labels_length.
    now apply merged_labels_lookup.
  - intros j Hj. unfold index in Hj. rewrite lookup_app in Hj.
    destruct (merged_labels suffix_file1 cA cB !! j) as [x|] eqn:Ex.
    + injection Hj as ->. exact (merged_labels_position _ _ _ _ _ _ Hp NA Ex).
    + exfalso. rewrite lookup_app in Hj.
      destruct (drop_nth kr (merged_labels suffix_file2 cB cA) !! _) as [x|] eqn:Ed.
      * injection Hj as ->.
        apply list_elem_of_lookup_2, list_elem_of_In, drop_nth_In in Ed.
        revert Ed. apply merged_labels_other_suffix; [now left | exact NB].
      * destruct (_ - _ - _) as [|n]; [|destruct n; discriminate].
        injection Hj as Hj. symmetry in Hj. revert Hj. apply suffixed_not_merge. now left.
Qed.

Lemma merged_position_file2 (q : nat) :
  get_loc c cB = [q] -> get_loc key_label cB = [kr] -> In c cA -> c <> key_label ->
  ~ In (c +:+ suffix_file2) cA -> ~ In (c +:+ suffix_file2) cB ->
  q <> kr
  /\ get_loc (c +:+ suffix_file2) index = [length cA + (if q <? kr then q else q - 1)].
Proof.
  intros Hq Hkr HA Hk NA NB.
  pose proof (get_loc_single_lookup _ _ _ Hq) as Hlq.
  pose proof (get_loc_single_lookup _ _ _ Hkr) as Hlk.
  pose proof (get_loc_single_lt _ _ _ Hkr) as Hlt.
  assert (Hne : q <> kr) by (intros ->; congruence).
  split; [exact Hne|].
  assert (Hlen : kr < length (merged_labels suffix_file2 cB cA))
    by now rewrite merged_labels_length.
  apply get_loc_unique.
  - unfold index. rewrite lookup_app_r by (rewrite merged_labels_length; lia).
    rewrite merged_labels_length.
    replace (length cA + _ - length cA) with (if q <? kr then q else q - 1) by lia.
    rewrite lookup_app_l.
    + rewrite lookup_drop_nth by exact Hlen.
      replace (if (if q <? kr then q else q - 1) <? kr
               then (if q <? kr then q else q - 1)
               else S (if q <? kr then q else q - 1)) with q.
      * now apply merged_labels_lookup.
      * destruct (Nat.ltb_spec q kr) as [H|H].
        -- destruct (Nat.ltb_spec q kr); [reflexivity | lia].
        -- destruct (Nat.ltb_spec (q - 1) kr); lia.
    + rewrite drop_nth_length by exact Hlen. rewrite merged_labels_length.
      apply lookup_lt_Some in Hlq. destruct (Nat.ltb_spec q kr); lia.
  - intros j Hj. unfold index in Hj. rewrite lookup_app in Hj.
    destruct (merged_labels suffix_file1 cA cB !! j) as [x|] eqn:Ex.
    + exfalso. injection Hj as ->.
      apply list_elem_of_lookup_2, list_elem_of_In in Ex.
      revert Ex. apply merged_labels_other_suffix; [now right | exact NA].
    + apply lookup_ge_None_1 in Ex. rewrite merged_labels_length in Ex.
      rewrite merged_labels_length in Hj. rewrite lookup_app in Hj.
      destruct (drop_nth kr (merged_labels suffix_file2 cB cA) !! (j - length cA))
        as [x|] eqn:Ed.
      * injection Hj as ->. rewrite lookup_drop_nth in Ed by exact Hlen.
        apply (merged_labels_position _ _ _ _ _ _ Hq NB) in Ed.
        destruct (Nat.ltb_spec (j - length cA) kr);
          destruct (Nat.ltb_spec q kr); lia.
      * exfalso. destruct (_ - _ - _) as [|n]; [|destruct n; discriminate].
        injection Hj as Hj. symmetry in Hj. revert Hj. apply suffixed_not_merge. now right.
Qed.

End Positions.

(** The cell of a joined row that comes from position [q] of the right row. *)
Lemma nth_row_both_right (kr q : nat) (l r : list cell) :
  kr < length r -> q < length r -> q <> kr ->
  nth (length l + (if q <? kr then q else q - 1)) (row_both kr l r) NaN = nth q r NaN.
Proof.
  intros Hkr Hq Hne. unfold row_both. rewrite !nth_lookup.
  rewrite lookup_app_r by lia.
  replace (length l + _ - length l) with (if q <? kr then q else q - 1) by lia.
  rewrite lookup_app_l
    by (rewrite drop_nth_length by exact Hkr; destruct (Nat.ltb_spec q kr); lia).
  rewrite lookup_drop_nth by exact Hkr. f_equal. f_equal.
  destruct (Nat.ltb_spec q kr) as [H|H].
  - destruct (Nat.ltb_spec q kr); [reflexivity | lia].
  - destruct (Nat.ltb_spec (q - 1) kr); lia.
Qed.

(** A joined row tagged [both] is a row of the left table followed by a row
    of the right table with a matching key. *)
Lemma merge_rows_both_row (kl kr wl wr : nat) (L R : list (list cell))
    (index : list string) (row : list cell) :
  join_shape kl kr wl wr L R index ->
  In row (merge_rows kl kr wl wr L R) ->
  item index row "_merge" = Str "both" ->
  exists l r, In l L /\ In r R
              /\ key_match (nth kl l NaN) (nth kr r NaN) = true
              /\ row = row_both kr l r.
Proof.
  intros S Hin Htag. unfold merge_rows in Hin. apply in_flat_map in Hin as (g & _ & Hin).
  rewrite (shape_tag _ _ _ _ _ _ _ S) in Htag.
  pose proof (shape_kr _ _ _ _ _ _ _ S) as Hkr.
  unfold group_rows in Hin.
  destruct (List.filter (fun r => key_match g (nth kl r NaN)) L) as [|l0 ls] eqn:EL.
  - exfalso. apply in_map_iff in Hin as (r & <- & Hr).
    apply List.filter_In in Hr as [Hr _].
    pose proof (shape_R _ _ _ _ _ _ _ S r Hr) as Hlen.
    unfold row_right_only in Htag. rewrite nth_tag in Htag; [discriminate | |].
    + now rewrite length_insert, repeat_length.
    + rewrite drop_nth_length; lia.
  - destruct (List.filter (fun r => key_match g (nth kr r NaN)) R) as [|r0 rs] eqn:ER.
    + exfalso. apply in_map_iff in Hin as (l & <- & Hl).
      assert (Hl' : In l (List.filter (fun r => key_match g (nth kl r NaN)) L))
        by now rewrite EL.
      apply List.filter_In in Hl' as [Hl' _].
      pose proof (shape_L _ _ _ _ _ _ _ S l Hl') as Hlen.
      unfold row_left_only in Htag. rewrite nth_tag in Htag; [discriminate | exact Hlen |].
      apply repeat_length.
    + apply in_flat_map in Hin as (l & Hl & Hin). apply in_map_iff in Hin as (r & <- & Hr).
      rewrite <- EL in Hl. rewrite <- ER in Hr.
      apply List.filter_In in Hl as [Hl Hgl]. apply List.filter_In in Hr as [Hr Hgr].
      exists l, r. repeat split; try assumption.
      rewrite key_match_sym in Hgl. eapply key_match_trans; eassumption.
Qed.

(** The rows behind a record of the detailed comparison. *)
Lemma records_pair_rows
    (argsort : list cell -> list nat)
    (parse_date : cell -> option (nat * nat * nat))
    (datetimelike : list cell -> bool)
    (series_str : nat -> string -> list cell -> string)
    (h h' : gmap nat DataFrame) (l1 l2 : nat) (a b : DataFrame)
    (config : Config) (rep : Report) (i : nat) (column : string) :
  argsort_permutes argsort ->
  rectangular a -> rectangular b ->
  h !! l1 = Some a -> h !! l2 = Some b ->
  compare_files argsort parse_date datetimelike series_str l1 l2 config h = (Ok rep, h') ->
  map PyStr.lower (columns_to_compare config) !! i = Some column ->
  column <> key_label ->
  let ca := prepared_labels (file1_key_column config) a in
  let cb := prepared_labels (file2_key_column config) b in
  length (get_loc column ca) = 1 -> length (get_loc column cb) = 1 ->
  Forall (fun x => ~ In x ca /\ ~ In x cb)
    [column +:+ suffix_file1; column +:+ suffix_file2] ->
  exists A B,
    prepare parse_date datetimelike (file1_key_column config) config a = Ok A
    /\ prepare parse_date datetimelike (file2_key_column config) config b = Ok B
    /\ Forall (fun record =>
                 exists l r,
                   In l (rows A) /\ In r (rows B)
                   /\ key_match (item (columns A) l key_label)
                        (item (columns B) r key_label) = true
                   /\ head record = Some (item (columns A) l key_label)
                   /\ record !! (S i)
                      = Some (verdict (item (columns A) l column)
                                (item (columns B) r column)))
         (rows (comparison_df rep)).
Proof.
  intros Hperm Hra Hrb H1 H2 Hrun Hi Hk ca cb Ha Hb Hfree.
  apply (compare_files_result _ _ _ _ _ _ _ _ _ _ _ _ H1 H2) in Hrun. symmetry in Hrun.
  destruct (compare_frames_report _ _ _ _ _ _ _ _ Hrun) as (m & Hm & ->).
  destruct (merged_frame_anatomy _ _ _ _ _ _ _ Hm)
    as (A & B & A' & B' & HA & HB & HA' & HB' & HM).
  destruct (merge_anatomy _ _ _ HM) as (kl & kr & HL & HR & Hcols & Hrows & _).
  assert (RA' : rectangular A').
  { eapply sort_values_rectangular; [eassumption..|]. eapply prepare_rectangular; eassumption. }
  assert (RB' : rectangular B').
  { eapply sort_values_rectangular; [eassumption..|]. eapply prepare_rectangular; eassumption. }
  pose proof (merge_join_shape _ _ _ _ _ HM HL HR RA' RB') as S.
  pose proof (sort_values_columns _ _ _ _ HA') as CA'.
  pose proof (sort_values_columns _ _ _ _ HB') as CB'.
  pose proof (prepare_columns _ _ _ _ _ _ HA) as CA. change (columns A = ca) in CA.
  pose proof (prepare_columns _ _ _ _ _ _ HB) as CB. change (columns B = cb) in CB.
  rewrite CA', CA in HL, Hcols. rewrite CB', CB in HR, Hcols.
  destruct (get_loc column ca) as [|p [|]] eqn:Hp; try discriminate.
  destruct (get_loc column cb) as [|q [|]] eqn:Hq; try discriminate.
  apply Forall_cons in Hfree as [[N1a N1b] Hfree].
  apply Forall_cons in Hfree as [[N2a N2b] _].
  assert (Ia : In column ca).
  { apply list_elem_of_In. eapply list_elem_of_lookup_2, get_loc_single_lookup, Hp. }
  assert (Ib : In column cb).
  { apply list_elem_of_In. eapply list_elem_of_lookup_2, get_loc_single_lookup, Hq. }
  pose proof (merged_position_file1 ca cb kr column p Hp Ib Hk N1a N1b) as P1.
  destruct (merged_position_file2 ca cb kr column q Hq HR Ia Hk N2a N2b) as [Hne P2].
  cbv zeta in P1, P2. rewrite <- Hcols in P1, P2.
  exists A, B. split; [exact HA|]. split; [exact HB|].
  cbn [comparison_df report_of rows]. apply List.Forall_forall. intros record Hrec.
  apply comparison_results_row in Hrec as (name & row & Hrow & Hboth & ->).
  rewrite Hrows in Hrow.
  destruct (merge_rows_both_row _ _ _ _ _ _ _ row S Hrow) as (l & r & Hl & Hr & Hmatch & ->).
  { unfold merge_is in Hboth. now apply cell_eqb_eq in Hboth. }
  pose proof (shape_L _ _ _ _ _ _ _ S l Hl) as Ll.
  pose proof (shape_R _ _ _ _ _ _ _ S r Hr) as Lr.
  rewrite CA', CA in Ll. rewrite CB', CB in Lr.
  exists l, r.
  split; [exact (Permutation_in _ (sort_values_Permutation _ _ _ _ Hperm HA') Hl)|].
  split; [exact (Permutation_in _ (sort_values_Permutation _ _ _ _ Hperm HB') Hr)|].
  assert (Kl : item (columns A) l key_label = nth kl l NaN)
    by (unfold item; now rewrite CA, HL).
  assert (Kr : item (columns B) r key_label = nth kr r NaN)
    by (unfold item; now rewrite CB, HR).
  rewrite Kl, Kr. split; [exact Hmatch|]. split.
  - cbn [head]. f_equal. rewrite (shape_key _ _ _ _ _ _ _ S).
    unfold row_both. apply nth_left. pose proof (shape_kl _ _ _ _ _ _ _ S). 
    rewrite (shape_L _ _ _ _ _ _ _ S l Hl). assumption.
  - cbn [lookup list_lookup]. change (map (compare_column series_str name (columns m) (row_both kr l r))
              (map PyStr.lower (columns_to_compare config)) !! i
            = Some (verdict (item (columns A) l column) (item (columns B) r column))).
    rewrite lookup_map, Hi. cbn. f_equal.
    unfold compare_column, str_item, verdict, item.
    replace (label_in (column +:+ suffix_file1) (columns m)) with true
      by (symmetry; apply not_false_iff_true; intros E; apply get_loc_nil in E; congruence).
    replace (label_in (column +:+ suffix_file2) (columns m)) with true
      by (symmetry; apply not_false_iff_true; intros E; apply get_loc_nil in E; congruence).
    rewrite P1, P2, CA, CB, Hp, Hq. cbn [andb].
    assert (Er : nth (length ca + (if q <? kr then q else q - 1)) (row_both kr l r) NaN
                 = nth q r NaN).
    { rewrite <- Ll. apply nth_row_both_right; [| |exact Hne].
      - rewrite Lr. exact (get_loc_single_lt _ _ _ HR).
      - rewrite Lr. exact (get_loc_single_lt _ _ _ Hq). }
    assert (El : nth p (row_both kr l r) NaN = nth p l NaN).
    { unfold row_both. apply nth_left. rewrite Ll. exact (get_loc_single_lt _ _ _ Hp). }
    now rewrite Er, El.
Qed.

(** X8. Take a compared column (in lower case, not the key) that occurs once
    in each prepared table and holds no integer there, and suppose that
    neither table has a label that is this name followed by [_file1] or
    [_file2]. Then every record of the detailed comparison pairs a row of
    table A with a row of table B whose key matches: it starts with the key
    of the row of A, and its entry for the column is the verdict on the cells
    of the two rows under that column. (A column of integers is left out: the
    join may rebuild it as floats.) *)
Theorem record_compares_matching_rows
    (argsort : list cell -> list nat)
    (parse_date : cell -> option (nat * nat * nat))
    (datetimelike : list cell -> bool)
    (series_str : nat -> string -> list cell -> string)
    (h h' : gmap nat DataFrame) (l1 l2 : nat) (a b A B : DataFrame)
    (config : Config) (rep : Report) (i : nat) (column : string) :
  argsort_permutes argsort ->
  rectangular a -> rectangular b ->
  h !! l1 = Some a -> h !! l2 = Some b ->
  compare_files argsort parse_date datetimelike series_str l1 l2 config h = (Ok rep, h') ->
  prepare parse_date datetimelike (file1_key_column config) config a = Ok A ->
  prepare parse_date datetimelike (file2_key_column config) config b = Ok B ->
  map PyStr.lower (columns_to_compare config) !! i = Some column ->
  column <> key_label ->
  length (get_loc column (columns A)) = 1 -> length (get_loc column (columns B)) = 1 ->
  no_integers A column = true -> no_integers B column = true ->
  Forall (fun x => ~ In x (columns A) /\ ~ In x (columns B))
    [column +:+ suffix_file1; column +:+ suffix_file2] ->
  Forall (fun record =>
            exists l r,
              In l (rows A) /\ In r (rows B)
              /\ key_match (item (columns A) l key_label)
                   (item (columns B) r key_label) = true
              /\ head record = Some (item (columns A) l key_label)
              /\ record !! (S i)
                 = Some (verdict (item (columns A) l column)
                           (item (columns B) r column)))
    (rows (comparison_df rep)).
Proof.
  intros Hperm Hra Hrb H1 H2 Hrun HA HB Hi Hk Ha Hb _ _ Hfree.
  pose proof (prepare_columns _ _ _ _ _ _ HA) as CA.
  change (columns A = prepared_labels (file1_key_column config) a) in CA.
  pose proof (prepare_columns _ _ _ _ _ _ HB) as CB.
  change (columns B = prepared_labels (file2_key_column config) b) in CB.
  rewrite CA in Ha, Hfree. rewrite CB in Hb, Hfree.
  destruct (records_pair_rows argsort parse_date datetimelike series_str h h' l1 l2 a b
              config rep i column Hperm Hra Hrb H1 H2 Hrun Hi Hk Ha Hb Hfree)
    as (A0 & B0 & HA0 & HB0 & Hrec).
  rewrite HA in HA0. rewrite HB in HB0. injection HA0 as <-. injection HB0 as <-.
  exact Hrec.
Qed.

(* ------------------------------------------------------------------ *)
(** ** A table compared with itself *)

Lemma distinct_keys_once (ks : list cell) (x : cell) :
  distinct_keys ks = true -> In x ks ->
  length (List.filter (key_match x) ks) = 1.
Proof.
  induction ks as [|k rest IH]; intros Hd Hin; [contradiction|].
  cbn [distinct_keys] in Hd. apply andb_true_iff in Hd as [Hk Hd].
  apply negb_true_iff in Hk. cbn [List.filter].
  destruct Hin as [->|Hin].
  - rewrite key_match_refl. cbn [length]. f_equal.
    rewrite filter_none; [reflexivity|]. intros y Hy.
    apply not_true_iff_false. intros E. apply not_true_iff_false in Hk. apply Hk.
    apply has_key_In. now exists y.
  - replace (key_match x k) with false; [now apply IH|].
    symmetry. apply not_true_iff_false. intros E. apply not_true_iff_false in Hk. apply Hk.
    apply has_key_In. exists x. split; [exact Hin|]. now rewrite key_match_sym.
Qed.

Lemma distinct_keys_pairs (ks : list cell) :
  distinct_keys ks = true -> matching_pairs ks ks = length ks.
Proof.
  intros Hd. rewrite matching_pairs_sum.
  rewrite (list_sum_const (fun x => length (List.filter (key_match x) ks)) 1).
  - lia.
  - intros x Hx. now apply distinct_keys_once.
Qed.

(** Rows with distinct keys: two rows whose keys match are one row. *)
Lemma distinct_keys_row {A : Type} (key : A -> cell) (rs : list A) (l r : A) :
  distinct_keys (map key rs) = true ->
  In l rs -> In r rs -> key_match (key l) (key r) = true -> l = r.
Proof.
  induction rs as [|x rest IH]; intros Hd Hl Hr Hm; [contradiction|].
  cbn [map distinct_keys] in Hd. apply andb_true_iff in Hd as [Hk Hd].
  apply negb_true_iff, not_true_iff_false in Hk.
  destruct Hl as [->|Hl], Hr as [->|Hr].
  - reflexivity.
  - exfalso. apply Hk, has_key_In. exists (key r). split; [now apply in_map | exact Hm].
  - exfalso. apply Hk, has_key_In. exists (key l).
    split; [now apply in_map | now rewrite key_match_sym].
  - now apply IH.
Qed.

(** X9. A table whose keys are distinct, compared with itself under one key
    column, shows no difference: 'Matched Records' and the number of records
    of the detailed comparison are the number of its rows, 'Not Matched
    Records' is 0, and no key is missing on either side, whatever the
    compared columns are. The entry of every record is 'Matched' for every
    compared column other than the key that the table has once and that it
    has with neither suffix [_file1] nor [_file2]. *)
Theorem table_matches_itself
    (argsort : list cell -> list nat)
    (parse_date : cell -> option (nat * nat * nat))
    (datetimelike : list cell -> bool)
    (series_str : nat -> string -> list cell -> string)
    (h h' : gmap nat DataFrame) (l : nat) (a A : DataFrame)
    (config : Config) (rep : Report) :
  argsort_permutes argsort ->
  rectangular a ->
  h !! l = Some a ->
  file2_key_column config = file1_key_column config ->
  compare_files argsort parse_date datetimelike series_str l l config h = (Ok rep, h') ->
  prepare parse_date datetimelike (file1_key_column config) config a = Ok A ->
  distinct_keys (join_keys A) = true ->
  summary rep
  = mkFrame ["Description"; "Count"]
      [[Str "Matched Records"; Int (Z.of_nat (length (rows a)))];
       [Str "Not Matched Records"; Int 0]]
  /\ length (rows (comparison_df rep)) = length (rows a)
  /\ rows (missing_in_file1 rep) = []
  /\ rows (missing_in_file2 rep) = []
  /\ Forall (fun record =>
               forall i column,
                 map PyStr.lower (columns_to_compare config) !! i = Some column ->
                 column <> key_label ->
                 length (get_loc column (columns A)) = 1 ->
                 Forall (fun x => ~ In x (columns A))
                   [column +:+ suffix_file1; column +:+ suffix_file2] ->
                 record !! (S i) = Some (Str "Matched"))
       (rows (comparison_df rep)).
Proof.
  intros Hperm Hra Hl Hkey Hrun HA Hd.
  assert (HB : prepare parse_date datetimelike (file2_key_column config) config a = Ok A)
    by now rewrite Hkey.
  pose proof (prepare_columns _ _ _ _ _ _ HA) as CA.
  change (columns A = prepared_labels (file1_key_column config) a) in CA.
  pose proof (compare_files_result _ _ _ _ _ _ _ _ _ _ _ _ Hl Hl Hrun) as Hrep.
  symmetry in Hrep.
  destruct (report_sections argsort parse_date datetimelike series_str a a A A config rep
              Hperm Hra Hra Hrep HA HB) as (M1 & M2 & Hsum).
  assert (Hnone : List.filter (fun k => negb (has_key (join_keys A) k)) (join_keys A) = []).
  { apply filter_none. intros k Hin. now rewrite (has_key_self _ _ Hin). }
  rewrite Hnone in M1, M2, Hsum. cbn [map length Nat.add] in M1, M2, Hsum.
  apply Permutation_sym, Permutation_nil in M1.
  apply Permutation_sym, Permutation_nil in M2.
  rewrite (distinct_keys_pairs _ Hd) in Hsum.
  assert (Hlen : length (join_keys A) = length (rows a)).
  { unfold join_keys. rewrite length_map. eapply prepare_length, HA. }
  rewrite Hlen in Hsum.
  split; [exact Hsum|]. split; [|split; [exact M1|split; [exact M2|]]].
  - destruct (compare_frames_report _ _ _ _ _ _ _ _ Hrep) as (m & _ & E).
    rewrite E in Hsum |- *. cbn [summary comparison_df report_of rows] in Hsum |- *.
    rewrite comparison_results_length.
    injection Hsum as Hsum _. now apply Nat2Z.inj in Hsum.
  - apply List.Forall_forall. intros record Hin i column Hi Hk Hcol Hfree.
    pose proof (records_pair_rows argsort parse_date datetimelike series_str h h' l l a a
                  config rep i column Hperm Hra Hra Hl Hl Hrun Hi Hk) as Hrec.
    cbv zeta in Hrec. rewrite Hkey, <- CA in Hrec.
    specialize (Hrec Hcol Hcol).
    destruct Hrec as (A1 & A2 & HA1 & HA2 & Hrec).
    { apply Forall_cons in Hfree as [N1 Hfree]. apply Forall_cons in Hfree as [N2 _].
      repeat constructor; assumption. }
    rewrite HA in HA1, HA2. injection HA1 as <-. injection HA2 as <-.
    rewrite List.Forall_forall in Hrec.
    destruct (Hrec record Hin) as (x & y & Hx & Hy & Hm & _ & ->).
    assert (E : x = y).
    { apply (distinct_keys_row (fun r => item (columns A) r key_label) (rows A));
        assumption. }
    subst y. unfold verdict. now rewrite String.eqb_refl.
Qed.

(* ------------------------------------------------------------------ *)
(** ** More on the date normalisation *)

Section MoreDates.

Variable parse_date : cell -> option (nat * nat * nat).
Variable datetimelike : list cell -> bool.

(** A round on a duplicated label raises [ValueError]. *)
Lemma normalize_step_duplicated (d : DataFrame) (col : string) :
  duplicated col (columns d) = true ->
  normalize_step parse_date datetimelike d col = Raise ValueError.
Proof.
  unfold normalize_step, duplicated. intros H.
  destruct (get_loc col (columns d)) as [|p [|q ps]] eqn:Hp; try discriminate.
  replace (label_in col (columns d)) with true; [reflexivity|].
  symmetry. apply not_false_iff_true. intros E. apply get_loc_nil in E. congruence.
Qed.

(** Why a round raises. *)
Lemma normalize_step_Raise (d : DataFrame) (col : string) (e : exn) :
  normalize_step parse_date datetimelike d col = Raise e ->
  (e = ValueError /\ duplicated col (columns d) = true)
  \/ (e = AttributeError /\ convertible datetimelike d col = false).
Proof.
  unfold normalize_step, duplicated, convertible.
  destruct (label_in col (columns d)) eqn:Hin; [|discriminate].
  destruct (get_loc col (columns d)) as [|p [|q ps]] eqn:Hp.
  - apply get_loc_nil in Hp. congruence.
  - destruct (datetimelike (column_values p d)); [discriminate|].
    intros [= <-]. now right.
  - intros [= <-]. now left.
Qed.

Lemma normalize_state_shape (date_columns : list string) :
  forall d,
  columns (normalize_state parse_date datetimelike date_columns d) = columns d
  /\ Forall2 (fun r r' => length r' = length r)
       (rows d) (rows (normalize_state parse_date datetimelike date_columns d)).
Proof.
  induction date_columns as [|col rest IH]; intros d; cbn [normalize_state].
  - split; [reflexivity|]. apply Forall2_same_length_lookup_2; [reflexivity|].
    intros i x y Hx Hy. congruence.
  - destruct (normalize_step parse_date datetimelike d col) as [d1|e] eqn:E.
    + destruct (IH d1) as [Hc Hr].
      apply normalize_step_Ok in E as [[_ ->]|(p & _ & _ & ->)]; [now split|].
      cbn [set_column columns rows] in Hc, Hr. split; [exact Hc|].
      apply Forall2_fmap_l in Hr. eapply Forall2_impl; [exact Hr|].
      intros r r' H. cbn in H. now rewrite length_alter in H.
    + split; [reflexivity|]. apply Forall2_same_length_lookup_2; [reflexivity|].
      intros i x y Hx Hy. congruence.
Qed.

(** The loop on the heap: the outcome of [normalize_frame], and the frame of
    [normalize_state] left in the object. *)
Lemma normalize_loop_state (date_columns : list string) :
  forall (h : gmap nat DataFrame) (l : nat) (d : DataFrame),
  h !! l = Some d ->
  normalize_loop parse_date datetimelike l date_columns h
  = (match normalize_frame parse_date datetimelike date_columns d with
     | Ok _ => Ok tt
     | Raise e => Raise e
     end, <[l := normalize_state parse_date datetimelike date_columns d]> h).
Proof.
  induction date_columns as [|col rest IH]; intros h l d Hl; simpl.
  - unfold mret, Py_ret. now rewrite insert_id.
  - rewrite bind_run, (normalize_column_run parse_date datetimelike h l d col Hl).
    destruct (normalize_step parse_date datetimelike d col) as [d1|e].
    + rewrite (IH (<[l := d1]> h) l d1) by apply lookup_insert_eq.
      now rewrite insert_insert_eq.
    + now rewrite insert_id.
Qed.

Lemma normalize_dates_state (date_columns : list string)
    (h : gmap nat DataFrame) (l : nat) (d : DataFrame) :
  h !! l = Some d ->
  normalize_dates parse_date datetimelike l date_columns h
  = (match normalize_frame parse_date datetimelike date_columns d with
     | Ok _ => Ok l
     | Raise e => Raise e
     end, <[l := normalize_state parse_date datetimelike date_columns d]> h).
Proof.
  intros Hl. unfold normalize_dates.
  rewrite bind_run, (normalize_loop_state date_columns h l d Hl).
  destruct (normalize_frame parse_date datetimelike date_columns d); reflexivity.
Qed.

Lemma normalize_state_done (date_columns : list string) :
  forall d d', normalize_frame parse_date datetimelike date_columns d = Ok d' ->
  normalize_state parse_date datetimelike date_columns d = d'.
Proof.
  induction date_columns as [|col rest IH]; intros d d' H; simpl in H |- *.
  - congruence.
  - destruct (normalize_step parse_date datetimelike d col); [now apply IH | discriminate].
Qed.

(** Why the loop raises: a named label is duplicated, or a named column of
    the frame it leaves behind does not convert. *)
Lemma normalize_frame_Raise (date_columns : list string) :
  forall d e, normalize_frame parse_date datetimelike date_columns d = Raise e ->
  (e = ValueError
   /\ existsb (fun col => duplicated col (columns d)) date_columns = true)
  \/ (e = AttributeError
      /\ existsb (fun col =>
                    negb (convertible datetimelike
                            (normalize_state parse_date datetimelike date_columns d) col))
           date_columns = true).
Proof.
  induction date_columns as [|col rest IH]; intros d e H; simpl in H; [discriminate|].
  cbn [normalize_state existsb].
  destruct (normalize_step parse_date datetimelike d col) as [d1|e1] eqn:E.
  - destruct (IH d1 e H) as [[-> Hd]|[-> Hc]].
    + left. split; [reflexivity|]. rewrite (normalize_step_columns _ _ _ _ _ E) in Hd.
      rewrite Hd. apply orb_true_r.
    + right. split; [reflexivity|]. rewrite Hc. apply orb_true_r.
  - injection H as <-. destruct (normalize_step_Raise d col e1 E) as [[-> Hd]|[-> Hc]].
    + left. now rewrite Hd.
    + right. now rewrite Hc.
Qed.

(** A duplicated named label keeps the loop from ending well. *)
Lemma normalize_frame_no_duplicates (date_columns : list string) :
  forall d d', normalize_frame parse_date datetimelike date_columns d = Ok d' ->
  existsb (fun col => duplicated col (columns d)) date_columns = false.
Proof.
  induction date_columns as [|col rest IH]; intros d d' H; simpl in H; [reflexivity|].
  cbn [existsb].
  destruct (normalize_step parse_date datetimelike d col) as [d1|e1] eqn:E; [|discriminate].
  rewrite <- (normalize_step_columns _ _ _ _ _ E), (IH d1 d' H), orb_false_r.
  rewrite (normalize_step_columns _ _ _ _ _ E).
  destruct (duplicated col (columns d)) eqn:Hd; [|reflexivity].
  rewrite (normalize_step_duplicated d col Hd) in E. discriminate.
Qed.

(** The rounds before a duplicated label are carried out. *)
Lemma normalize_state_stops (pre post : list string) (col : string) :
  forall d d',
  normalize_frame parse_date datetimelike pre d = Ok d' ->
  duplicated col (columns d) = true ->
  normalize_state parse_date datetimelike (pre ++ col :: post) d = d'
  /\ normalize_frame parse_date datetimelike (pre ++ col :: post) d = Raise ValueError.
Proof.
  induction pre as [|c pre IH]; intros d d' H Hdup; simpl in H |- *.
  - injection H as <-. now rewrite (normalize_step_duplicated d col Hdup).
  - destruct (normalize_step parse_date datetimelike d c) as [d1|] eqn:E; [|discriminate].
    apply IH; [exact H|]. now rewrite (normalize_step_columns _ _ _ _ _ E).
Qed.

(** The specified table depends on which labels are named only. *)
Lemma dates_normalized_members (dc dc' : list string) (d : DataFrame) :
  (forall c, In c dc <-> In c dc') ->
  dates_normalized parse_date dc d = dates_normalized parse_date dc' d.
Proof.
  intros H. unfold dates_normalized. f_equal. apply map_ext. intros row.
  apply imap_ext. intros i v _. destruct (columns d !! i) as [c|]; [|reflexivity].
  replace (label_in c dc') with (label_in c dc); [reflexivity|].
  destruct (label_in c dc') eqn:E.
  - apply label_in_In. apply label_in_In in E. now apply H.
  - apply label_in_false. apply label_in_false in E. intros Hin. apply E. now apply H.
Qed.

(** On the specified table, a round for one of the names changes nothing
    when a date is read as itself. *)
Lemma normalize_step_fixed (dc : list string) (d : DataFrame) (col : string) :
  (forall c, to_date parse_date (to_date parse_date c) = to_date parse_date c) ->
  In col dc ->
  duplicated col (columns d) = false ->
  convertible datetimelike (dates_normalized parse_date dc d) col = true ->
  normalize_step parse_date datetimelike (dates_normalized parse_date dc d) col
  = Ok (dates_normalized parse_date dc d).
Proof.
  intros Hid Hin Hdup Hconv. unfold normalize_step, convertible, duplicated in *.
  cbn [dates_normalized columns] in *.
  destruct (label_in col (columns d)) eqn:Hl; [|reflexivity].
  destruct (get_loc col (columns d)) as [|p [|q ps]] eqn:Hp; try discriminate.
  - apply get_loc_nil in Hp. congruence.
  - rewrite Hconv. f_equal. unfold set_column, dates_normalized. cbn [columns rows].
    f_equal. rewrite map_map. apply map_ext. intros row.
    apply list_eq. intros i. rewrite list_lookup_alter, !list_lookup_imap.
    destruct (decide (p = i)) as [<-|Hne]; [|reflexivity].
    rewrite (get_loc_single_lookup _ _ _ Hp).
    destruct (row !! p) as [v|]; [|reflexivity]. cbn.
    replace (label_in col dc) with true by (symmetry; now apply label_in_In).
    f_equal. rewrite <- (to_date_parsed parse_date v). apply Hid.
Qed.

Lemma normalize_frame_fixed (dc : list string) (e : DataFrame) :
  Forall (fun col => normalize_step parse_date datetimelike e col = Ok e) dc ->
  normalize_frame parse_date datetimelike dc e = Ok e.
Proof.
  induction 1 as [|col rest Hcol _ IH]; [reflexivity|]. simpl. now rewrite Hcol.
Qed.

End MoreDates.

(** X10. Whatever [normalize_dates] does, the object holds a frame with the
    labels it had and rows of the length they had. The call returns the
    frame, or raises [ValueError], and then a label it was given occurs more
    than once in the frame, or raises [AttributeError], and then a column it
    was given does not convert to a datetime column; a duplicated label
    always makes it raise. *)
Theorem normalize_dates_outcomes
    (parse_date : cell -> option (nat * nat * nat))
    (datetimelike : list cell -> bool)
    (h : gmap nat DataFrame) (df : nat) (d : DataFrame) (date_columns : list string) :
  h !! df = Some d ->
  exists r d',
    normalize_dates parse_date datetimelike df date_columns h = (r, <[df := d']> h)
    /\ columns d' = columns d
    /\ Forall2 (fun row row' => length row' = length row) (rows d) (rows d')
    /\ (r = Ok df
        \/ (r = Raise ValueError
            /\ existsb (fun col => duplicated col (columns d)) date_columns = true)
        \/ (r = Raise AttributeError
            /\ existsb (fun col => negb (convertible datetimelike d' col)) date_columns
               = true))
    /\ (existsb (fun col => duplicated col (columns d)) date_columns = true ->
        r = Raise ValueError \/ r = Raise AttributeError).
Proof.
  intros Hl. eexists _, (normalize_state parse_date datetimelike date_columns d).
  split; [exact (normalize_dates_state parse_date datetimelike date_columns h df d Hl)|].
  destruct (normalize_state_shape parse_date datetimelike date_columns d) as [Hc Hr].
  split; [exact Hc|]. split; [exact Hr|].
  destruct (normalize_frame parse_date datetimelike date_columns d) as [d1|e] eqn:E.
  - split; [now left|]. intros Hdup.
    rewrite (normalize_frame_no_duplicates _ _ _ _ _ E) in Hdup. discriminate.
  - destruct (normalize_frame_Raise _ _ _ _ _ E) as [[-> Hd]|[-> Hd]].
    + split; [right; left; now split | intros _; now left].
    + split; [right; right; now split | intros _; now right].
Qed.

(** X11. A failure of [normalize_dates] is not undone: when the labels
    named before a duplicated one are distinct, occur at most once and label
    columns that convert, the call raises [ValueError] and leaves their
    columns normalised in the frame. *)
Theorem normalize_dates_fails_midway
    (parse_date : cell -> option (nat * nat * nat))
    (datetimelike : list cell -> bool)
    (h : gmap nat DataFrame) (df : nat) (d : DataFrame)
    (before after : list string) (col : string) :
  h !! df = Some d ->
  NoDup before ->
  existsb (fun c => duplicated c (columns d)) before = false ->
  forallb (convertible datetimelike d) before = true ->
  duplicated col (columns d) = true ->
  normalize_dates parse_date datetimelike df (before ++ col :: after) h
  = (Raise ValueError, <[df := dates_normalized parse_date before d]> h).
Proof.
  intros Hl Hnd Hpre Hconv Hdup.
  rewrite (normalize_dates_state parse_date datetimelike _ h df d Hl).
  destruct (normalize_frame_succeeds parse_date datetimelike before d Hnd Hpre Hconv)
    as [d' Hb].
  pose proof (normalize_frame_result parse_date datetimelike before d d' (or_introl Hnd) Hb)
    as ->.
  destruct (normalize_state_stops parse_date datetimelike before after col d _ Hb Hdup)
    as [-> ->].
  reflexivity.
Qed.

(** X12. When the call succeeds the order in which the date columns are
    named does not matter: for distinct names, none of them duplicated in
    the frame and each labelling a column that converts, a call with the
    names in another order leaves the same heap. *)
Theorem normalize_dates_ignores_order
    (parse_date : cell -> option (nat * nat * nat))
    (datetimelike : list cell -> bool)
    (h : gmap nat DataFrame) (df : nat) (d : DataFrame) (dc dc' : list string) :
  h !! df = Some d ->
  NoDup dc -> Permutation dc dc' ->
  existsb (fun c => duplicated c (columns d)) dc = false ->
  forallb (convertible datetimelike d) dc = true ->
  normalize_dates parse_date datetimelike df dc' h
  = normalize_dates parse_date datetimelike df dc h
  /\ normalize_dates parse_date datetimelike df dc h
     = (Ok df, <[df := dates_normalized parse_date dc d]> h).
Proof.
  intros Hl Hnd Hperm Hdup Hconv.
  assert (Hnd' : NoDup dc') by (rewrite <- Hperm; exact Hnd).
  assert (Hdup' : existsb (fun c => duplicated c (columns d)) dc' = false).
  { apply not_true_iff_false. intros E. apply existsb_exists in E as (c & Hc & E).
    apply not_true_iff_false in Hdup. apply Hdup. apply existsb_exists. exists c.
    split; [|exact E]. exact (Permutation_in _ (Permutation_sym Hperm) Hc). }
  assert (Hconv' : forallb (convertible datetimelike d) dc' = true).
  { rewrite forallb_forall in Hconv |- *. intros c Hc. apply Hconv.
    exact (Permutation_in _ (Permutation_sym Hperm) Hc). }
  rewrite !(normalize_dates_state parse_date datetimelike _ h df d Hl).
  destruct (normalize_frame_succeeds parse_date datetimelike dc d Hnd Hdup Hconv) as [e E].
  destruct (normalize_frame_succeeds parse_date datetimelike dc' d Hnd' Hdup' Hconv')
    as [e' E'].
  pose proof (normalize_frame_result parse_date datetimelike dc d e (or_introl Hnd) E) as He.
  pose proof (normalize_frame_result parse_date datetimelike dc' d e' (or_introl Hnd') E')
    as He'.
  rewrite (normalize_state_done _ _ _ _ _ E), (normalize_state_done _ _ _ _ _ E'), E, E'.
  rewrite He, He', (dates_normalized_members parse_date dc' dc d); [now split|].
  intros c. split; intros Hc.
  - exact (Permutation_in _ (Permutation_sym Hperm) Hc).
  - exact (Permutation_in _ Hperm Hc).
Qed.

(** X13. When a date is read as itself and the normalised columns convert,
    normalising twice is normalising once, also when a label is named twice:
    after a call that succeeds, a second call succeeds and leaves the heap as
    it is. *)
Theorem normalize_dates_is_idempotent
    (parse_date : cell -> option (nat * nat * nat))
    (datetimelike : list cell -> bool)
    (h h1 : gmap nat DataFrame) (df : nat) (d : DataFrame) (date_columns : list string) :
  (forall c, to_date parse_date (to_date parse_date c) = to_date parse_date c) ->
  h !! df = Some d ->
  normalize_dates parse_date datetimelike df date_columns h = (Ok df, h1) ->
  forallb (convertible datetimelike (dates_normalized parse_date date_columns d))
    date_columns = true ->
  h1 = <[df := dates_normalized parse_date date_columns d]> h
  /\ normalize_dates parse_date datetimelike df date_columns h1 = (Ok df, h1).
Proof.
  intros Hid Hl Hrun Hconv.
  rewrite (normalize_dates_state parse_date datetimelike _ h df d Hl) in Hrun.
  destruct (normalize_frame parse_date datetimelike date_columns d) as [e|] eqn:E;
    [|discriminate].
  rewrite (normalize_state_done _ _ _ _ _ E) in Hrun.
  pose proof (normalize_frame_result parse_date datetimelike date_columns d e
                (or_intror Hid) E) as ->.
  injection Hrun as <-. split; [reflexivity|].
  rewrite (normalize_dates_state parse_date datetimelike _ _ df _ (lookup_insert_eq _ _ _)).
  pose proof (normalize_frame_no_duplicates _ _ _ _ _ E) as Hdup.
  assert (F : normalize_frame parse_date datetimelike date_columns
                (dates_normalized parse_date date_columns d)
              = Ok (dates_normalized parse_date date_columns d)).
  { apply normalize_frame_fixed. apply List.Forall_forall. intros col Hin.
    apply normalize_step_fixed; [exact Hid | exact Hin | |].
    - apply not_true_iff_false. intros Hd. apply not_true_iff_false in Hdup. apply Hdup.
      apply existsb_exists. now exists col.
    - rewrite forallb_forall in Hconv. now apply Hconv. }
  rewrite F, (normalize_state_done _ _ _ _ _ F). now rewrite insert_insert_eq.
Qed.

(* ------------------------------------------------------------------ *)
(** ** Whitespace *)

Lemma append_cons (c : ascii) (x s : string) :
  String c x +:+ s = String c (x +:+ s).
Proof. reflexivity. Qed.

Lemma lstrip_whitespace (pad s : string) :
  whitespace pad = true -> PyStr.lstrip (pad +:+ s) = PyStr.lstrip s.
Proof.
  induction pad as [|c pad IH]; intros H; [reflexivity|].
  cbn [whitespace] in H. apply andb_true_iff in H as [Hc H].
  rewrite append_cons. cbn [PyStr.lstrip]. rewrite Hc. now apply IH.
Qed.

Lemma rstrip_all_whitespace (pad : string) :
  whitespace pad = true -> PyStr.rstrip pad = EmptyString.
Proof.
  induction pad as [|c pad IH]; intros H; [reflexivity|].
  cbn [whitespace] in H. apply andb_true_iff in H as [Hc H].
  cbn [PyStr.rstrip]. now rewrite (IH H), Hc.
Qed.

Lemma rstrip_whitespace (s pad : string) :
  whitespace pad = true -> PyStr.rstrip (s +:+ pad) = PyStr.rstrip s.
Proof.
  intros H. induction s as [|c s IH]; [now apply rstrip_all_whitespace|].
  rewrite append_cons. cbn [PyStr.rstrip]. now rewrite IH.
Qed.

Lemma lstrip_all_whitespace (pad : string) :
  whitespace pad = true -> PyStr.lstrip pad = EmptyString.
Proof.
  induction pad as [|c pad IH]; intros H; [reflexivity|].
  cbn [whitespace] in H. apply andb_true_iff in H as [Hc H].
  cbn [PyStr.lstrip]. rewrite Hc. now apply IH.
Qed.

(** Whitespace around a text is dropped by [strip]. *)
Lemma strip_padding (pad s pad' : string) :
  whitespace pad = true -> whitespace pad' = true ->
  PyStr.strip (pad +:+ s +:+ pad') = PyStr.strip s.
Proof.
  intros H H'. unfold PyStr.strip. rewrite lstrip_whitespace by exact H.
  induction s as [|c s IH].
  - change (EmptyString +:+ pad') with pad'. now rewrite lstrip_all_whitespace.
  - rewrite append_cons. cbn [PyStr.lstrip]. destruct (PyStr.is_space c); [exact IH|].
    rewrite <- append_cons. exact (rstrip_whitespace (String c s) pad' H').
Qed.

Lemma lstrip_fixed (s : string) : starts_with_space s = false -> PyStr.lstrip s = s.
Proof.
  destruct s as [|c s]; [reflexivity|]. cbn [starts_with_space PyStr.lstrip]. now intros ->.
Qed.

Lemma lstrip_starts (s : string) : starts_with_space (PyStr.lstrip s) = false.
Proof.
  induction s as [|c s IH]; [reflexivity|]. cbn [PyStr.lstrip].
  destruct (PyStr.is_space c) eqn:E; [exact IH | exact E].
Qed.

Lemma rstrip_starts (s : string) :
  starts_with_space s = false -> starts_with_space (PyStr.rstrip s) = false.
Proof.
  destruct s as [|c s]; [reflexivity|]. cbn [starts_with_space PyStr.rstrip]. intros Hc.
  destruct (PyStr.rstrip s); [now rewrite Hc | exact Hc].
Qed.

Lemma rstrip_ends (s : string) : ends_with_space (PyStr.rstrip s) = false.
Proof.
  induction s as [|c s IH]; [reflexivity|]. cbn [PyStr.rstrip].
  destruct (PyStr.rstrip s) as [|c' r'].
  - destruct (PyStr.is_space c) eqn:E; [reflexivity | exact E].
  - exact IH.
Qed.

Lemma rstrip_fixed (s : string) : ends_with_space s = false -> PyStr.rstrip s = s.
Proof.
  induction s as [|c s IH]; [reflexivity|]. intros H. cbn [PyStr.rstrip].
  destruct s as [|c' s'].
  - cbn [ends_with_space PyStr.rstrip] in H |- *. now rewrite H.
  - rewrite IH by exact H. reflexivity.
Qed.

Lemma strip_trimmed (s : string) : trimmed (PyStr.strip s) = true.
Proof.
  unfold trimmed, PyStr.strip.
  now rewrite (rstrip_starts _ (lstrip_starts s)), rstrip_ends.
Qed.

Lemma strip_fixed (s : string) : trimmed s = true -> PyStr.strip s = s.
Proof.
  unfold trimmed, PyStr.strip. intros H. apply andb_true_iff in H as [H1 H2].
  apply negb_true_iff in H1, H2. rewrite (lstrip_fixed _ H1). now apply rstrip_fixed.
Qed.

(** X14. [read_excel] returns a new object that holds the rows read from the
    file under the stripped labels: no label starts or ends with whitespace,
    a label that had none around it is kept as it is, and whitespace around
    a name is dropped. Every other object is left as it was. *)
Theorem read_excel_strips_labels (sheet : DataFrame) (h : gmap nat DataFrame) :
  exists df d,
    read_excel sheet h = (Ok df, <[df := d]> h)
    /\ h !! df = None
    /\ rows d = rows sheet
    /\ columns d = map PyStr.strip (columns sheet)
    /\ Forall (fun x => trimmed x = true) (columns d)
    /\ Forall2 (fun x y =>
                  (trimmed x = true -> y = x)
                  /\ forall pad name pad',
                       whitespace pad = true -> whitespace pad' = true ->
                       trimmed name = true -> x = pad +:+ name +:+ pad' -> y = name)
         (columns sheet) (columns d).
Proof.
  exists (fresh (dom h)), (mkFrame (map PyStr.strip (columns sheet)) (rows sheet)).
  split.
  { unfold read_excel. rewrite bind_run. unfold alloc. rewrite bind_run, bind_run.
    unfold load, store. rewrite lookup_insert_eq. cbn [default columns rows].
    unfold mret, Py_ret. now rewrite insert_insert_eq. }
  split; [apply (fresh_unallocated h h), preserves_refl|].
  cbn [rows columns]. split; [reflexivity|]. split; [reflexivity|]. split.
  - apply List.Forall_forall. intros x Hx. apply in_map_iff in Hx as (y & <- & _).
    apply strip_trimmed.
  - apply Forall2_fmap_r, Forall2_same_length_lookup_2; [reflexivity|].
    intros i x y Hx Hy. assert (x = y) as <- by congruence. split.
    + apply strip_fixed.
    + intros pad name pad' Hp Hp' Hn ->. rewrite strip_padding by assumption.
      now apply strip_fixed.
Qed.

(** X15. Whitespace around a text does not change a verdict: when the two
    labels of a compared column occur once each, padding the text of the cell
    of either file gives the same entry in the record. *)
Theorem padding_keeps_the_verdict
    (series_str : nat -> string -> list cell -> string)
    (name : nat) (index : list string) (row row' : list cell) (column : string)
    (p1 p2 : nat) (s1 s2 pad1 pad1' pad2 pad2' : string) :
  get_loc (column +:+ suffix_file1) index = [p1] ->
  get_loc (column +:+ suffix_file2) index = [p2] ->
  whitespace pad1 = true -> whitespace pad1' = true ->
  whitespace pad2 = true -> whitespace pad2' = true ->
  nth p1 row NaN = Str s1 -> nth p2 row NaN = Str s2 ->
  nth p1 row' NaN = Str (pad1 +:+ s1 +:+ pad1') ->
  nth p2 row' NaN = Str (pad2 +:+ s2 +:+ pad2') ->
  compare_column series_str name index row' column
  = compare_column series_str name index row column.
Proof.
  intros H1 H2 W1 W1' W2 W2' E1 E2 E1' E2'.
  unfold compare_column, str_item. rewrite H1, H2, E1, E2, E1', E2'.
  cbn [py_str]. now rewrite !strip_padding by assumption.
Qed.

(* ------------------------------------------------------------------ *)
(** ** The sorting algorithm *)

(** Whether [pd.merge] raises depends on the labels of its inputs only. *)
Lemma merge_labels_only (l r l' r' m : DataFrame) :
  columns l' = columns l -> columns r' = columns r ->
  merge l r = Ok m -> exists m', merge l' r' = Ok m'.
Proof.
  intros Hl Hr. unfold merge. rewrite Hl, Hr.
  destruct (get_loc key_label (columns l)) as [|kl [|]]; try discriminate;
    destruct (get_loc key_label (columns r)) as [|kr [|]]; try discriminate.
  destruct (existsb _ _); [discriminate|]. intros _. now eexists.
Qed.

Section SortAlgorithm.

Variables argsort argsort' : list cell -> list nat.
Variable parse_date : cell -> option (nat * nat * nat).
Variable datetimelike : list cell -> bool.
Variable series_str : nat -> string -> list cell -> string.

(** Whether the sort raises does not depend on the algorithm. *)
Lemma sort_values_any_algorithm (label : string) (d d1 : DataFrame) :
  sort_values argsort label d = Ok d1 ->
  exists d2, sort_values argsort' label d = Ok d2.
Proof.
  intros H. destruct (sort_values_key _ _ _ _ H) as [p Hp].
  pose proof (sort_values_outcome argsort label d p Hp) as Ho.
  pose proof (sort_values_outcome argsort' label d p Hp) as Ho'.
  destruct (homogeneous (present_keys (column_values p d))); [exact Ho'|congruence].
Qed.

Lemma compare_frames_any_algorithm (a b : DataFrame) (config : Config) (rep : Report) :
  compare_frames argsort parse_date datetimelike series_str a b config = Ok rep ->
  exists rep', compare_frames argsort' parse_date datetimelike series_str a b config = Ok rep'.
Proof.
  intros H. destruct (compare_frames_report _ _ _ _ _ _ _ _ H) as (m & Hm & _).
  destruct (merged_frame_anatomy _ _ _ _ _ _ _ Hm)
    as (A & B & A1 & B1 & HA & HB & HA1 & HB1 & HM).
  destruct (sort_values_any_algorithm _ _ _ HA1) as [A2 HA2].
  destruct (sort_values_any_algorithm _ _ _ HB1) as [B2 HB2].
  destruct (merge_labels_only A1 B1 A2 B2 m) as [m' HM']; [| |exact HM|].
  - now rewrite (sort_values_columns _ _ _ _ HA2), (sort_values_columns _ _ _ _ HA1).
  - now rewrite (sort_values_columns _ _ _ _ HB2), (sort_values_columns _ _ _ _ HB1).
  - unfold compare_frames, merged_frame. rewrite HA, HB. cbn [bind_result].
    rewrite HA2, HB2. cbn [bind_result]. rewrite HM'. cbn [bind_result]. now eexists.
Qed.

End SortAlgorithm.

(** The number of records of the detailed comparison, from the keys of the
    two prepared tables. *)
Lemma report_records_count
    (argsort : list cell -> list nat)
    (parse_date : cell -> option (nat * nat * nat))
    (datetimelike : list cell -> bool)
    (series_str : nat -> string -> list cell -> string)
    (a b A B : DataFrame) (config : Config) (rep : Report) :
  argsort_permutes argsort -> rectangular a -> rectangular b ->
  compare_frames argsort parse_date datetimelike series_str a b config = Ok rep ->
  prepare parse_date datetimelike (file1_key_column config) config a = Ok A ->
  prepare parse_date datetimelike (file2_key_column config) config b = Ok B ->
  length (rows (comparison_df rep)) = matching_pairs (join_keys A) (join_keys B).
Proof.
  intros Hperm Hra Hrb Hrep HA HB.
  destruct (report_sections argsort parse_date datetimelike series_str a b A B config rep
              Hperm Hra Hrb Hrep HA HB) as (_ & _ & Hsum).
  destruct (compare_frames_report _ _ _ _ _ _ _ _ Hrep) as (m & _ & E).
  rewrite E in Hsum |- *. cbn [summary comparison_df report_of rows] in Hsum |- *.
  rewrite comparison_results_length.
  injection Hsum as Hsum _. now apply Nat2Z.inj in Hsum.
Qed.

(** X16. The report does not depend on the sorting algorithm beyond the
    order of its rows: with another algorithm the comparison succeeds as
    well, with the same summary, the same number of records in the detailed
    comparison, and the same keys in the two lists of missing keys. *)
Theorem report_ignores_the_sorting_algorithm
    (argsort argsort' : list cell -> list nat)
    (parse_date : cell -> option (nat * nat * nat))
    (datetimelike : list cell -> bool)
    (series_str : nat -> string -> list cell -> string)
    (h h' : gmap nat DataFrame) (l1 l2 : nat) (a b : DataFrame)
    (config : Config) (rep : Report) :
  argsort_permutes argsort -> argsort_permutes argsort' ->
  rectangular a -> rectangular b ->
  h !! l1 = Some a -> h !! l2 = Some b ->
  compare_files argsort parse_date datetimelike series_str l1 l2 config h = (Ok rep, h') ->
  exists rep' h'',
    compare_files argsort' parse_date datetimelike series_str l1 l2 config h = (Ok rep', h'')
    /\ summary rep' = summary rep
    /\ length (rows (comparison_df rep')) = length (rows (comparison_df rep))
    /\ Permutation (rows (missing_in_file1 rep')) (rows (missing_in_file1 rep))
    /\ Permutation (rows (missing_in_file2 rep')) (rows (missing_in_file2 rep)).
Proof.
  intros Hperm Hperm' Hra Hrb H1 H2 Hrun.
  apply (compare_files_result _ _ _ _ _ _ _ _ _ _ _ _ H1 H2) in Hrun. symmetry in Hrun.
  destruct (compare_frames_any_algorithm argsort argsort' _ _ _ _ _ _ _ Hrun) as [rep' Hrun'].
  destruct (compare_files_run argsort' parse_date datetimelike series_str h l1 l2 a b config H1 H2)
    as (h'' & Hfiles & _).
  rewrite Hrun' in Hfiles. exists rep', h''. split; [exact Hfiles|].
  destruct (compare_frames_report _ _ _ _ _ _ _ _ Hrun) as (m & Hm & _).
  destruct (merged_frame_anatomy _ _ _ _ _ _ _ Hm) as (A & B & _ & _ & HA & HB & _).
  destruct (report_sections argsort parse_date datetimelike series_str a b A B config rep
              Hperm Hra Hrb Hrun HA HB) as (M1 & M2 & Hsum).
  destruct (report_sections argsort' parse_date datetimelike series_str a b A B config rep'
              Hperm' Hra Hrb Hrun' HA HB) as (M1' & M2' & Hsum').
  split; [now rewrite Hsum, Hsum'|]. split.
  - rewrite (report_records_count argsort parse_date datetimelike series_str a b A B config rep)
      by assumption.
    now apply (report_records_count argsort' parse_date datetimelike series_str a b A B config rep').
  - split.
    + now rewrite M1, M1'.
    + now rewrite M2, M2'.
Qed.

(* ------------------------------------------------------------------ *)
(** ** The further properties on the example tables *)

Import MoreExamples.

(** X1 on the orders. *)
Lemma every_key_of_the_orders :
  exists A B,
    prepare ToyDates.parse_date ToyDates.datetimelike "ID" orders_config orders1 = Ok A
    /\ prepare ToyDates.parse_date ToyDates.datetimelike "Key" orders_config orders2 = Ok B
    /\ Forall (fun k =>
                 In [k] (rows (missing_in_file2 orders_report))
                 \/ exists record,
                      In record (rows (comparison_df orders_report))
                      /\ head record = Some k)
         (join_keys A)
    /\ Forall (fun k =>
                 In [k] (rows (missing_in_file1 orders_report))
                 \/ exists record k',
                      In record (rows (comparison_df orders_report))
                      /\ head record = Some k' /\ key_match k' k = true)
         (join_keys B).
Proof.
  exact (every_key_is_reported
           StableSort.argsort ToyDates.parse_date ToyDates.datetimelike ToyDates.series_str
           (two_tables orders1 orders2)
           (snd (run StableSort.argsort orders1 orders2 orders_config))
           0 1 orders1 orders2 orders_config orders_report
           stable_argsort_permutes
           (proj1 orders_rectangular) (proj2 orders_rectangular)
           eq_refl eq_refl orders_run).
Defined.

(** X2 on the orders. *)
Lemma detail_keys_of_the_orders :
  exists A B,
    prepare ToyDates.parse_date ToyDates.datetimelike "ID" orders_config orders1 = Ok A
    /\ prepare ToyDates.parse_date ToyDates.datetimelike "Key" orders_config orders2 = Ok B
    /\ Forall (fun record =>
                 exists k, head record = Some k
                           /\ has_key (join_keys A) k = true
                           /\ has_key (join_keys B) k = true)
         (rows (comparison_df orders_report)).
Proof.
  exact (detail_keys_are_in_both_tables
           StableSort.argsort ToyDates.parse_date ToyDates.datetimelike ToyDates.series_str
           (two_tables orders1 orders2)
           (snd (run StableSort.argsort orders1 orders2 orders_config))
           0 1 orders1 orders2 orders_config orders_report
           stable_argsort_permutes
           (proj1 orders_rectangular) (proj2 orders_rectangular)
           eq_refl eq_refl orders_run).
Defined.

(** X3 on the orders: two pairs of rows with matching keys. *)
Lemma matched_pairs_of_the_orders :
  exists A B,
    prepare ToyDates.parse_date ToyDates.datetimelike "ID" orders_config orders1 = Ok A
    /\ prepare ToyDates.parse_date ToyDates.datetimelike "Key" orders_config orders2 = Ok B
    /\ head (rows (summary orders_report))
       = Some [Str "Matched Records";
               Int (Z.of_nat (matching_pairs (join_keys A) (join_keys B)))]
    /\ length (rows (comparison_df orders_report))
       = matching_pairs (join_keys A) (join_keys B).
Proof.
  exact (matched_records_count_pairs
           StableSort.argsort ToyDates.parse_date ToyDates.datetimelike ToyDates.series_str
           (two_tables orders1 orders2)
           (snd (run StableSort.argsort orders1 orders2 orders_config))
           0 1 orders1 orders2 orders_config orders_report
           stable_argsort_permutes
           (proj1 orders_rectangular) (proj2 orders_rectangular)
           eq_refl eq_refl orders_run).
Defined.

Lemma orders_run_swapped :
  compare_files StableSort.argsort ToyDates.parse_date ToyDates.datetimelike ToyDates.series_str 1 0
    (swap_files orders_config) (two_tables orders1 orders2)
  = (Ok orders_report_swapped,
     snd (compare_files StableSort.argsort ToyDates.parse_date ToyDates.datetimelike ToyDates.series_str 1 0
            (swap_files orders_config) (two_tables orders1 orders2))).
Proof. vm_compute. reflexivity. Qed.

(** X4 on the orders: key 4 moves to 'Missing in File 2', key 2 to 'Missing
    in File 1'. *)
Lemma orders_in_the_other_order :
  Permutation (rows (missing_in_file1 orders_report_swapped))
    (rows (missing_in_file2 orders_report))
  /\ Permutation (rows (missing_in_file2 orders_report_swapped))
       (rows (missing_in_file1 orders_report))
  /\ summary orders_report_swapped = summary orders_report.
Proof.
  exact (swapping_files_swaps_missing_keys
           StableSort.argsort ToyDates.parse_date ToyDates.datetimelike ToyDates.series_str
           (two_tables orders1 orders2)
           (snd (run StableSort.argsort orders1 orders2 orders_config))
           (snd (compare_files StableSort.argsort ToyDates.parse_date ToyDates.datetimelike ToyDates.series_str
                   1 0 (swap_files orders_config) (two_tables orders1 orders2)))
           0 1 orders1 orders2 orders_config orders_report orders_report_swapped
           stable_argsort_permutes
           (proj1 orders_rectangular) (proj2 orders_rectangular)
           eq_refl eq_refl orders_run orders_run_swapped).
Defined.

Lemma twice_keyed_has_two_keys : two_key_columns "ID" twice_keyed.
Proof.
  split; [now left|]. exists "KeyColumn". split; [right; now left|].
  split; [discriminate | reflexivity].
Qed.

(** X5 on a file with the columns [ID] and [KeyColumn]. *)
Lemma twice_keyed_raises :
  exists e h',
    compare_files StableSort.argsort ToyDates.parse_date ToyDates.datetimelike ToyDates.series_str 0 1
      orders_config (two_tables twice_keyed orders2) = (Raise e, h')
    /\ (two_key_columns "ID" twice_keyed ->
        e = ValueError
        \/ prepare ToyDates.parse_date ToyDates.datetimelike "ID" orders_config twice_keyed
           = Raise AttributeError
        \/ prepare ToyDates.parse_date ToyDates.datetimelike "Key" orders_config orders2
           = Raise AttributeError).
Proof.
  exact (second_key_column_raises
           StableSort.argsort ToyDates.parse_date ToyDates.datetimelike ToyDates.series_str
           (two_tables twice_keyed orders2) 0 1 twice_keyed orders2 orders_config
           eq_refl eq_refl (or_introl twice_keyed_has_two_keys)).
Defined.

(** X6 on a file with a column [_MERGE]. *)
Lemma tagged_raises :
  exists e h',
    compare_files StableSort.argsort ToyDates.parse_date ToyDates.datetimelike ToyDates.series_str 0 1
      amount_config (two_tables tagged blank_amount) = (Raise e, h').
Proof.
  refine (indicator_label_raises
            StableSort.argsort ToyDates.parse_date ToyDates.datetimelike ToyDates.series_str
            (two_tables tagged blank_amount) 0 1 tagged blank_amount amount_config
            "_merge" eq_refl eq_refl _ _).
  - now left.
  - left. right. now left.
Defined.

Lemma orders_prepared :
  prepare ToyDates.parse_date ToyDates.datetimelike "ID" orders_config orders1
  = Ok orders1_prepared
  /\ prepare ToyDates.parse_date ToyDates.datetimelike "Key" orders_config orders2
     = Ok orders2_prepared.
Proof. split; reflexivity. Qed.



Lemma orders_have_no_suffix :
  Forall (fun x => ~ In x (columns orders1_prepared) /\ ~ In x (columns orders2_prepared))
    ["amount" +:+ suffix_file1; "amount" +:+ suffix_file2].
Proof.
  repeat constructor; intros H; vm_compute in H; intuition discriminate.
Qed.

(** X8 on the orders: the amounts of the rows with keys 1 and 3. *)
Lemma amounts_of_the_orders :
  Forall (fun record =>
            exists l r,
              In l (rows orders1_prepared) /\ In r (rows orders2_prepared)
              /\ key_match (item (columns orders1_prepared) l key_label)
                   (item (columns orders2_prepared) r key_label) = true
              /\ head record = Some (item (columns orders1_prepared) l key_label)
              /\ record !! 1
                 = Some (verdict (item (columns orders1_prepared) l "amount")
                           (item (columns orders2_prepared) r "amount")))
    (rows (comparison_df orders_report)).
Proof.
  refine (record_compares_matching_rows
            StableSort.argsort ToyDates.parse_date ToyDates.datetimelike ToyDates.series_str
            (two_tables orders1 orders2)
            (snd (run StableSort.argsort orders1 orders2 orders_config))
            0 1 orders1 orders2 orders1_prepared orders2_prepared
            orders_config orders_report 0 "amount"
            stable_argsort_permutes
            (proj1 orders_rectangular) (proj2 orders_rectangular)
            eq_refl eq_refl orders_run (proj1 orders_prepared) (proj2 orders_prepared)
            eq_refl _ eq_refl eq_refl eq_refl eq_refl orders_have_no_suffix).
  discriminate.
Defined.

Lemma own_run :
  compare_files StableSort.argsort ToyDates.parse_date ToyDates.datetimelike ToyDates.series_str 0 0
    own_config orders1_alone
  = (Ok own_report,
     snd (compare_files StableSort.argsort ToyDates.parse_date ToyDates.datetimelike ToyDates.series_str 0 0
            own_config orders1_alone)).
Proof. vm_compute. reflexivity. Qed.

Lemma own_prepared :
  prepare ToyDates.parse_date ToyDates.datetimelike "ID" own_config orders1
  = Ok orders1_prepared.
Proof. reflexivity. Qed.

(** X9 on the first file of the orders: three records, all matched. *)
Lemma orders1_matches_itself :
  summary own_report
  = mkFrame ["Description"; "Count"]
      [[Str "Matched Records"; Int (Z.of_nat (length (rows orders1)))];
       [Str "Not Matched Records"; Int 0]]
  /\ length (rows (comparison_df own_report)) = length (rows orders1)
  /\ rows (missing_in_file1 own_report) = []
  /\ rows (missing_in_file2 own_report) = []
  /\ Forall (fun record =>
               forall i column,
                 map PyStr.lower (columns_to_compare own_config) !! i = Some column ->
                 column <> key_label ->
                 length (get_loc column (columns orders1_prepared)) = 1 ->
                 Forall (fun x => ~ In x (columns orders1_prepared))
                   [column +:+ suffix_file1; column +:+ suffix_file2] ->
                 record !! (S i) = Some (Str "Matched"))
       (rows (comparison_df own_report)).
Proof.
  exact (table_matches_itself
           StableSort.argsort ToyDates.parse_date ToyDates.datetimelike ToyDates.series_str
           orders1_alone
           (snd (compare_files StableSort.argsort ToyDates.parse_date ToyDates.datetimelike
                   ToyDates.series_str 0 0 own_config orders1_alone))
           0 orders1 orders1_prepared own_config own_report
           stable_argsort_permutes (proj1 orders_rectangular)
           eq_refl eq_refl own_run own_prepared eq_refl).
Defined.

(** X10 on a table with the label [when] twice. *)
Lemma twice_dated_raises :
  exists r d',
    normalize_dates ToyDates.parse_date ToyDates.datetimelike 0 ["start"; "when"; "other"]
      (<[0 := twice_dated]> ∅)
    = (r, <[0 := d']> (<[0 := twice_dated]> ∅))
    /\ columns d' = columns twice_dated
    /\ Forall2 (fun row row' => length row' = length row) (rows twice_dated) (rows d')
    /\ (r = Ok 0
        \/ (r = Raise ValueError
            /\ existsb (fun col => duplicated col (columns twice_dated))
                 ["start"; "when"; "other"] = true)
        \/ (r = Raise AttributeError
            /\ existsb (fun col => negb (convertible ToyDates.datetimelike d' col))
                 ["start"; "when"; "other"] = true))
    /\ (existsb (fun col => duplicated col (columns twice_dated))
          ["start"; "when"; "other"] = true ->
        r = Raise ValueError \/ r = Raise AttributeError).
Proof.
  exact (normalize_dates_outcomes ToyDates.parse_date ToyDates.datetimelike
           (<[0 := twice_dated]> ∅) 0 twice_dated ["start"; "when"; "other"] eq_refl).
Defined.

Lemma start_is_unique : NoDup ["start"].
Proof. apply (bool_decide_unpack _); vm_compute; exact I. Qed.

(** X11 on the same table: [start] is normalised before [when] raises. *)
Lemma twice_dated_fails_midway :
  normalize_dates ToyDates.parse_date ToyDates.datetimelike 0 (["start"] ++ "when" :: ["other"])
    (<[0 := twice_dated]> ∅)
  = (Raise ValueError,
     <[0 := dates_normalized ToyDates.parse_date ["start"] twice_dated]>
       (<[0 := twice_dated]> ∅)).
Proof.
  exact (normalize_dates_fails_midway ToyDates.parse_date ToyDates.datetimelike
           (<[0 := twice_dated]> ∅) 0 twice_dated ["start"] ["other"] "when"
           eq_refl start_is_unique eq_refl eq_refl eq_refl).
Defined.

Lemma when_note_unique : NoDup ["when"; "note"].
Proof. apply (bool_decide_unpack _); vm_compute; exact I. Qed.

(** X12 on the table with a date column: [note] before [when] or after. *)
Lemma dated_in_either_order :
  normalize_dates ToyDates.parse_date ToyDates.datetimelike 0 ["note"; "when"] (<[0 := dated]> ∅)
  = normalize_dates ToyDates.parse_date ToyDates.datetimelike 0 ["when"; "note"] (<[0 := dated]> ∅)
  /\ normalize_dates ToyDates.parse_date ToyDates.datetimelike 0 ["when"; "note"] (<[0 := dated]> ∅)
     = (Ok 0, <[0 := dates_normalized ToyDates.parse_date ["when"; "note"] dated]>
                (<[0 := dated]> ∅)).
Proof.
  exact (normalize_dates_ignores_order ToyDates.parse_date ToyDates.datetimelike
           (<[0 := dated]> ∅) 0 dated ["when"; "note"] ["note"; "when"]
           eq_refl when_note_unique (perm_swap "note" "when" []) eq_refl eq_refl).
Defined.

(** The small date reader reads a date as itself. *)
Lemma toy_dates_read_back (c : cell) :
  to_date ToyDates.parse_date (to_date ToyDates.parse_date c)
  = to_date ToyDates.parse_date c.
Proof.
  unfold to_date at 2 3. destruct (ToyDates.parse_date c) as [[[y m] d]|]; reflexivity.
Qed.

Lemma dated_twice_run :
  normalize_dates ToyDates.parse_date ToyDates.datetimelike 0 ["when"; "when"]
    (<[0 := dated]> ∅)
  = (Ok 0, dated_twice_heap).
Proof. vm_compute. reflexivity. Qed.

(** X13 on the table with a date column, [when] named twice. *)
Lemma dated_twice :
  dated_twice_heap
  = <[0 := dates_normalized ToyDates.parse_date ["when"; "when"] dated]> (<[0 := dated]> ∅)
  /\ normalize_dates ToyDates.parse_date ToyDates.datetimelike 0 ["when"; "when"]
       dated_twice_heap
     = (Ok 0, dated_twice_heap).
Proof.
  exact (normalize_dates_is_idempotent ToyDates.parse_date ToyDates.datetimelike
           (<[0 := dated]> ∅) dated_twice_heap 0 dated ["when"; "when"]
           toy_dates_read_back eq_refl dated_twice_run eq_refl).
Defined.

(** X15 on the merged row of the flags: [" Yes "] for ["Yes"]. *)
Lemma padded_flag_row :
  compare_column ToyDates.series_str 0 flag_index flag_row "flag"
  = compare_column ToyDates.series_str 0 flag_index plain_flag_row "flag".
Proof.
  exact (padding_keeps_the_verdict ToyDates.series_str 0 flag_index
           plain_flag_row flag_row "flag" 1 2 "Yes" "Yes" " " " " "" ""
           eq_refl eq_refl eq_refl eq_refl eq_refl eq_refl
           eq_refl eq_refl eq_refl eq_refl).
Defined.

Lemma descending_permutes : argsort_permutes descending.
Proof.
  intros ks Hk. unfold descending. rewrite <- Permutation_rev.
  exact (stable_argsort_permutes ks Hk).
Qed.

(** X16 on the orders, sorted in descending order instead. *)
Lemma orders_sorted_descending :
  exists rep' h'',
    compare_files descending ToyDates.parse_date ToyDates.datetimelike ToyDates.series_str 0 1
      orders_config (two_tables orders1 orders2) = (Ok rep', h'')
    /\ summary rep' = summary orders_report
    /\ length (rows (comparison_df rep')) = length (rows (comparison_df orders_report))
    /\ Permutation (rows (missing_in_file1 rep')) (rows (missing_in_file1 orders_report))
    /\ Permutation (rows (missing_in_file2 rep')) (rows (missing_in_file2 orders_report)).
Proof.
  exact (report_ignores_the_sorting_algorithm
           StableSort.argsort descending ToyDates.parse_date ToyDates.datetimelike ToyDates.series_str
           (two_tables orders1 orders2)
           (snd (run StableSort.argsort orders1 orders2 orders_config))
           0 1 orders1 orders2 orders_config orders_report
           stable_argsort_permutes descending_permutes
           (proj1 orders_rectangular) (proj2 orders_rectangular)
           eq_refl eq_refl orders_run).
Defined.
